(** * The genome sequence codec of [src/genomics/compression.py]

    A shallow embedding of [GenomeCompressor] (validation, quality scores,
    2-bit encoding, pattern detection, chunked compression, decoding) and
    the properties of it that the specification states.

    Conventions of the embedding.
    - A Python [str] is a list of characters ([pystr]); characters are
      8-bit, and [str.upper] acts on the ASCII letters only.
    - A Python [bytes] is a list of [Byte.byte].
    - A Python [int] is a [Z]; a Python [float] is a binary64 [float].
    - A raised exception is the [Raise] branch of [result].
    - [zlib.compress], [zlib.decompress], [base64.b64encode] and
      [base64.b64decode] belong to the Python library, not to the
      repository: the codec is parametric in them (Section [Codec]). *)

From Stdlib Require Import ZArith String Ascii Bool Lia Strings.Byte.
From Stdlib Require Import Floats Uint63 Sorted List.
Import ListNotations.
Open Scope Z_scope.

Set Implicit Arguments.

(** ** Exceptions and the error monad *)

(** The exceptions the codec can raise.  [InvalidSequence] is
    [ValueError("Invalid genome sequence")] (compress, line 128) and
    [ChecksumMismatch pos] is
    [ValueError(f"Checksum mismatch for chunk at position {pos}")]
    (decompress, line 206); the others come from the Python runtime. *)
Inductive exn : Type :=
| InvalidSequence
| ChecksumMismatch (pos : Z)
| ValueError (msg : string)
| TypeError
| ZeroDivisionError
| OverflowError
| ZlibError
| BinasciiError
| UnicodeDecodeError.

Inductive result (A : Type) : Type :=
| Ok (a : A)
| Raise (e : exn).
Arguments Ok {A} a.
Arguments Raise {A} e.

Definition bind {A B} (r : result A) (k : A -> result B) : result B :=
  match r with
  | Ok a => k a
  | Raise e => Raise e
  end.

Notation "x <- r ;; k" := (bind r (fun x => k))
  (at level 61, r at next level, right associativity).

(** [[f(x) for x in xs]] when [f] may raise: the first failure, in list
    order, is the one that propagates. *)
Fixpoint mapM {A B} (f : A -> result B) (xs : list A) : result (list B) :=
  match xs with
  | [] => Ok []
  | x :: xs' => y <- f x ;; ys <- mapM f xs' ;; Ok (y :: ys)
  end.

(** ** Python strings, bytes, ranges and slices *)

Definition pystr := list ascii.
Definition bytes := list byte.

(** String literals of the source. *)
Definition lit (s : string) : pystr := list_ascii_of_string s.

(** [len(x)] *)
Definition len {A} (l : list A) : Z := Z.of_nat (List.length l).

(** [s * n] *)
Fixpoint str_repeat {A} (s : list A) (n : nat) : list A :=
  match n with
  | O => []
  | S k => s ++ str_repeat s k
  end.

(** [range(start, stop)] and [range(stop)]. *)
Definition py_range2 (start stop : Z) : list Z :=
  map (fun k => start + Z.of_nat k) (seq 0 (Z.to_nat (stop - start))).

Definition py_range (stop : Z) : list Z := py_range2 0 stop.

(** Number of elements of [range(start, stop, step)] for [step <> 0]. *)
Definition range_len (start stop step : Z) : Z :=
  if 0 <? step then
    (if start <? stop then (stop - start - 1) / step + 1 else 0)
  else
    (if stop <? start then (start - stop - 1) / (- step) + 1 else 0).

(** [range(start, stop, step)]: a zero step raises [ValueError]. *)
Definition py_range3 (start stop step : Z) : result (list Z) :=
  if step =? 0 then Raise (ValueError "range() arg 3 must not be zero")
  else Ok (map (fun k => start + Z.of_nat k * step)
               (seq 0 (Z.to_nat (range_len start stop step)))).

(** Python's adjustment of a slice bound to a sequence of length [n]:
    negative bounds count from the end, and everything is clamped. *)
Definition clamp (i n : Z) : Z :=
  if i <? 0 then Z.max 0 (i + n) else Z.min i n.

(** [l[lo:hi]] *)
Definition py_slice {A} (l : list A) (lo hi : Z) : list A :=
  let n := len l in
  firstn (Z.to_nat (clamp hi n - clamp lo n)) (skipn (Z.to_nat (clamp lo n)) l).

(** [s[i]] for an index that is in bounds ([None] stands for the
    [IndexError] position; every use below is guarded as in the source). *)
Definition str_at (s : pystr) (i : Z) : option ascii :=
  if i <? 0 then None else nth_error s (Z.to_nat i).

Definition opt_ascii_eqb (a b : option ascii) : bool :=
  match a, b with
  | Some x, Some y => Ascii.eqb x y
  | None, None => true
  | _, _ => false
  end.

Fixpoint str_eqb (a b : pystr) : bool :=
  match a, b with
  | [], [] => true
  | x :: a', y :: b' => Ascii.eqb x y && str_eqb a' b'
  | _, _ => false
  end.

(** [c.upper()] on an ASCII character.  Beyond ASCII, [str.upper] also
    maps the accented letters and replaces U+00DF by the two characters
    "SS"; none of these results is one of A, C, G, T, N or a newline, so
    the validator and the cleaner, which only look for those characters,
    give the same answer.  What depends on the number of characters of
    the upper-cased text (the encoder) is stated for ASCII texts. *)
Definition upper_char (c : ascii) : ascii :=
  let n := N_of_ascii c in
  if ((97 <=? n) && (n <=? 122))%N then ascii_of_N (n - 32) else c.

(** [s.upper()] on an ASCII text. *)
Definition upper (s : pystr) : pystr := map upper_char s.

(** [s.isascii()] *)
Definition isascii (s : pystr) : bool :=
  forallb (fun c => (N_of_ascii c <? 128)%N) s.

Fixpoint startswith (p s : pystr) : bool :=
  match p, s with
  | [], _ => true
  | _ :: _, [] => false
  | a :: p', b :: s' => Ascii.eqb a b && startswith p' s'
  end.

(** [str.count]: occurrences are counted left to right and do not
    overlap; after a match the scan resumes behind it ([skip] is the number
    of characters of the last match still to be passed). *)
Fixpoint count_from (p : pystr) (skip : nat) (s : pystr) : Z :=
  match s with
  | [] => 0
  | _ :: s' =>
      match skip with
      | S k => count_from p k s'
      | O => if startswith p s
             then 1 + count_from p (List.length p - 1) s'
             else count_from p 0 s'
      end
  end.

(** [s.count(p)]; the empty pattern is found between all characters. *)
Definition str_count (s p : pystr) : Z :=
  match p with
  | [] => len s + 1
  | _ :: _ => count_from p 0 s
  end.

(** ** Numbers *)

Definition float_of_Z (z : Z) : float := PrimFloat.of_uint63 (Uint63.of_Z z).

(** [z > f] for an [int] and a [float]: Python compares the exact values. *)
Definition int_gt_float (z : Z) (f : float) : bool :=
  match Prim2SF f with
  | S754_zero _ => 0 <? z
  | S754_infinity sgn => sgn
  | S754_nan => false
  | S754_finite sgn m e =>
      let v := if sgn then Z.neg m else Z.pos m in
      if 0 <=? e then v * 2 ^ e <? z else v <? z * 2 ^ (- e)
  end.

(** The values that flow through the arithmetic of the source: [int],
    [float] and lists of [int] (the per-chunk quality scores). *)
Inductive pyval : Type :=
| PInt (z : Z)
| PFloat (f : float)
| PList (l : list Z).

(** [a + b] *)
Definition py_add (a b : pyval) : result pyval :=
  match a, b with
  | PInt x, PInt y => Ok (PInt (x + y))
  | PInt x, PFloat g => Ok (PFloat (PrimFloat.add (float_of_Z x) g))
  | PFloat f, PInt y => Ok (PFloat (PrimFloat.add f (float_of_Z y)))
  | PFloat f, PFloat g => Ok (PFloat (PrimFloat.add f g))
  | PList l, PList m => Ok (PList (l ++ m))
  | _, _ => Raise TypeError
  end.

(** [a / b] (true division) *)
Definition py_truediv (a b : pyval) : result pyval :=
  match a, b with
  | PInt x, PInt y =>
      if y =? 0 then Raise ZeroDivisionError
      else Ok (PFloat (PrimFloat.div (float_of_Z x) (float_of_Z y)))
  | PInt x, PFloat g =>
      if PrimFloat.eqb g 0%float then Raise ZeroDivisionError
      else Ok (PFloat (PrimFloat.div (float_of_Z x) g))
  | PFloat f, PInt y =>
      if y =? 0 then Raise ZeroDivisionError
      else Ok (PFloat (PrimFloat.div f (float_of_Z y)))
  | PFloat f, PFloat g =>
      if PrimFloat.eqb g 0%float then Raise ZeroDivisionError
      else Ok (PFloat (PrimFloat.div f g))
  | _, _ => Raise TypeError
  end.

(** [sum(xs)]: the accumulator starts at the [int] 0. *)
Fixpoint py_sum_from (acc : pyval) (xs : list pyval) : result pyval :=
  match xs with
  | [] => Ok acc
  | x :: xs' => acc' <- py_add acc x ;; py_sum_from acc' xs'
  end.

Definition py_sum (xs : list pyval) : result pyval := py_sum_from (PInt 0) xs.

(** ** Integers and bytes *)

Definition byte_of_Z (z : Z) : byte :=
  match Byte.of_N (Z.to_N (z mod 256)) with
  | Some b => b
  | None => x00
  end.

Definition Z_of_byte (b : byte) : Z := Z.of_N (Byte.to_N b).

Definition digit0 : ascii := "0"%char.
Definition digit1 : ascii := "1"%char.

(** Binary digits of a positive number, most significant first. *)
Fixpoint pos_bin (p : positive) : pystr :=
  match p with
  | xH => [digit1]
  | xO q => pos_bin q ++ [digit0]
  | xI q => pos_bin q ++ [digit1]
  end.

Definition zfill (w : nat) (s : pystr) : pystr :=
  repeat digit0 (w - List.length s) ++ s.

(** [format(z, '08b')]: binary, zero-filled to width 8, sign first. *)
Definition format_08b (z : Z) : pystr :=
  match z with
  | Z0 => zfill 8 [digit0]
  | Zpos p => zfill 8 (pos_bin p)
  | Zneg p => "-"%char :: zfill 7 (pos_bin p)
  end.

(** [int(s, 2)] on a string of binary digits.  The empty string raises
    [ValueError]; so does, in this model, any character other than 0 and 1
    (the encoder only ever passes digit strings, see [combined_binary]). *)
Fixpoint int2_from (acc : Z) (s : pystr) : result Z :=
  match s with
  | [] => Ok acc
  | c :: s' =>
      if Ascii.eqb c digit0 then int2_from (2 * acc) s'
      else if Ascii.eqb c digit1 then int2_from (2 * acc + 1) s'
      else Raise (ValueError "invalid literal for int() with base 2")
  end.

Definition int2 (s : pystr) : result Z :=
  match s with
  | [] => Raise (ValueError "invalid literal for int() with base 2")
  | _ :: _ => int2_from 0 s
  end.

Fixpoint to_bytes_le (n : nat) (v : Z) : bytes :=
  match n with
  | O => []
  | S k => byte_of_Z (v mod 256) :: to_bytes_le k (v / 256)
  end.

(** [v.to_bytes(n, byteorder='big')] *)
Definition to_bytes_big (v n : Z) : result bytes :=
  if (v <? 0) || (256 ^ n <=? v) then Raise OverflowError
  else Ok (rev (to_bytes_le (Z.to_nat n) v)).

(** [zlib.crc32]: the reflected CRC-32 of polynomial 0xEDB88320. *)
Definition crc_step (crc : Z) : Z :=
  if Z.testbit crc 0 then Z.lxor (Z.shiftr crc 1) 0xEDB88320
  else Z.shiftr crc 1.

Definition crc_byte (crc : Z) (b : byte) : Z :=
  let c := Z.lxor crc (Z_of_byte b) in
  crc_step (crc_step (crc_step (crc_step
    (crc_step (crc_step (crc_step (crc_step c))))))).

Definition crc32 (data : bytes) : Z :=
  Z.lxor (fold_left crc_byte data 0xFFFFFFFF) 0xFFFFFFFF.

(** [b.decode()]: strict UTF-8 (no overlong forms, no surrogates, nothing
    above U+10FFFF); the result is the list of code points. *)
Definition is_cont (b : Z) : bool := (0x80 <=? b) && (b <=? 0xBF).

Fixpoint utf8_decode (fuel : nat) (bs : list Z) : result (list Z) :=
  match fuel with
  | O => match bs with [] => Ok [] | _ => Raise UnicodeDecodeError end
  | S k =>
      match bs with
      | [] => Ok []
      | b0 :: r0 =>
          if b0 <? 0x80 then cs <- utf8_decode k r0 ;; Ok (b0 :: cs)
          else if (0xC2 <=? b0) && (b0 <=? 0xDF) then
            match r0 with
            | b1 :: r1 =>
                if is_cont b1 then
                  cs <- utf8_decode k r1 ;;
                  Ok ((b0 - 0xC0) * 64 + (b1 - 0x80) :: cs)
                else Raise UnicodeDecodeError
            | _ => Raise UnicodeDecodeError
            end
          else if (0xE0 <=? b0) && (b0 <=? 0xEF) then
            match r0 with
            | b1 :: b2 :: r2 =>
                if is_cont b1 && is_cont b2
                   && negb ((b0 =? 0xE0) && (b1 <? 0xA0))
                   && negb ((b0 =? 0xED) && (0xA0 <=? b1)) then
                  cs <- utf8_decode k r2 ;;
                  Ok ((b0 - 0xE0) * 4096 + (b1 - 0x80) * 64 + (b2 - 0x80) :: cs)
                else Raise UnicodeDecodeError
            | _ => Raise UnicodeDecodeError
            end
          else if (0xF0 <=? b0) && (b0 <=? 0xF4) then
            match r0 with
            | b1 :: b2 :: b3 :: r3 =>
                if is_cont b1 && is_cont b2 && is_cont b3
                   && negb ((b0 =? 0xF0) && (b1 <? 0x90))
                   && negb ((b0 =? 0xF4) && (0x90 <=? b1)) then
                  cs <- utf8_decode k r3 ;;
                  Ok ((b0 - 0xF0) * 262144 + (b1 - 0x80) * 4096
                      + (b2 - 0x80) * 64 + (b3 - 0x80) :: cs)
                else Raise UnicodeDecodeError
            | _ => Raise UnicodeDecodeError
            end
          else Raise UnicodeDecodeError
      end
  end.

Definition bytes_decode (b : bytes) : result (list Z) :=
  utf8_decode (List.length b) (map Z_of_byte b).

(** The code points of a string of the model. *)
Definition codepoints (s : pystr) : list Z :=
  map (fun c => Z.of_N (N_of_ascii c)) s.

(** ** The records of the codec *)

(** [patterns]: a [dict] from substring to start positions, in insertion
    order (an association list with distinct keys). *)
Definition pydict := list (pystr * list Z).

Fixpoint dict_get (d : pydict) (k : pystr) : option (list Z) :=
  match d with
  | [] => None
  | (k', v) :: d' => if str_eqb k' k then Some v else dict_get d' k
  end.

(** [d[k].append(i)] on a [defaultdict(list)]. *)
Fixpoint dict_append (d : pydict) (k : pystr) (i : Z) : pydict :=
  match d with
  | [] => [(k, [i])]
  | (k', v) :: d' =>
      if str_eqb k' k then (k', v ++ [i]) :: d'
      else (k', v) :: dict_append d' k i
  end.

Record CompressionStats : Type := {
  original_size : Z;
  compressed_size : Z;
  compression_ratio : pyval;
  compression_time : float;
  algorithm : pystr;
  quality_score : pyval;
  stats_error_rate : pyval
}.

(** The metadata dictionary built by [_compress_chunk]. *)
Record ChunkMetadata : Type := {
  original_length : Z;
  patterns : pydict;
  checksum : Z;
  quality_scores : list Z;
  compression_type : pystr;
  error_rate : pyval
}.

(** The attributes of a [GenomeCompressor] instance. *)
Record GenomeCompressor : Type := {
  chunk_size : Z;
  compression_stats : list CompressionStats;
  quality_threshold : Z;
  min_pattern_length : Z;
  max_pattern_length : Z
}.

(** [GenomeCompressor.__init__] *)
Definition __init__ (chunk_size : Z) : GenomeCompressor :=
  {| chunk_size := chunk_size;
     compression_stats := [];
     quality_threshold := 30;
     min_pattern_length := 8;
     max_pattern_length := 32 |}.

Definition default_chunk_size : Z := 1024 * 1024.

Definition append_stats (self : GenomeCompressor) (st : CompressionStats)
  : GenomeCompressor :=
  {| chunk_size := chunk_size self;
     compression_stats := compression_stats self ++ [st];
     quality_threshold := quality_threshold self;
     min_pattern_length := min_pattern_length self;
     max_pattern_length := max_pattern_length self |}.

(** [get_compression_stats] *)
Definition get_compression_stats (self : GenomeCompressor)
  : list CompressionStats := compression_stats self.

(** ** [_calculate_quality_scores] (lines 50-62) *)

(** One iteration of the loop: the score appended for index [i]. *)
Definition quality_at (sequence : pystr) (i : Z) : Z :=
  let score := 30 in
  let score :=
    if (0 <? i) && opt_ascii_eqb (str_at sequence i) (str_at sequence (i - 1))
    then score + 5 else score in
  let score :=
    if (1 <? i) && opt_ascii_eqb (str_at sequence i) (str_at sequence (i - 2))
    then score + 3 else score in
  Z.min score 40.

Definition _calculate_quality_scores (sequence : pystr) : list Z :=
  map (quality_at sequence) (py_range (len sequence)).

(** ** [_calculate_error_rate] (lines 113-122) *)

Definition char_in (c : option ascii) (s : pystr) : bool :=
  match c with
  | Some x => existsb (Ascii.eqb x) s
  | None => false
  end.

Definition one_tenth : float := 0x1.999999999999ap-4%float.

Definition error_step (sequence : pystr) (errors : pyval) (i : Z)
  : result pyval :=
  errors <- (if negb (char_in (str_at sequence i) (lit "ACGT"))
             then py_add errors (PInt 1) else Ok errors) ;;
  if (0 <? i) && opt_ascii_eqb (str_at sequence i) (str_at sequence (i - 1))
  then py_add errors (PFloat one_tenth) else Ok errors.

Fixpoint foldM {A B} (f : A -> B -> result A) (xs : list B) (a : A)
  : result A :=
  match xs with
  | [] => Ok a
  | x :: xs' => a' <- f a x ;; foldM f xs' a'
  end.

Definition _calculate_error_rate (sequence : pystr) : result pyval :=
  errors <- foldM (error_step sequence) (py_range (len sequence)) (PInt 0) ;;
  py_truediv errors (PInt (len sequence)).

(** ** [_encode_sequence] (lines 35-48) *)

Definition encoding : list (ascii * pystr) :=
  [ ("A"%char, lit "00"); ("C"%char, lit "01");
    ("G"%char, lit "10"); ("T"%char, lit "11") ].

(** [encoding.get(base, '00')] *)
Fixpoint encoding_get (d : list (ascii * pystr)) (base : ascii)
  (default : pystr) : pystr :=
  match d with
  | [] => default
  | (k, v) :: d' => if Ascii.eqb k base then v else encoding_get d' base default
  end.

(** The local [binary]. *)
Definition sequence_binary (sequence : pystr) : pystr :=
  List.concat (map (fun base => encoding_get encoding base (lit "00"))
              (upper sequence)).

(** The local [quality_binary]. *)
Definition quality_binary (sequence : pystr) : pystr :=
  List.concat (map format_08b (_calculate_quality_scores sequence)).

(** The local [combined]. *)
Definition combined_binary (sequence : pystr) : pystr :=
  sequence_binary sequence ++ quality_binary sequence.

Definition _encode_sequence (sequence : pystr) : result bytes :=
  let combined := combined_binary sequence in
  v <- int2 combined ;;
  to_bytes_big v ((len combined + 7) / 8).

(** ** [_find_patterns] and [_is_highly_repetitive] (lines 90-106) *)

(** The inner loop, for one window length. *)
Definition scan_length (sequence : pystr) (patterns : pydict) (length : Z)
  : pydict :=
  fold_left
    (fun pats i =>
       let pattern := py_slice sequence i (i + length) in
       if 1 <? str_count sequence pattern then dict_append pats pattern i
       else pats)
    (py_range (len sequence - length)) patterns.

(** The [defaultdict] when both loops are over. *)
Definition scan_patterns (self : GenomeCompressor) (sequence : pystr)
  : pydict :=
  fold_left (scan_length sequence)
    (py_range2 (min_pattern_length self) (max_pattern_length self + 1)) [].

Definition _find_patterns (self : GenomeCompressor) (sequence : pystr)
  : pydict :=
  filter (fun kv => 2 <? len (snd kv)) (scan_patterns self sequence).

Definition three_tenths : float := 0x1.3333333333333p-2%float.

(** [sum(len(positions) for positions in patterns.values())] *)
Definition total_positions (patterns : pydict) : Z :=
  fold_left Z.add (map (fun kv => len (snd kv)) patterns) 0.

Definition _is_highly_repetitive (self : GenomeCompressor) (sequence : pystr)
  : bool :=
  let patterns := _find_patterns self sequence in
  let total_repeats := total_positions patterns in
  int_gt_float total_repeats
    (PrimFloat.mul (float_of_Z (len sequence)) three_tenths).

(** ** [_validate_sequence] (lines 170-180) *)

Definition in_class_ACGTN (c : ascii) : bool :=
  existsb (Ascii.eqb c) (lit "ACGTN").

Definition newline : ascii := "010"%char.

(** Where [$] matches: at the end of the string, and just before a
    newline that is the last character of the string. *)
Definition at_dollar (rest : pystr) : bool :=
  match rest with
  | [] => true
  | [c] => Ascii.eqb c newline
  | _ => false
  end.

(** [re.match(r'^[ACGTN]+$', s)] succeeds: one character of the class is
    consumed, then either the match ends at a [$] position or goes on. *)
Fixpoint re_match_ACGTN (s : pystr) : bool :=
  match s with
  | [] => false
  | c :: s' => in_class_ACGTN c && (at_dollar s' || re_match_ACGTN s')
  end.

Definition _validate_sequence (sequence : pystr) : bool :=
  if negb (re_match_ACGTN (upper sequence)) then false
  else if len sequence <? 100 then false
  else true.

(** ** Compression and decompression, parametric in zlib and base64 *)

Inductive log_entry : Type :=
| LowQualityWarning (pos : Z).

(** The locals of [compress] when line 150 has run. *)
Record compress_locals : Type := {
  chunks : list pystr;
  compressed_chunks : list bytes;
  metadata_list : list ChunkMetadata;
  final_compressed : bytes;
  buffer_checksum : Z;
  encoded : bytes
}.

Section Codec.

(** [zlib.compress(data, level)] and [zlib.decompress(data)]. *)
Variable zlib_compress : bytes -> Z -> bytes.
Variable zlib_decompress : bytes -> result bytes.
(** [base64.b64encode(data)] and [base64.b64decode(data)]. *)
Variable b64encode : bytes -> bytes.
Variable b64decode : bytes -> result bytes.

(** [_compress_repetitive] (lines 108-111) *)
Definition _compress_repetitive (data : bytes) : bytes :=
  zlib_compress data 9.

(** [_compress_chunk] (lines 64-88) *)
Definition _compress_chunk (self : GenomeCompressor) (chunk : pystr)
  : result (bytes * ChunkMetadata) :=
  encoded <- _encode_sequence chunk ;;
  let patterns := _find_patterns self chunk in
  let compressed :=
    if _is_highly_repetitive self chunk then _compress_repetitive encoded
    else zlib_compress encoded 9 in
  rate <- _calculate_error_rate chunk ;;
  Ok (compressed,
      {| original_length := len chunk;
         patterns := patterns;
         checksum := crc32 encoded;
         quality_scores := _calculate_quality_scores chunk;
         compression_type := lit "adaptive";
         error_rate := rate |}).

(** [compress], lines 130-150: split, compress every chunk (results in
    chunk order), merge, checksum, base64. *)
Definition compress_body (self : GenomeCompressor) (genome_data : pystr)
  : result compress_locals :=
  starts <- py_range3 0 (len genome_data) (chunk_size self) ;;
  let chunks :=
    map (fun i => py_slice genome_data i (i + chunk_size self)) starts in
  results <- mapM (_compress_chunk self) chunks ;;
  let final_compressed := List.concat (map fst results) in
  Ok {| chunks := chunks;
        compressed_chunks := map fst results;
        metadata_list := map snd results;
        final_compressed := final_compressed;
        buffer_checksum := crc32 final_compressed;
        encoded := b64encode final_compressed |}.

(** [compress], lines 153-161: the arguments of [CompressionStats(...)]
    are evaluated in the order they are written. *)
Definition make_stats (genome_data : pystr) (l : compress_locals)
  : result CompressionStats :=
  ratio <- py_truediv (PInt (len (encoded l))) (PInt (len genome_data)) ;;
  qsum <- py_sum (map (fun m => PList (quality_scores m)) (metadata_list l)) ;;
  q <- py_truediv qsum (PInt (len (metadata_list l))) ;;
  esum <- py_sum (map error_rate (metadata_list l)) ;;
  e <- py_truediv esum (PInt (len (metadata_list l))) ;;
  Ok {| original_size := len genome_data;
        compressed_size := len (encoded l);
        compression_ratio := ratio;
        compression_time := 0%float;
        algorithm := lit "adaptive";
        quality_score := q;
        stats_error_rate := e |}.

(** [compress] (lines 124-168): the result, and the instance afterwards. *)
Definition compress (self : GenomeCompressor) (genome_data : pystr)
  : result (bytes * list ChunkMetadata) * GenomeCompressor :=
  if negb (_validate_sequence genome_data) then (Raise InvalidSequence, self)
  else
    match (l <- compress_body self genome_data ;;
           stats <- make_stats genome_data l ;;
           Ok (l, stats)) with
    | Ok (l, stats) =>
        (Ok (encoded l, metadata_list l), append_stats self stats)
    | Raise e => (Raise e, self)
    end.

(** The body of the loop of [decompress] (lines 194-213), for the
    metadata still to be consumed. *)
Fixpoint decompress_loop (self : GenomeCompressor) (decoded : bytes)
  (metas : list ChunkMetadata) (current_pos : Z)
  (decompressed_chunks : list bytes) (log : list log_entry)
  : result (list bytes) * list log_entry :=
  match metas with
  | [] => (Ok decompressed_chunks, log)
  | metadata :: rest =>
      let chunk_size := original_length metadata in
      let chunk_data :=
        py_slice decoded current_pos (current_pos + chunk_size) in
      match zlib_decompress chunk_data with
      | Raise e => (Raise e, log)
      | Ok decompressed =>
          if negb (crc32 decompressed =? checksum metadata)
          then (Raise (ChecksumMismatch current_pos), log)
          else
            let log' :=
              if negb (len (quality_scores metadata) =? 0)
                 && existsb (fun score => score <? quality_threshold self)
                            (quality_scores metadata)
              then log ++ [LowQualityWarning current_pos] else log in
            decompress_loop self decoded rest (current_pos + chunk_size)
              (decompressed_chunks ++ [decompressed]) log'
      end
  end.

(** [decompress] (lines 182-215): the result and the warnings logged. *)
Definition decompress (self : GenomeCompressor) (compressed_data : bytes)
  (metadata_list : list ChunkMetadata)
  : result (list Z) * list log_entry :=
  match b64decode compressed_data with
  | Raise e => (Raise e, [])
  | Ok decoded =>
      match decompress_loop self decoded metadata_list 0 [] [] with
      | (Raise e, log) => (Raise e, log)
      | (Ok decompressed_chunks, log) =>
          (strs <- mapM bytes_decode decompressed_chunks ;; Ok (List.concat strs),
           log)
      end
  end.

End Codec.

(** ** A reference instance of the library interface

    DEFLATE restricted to stored blocks inside the zlib container
    (RFC 1950, RFC 1951), and base64 with the standard alphabet and strict
    decoding (RFC 4648).  The theorems below hold for every instance of
    the interface; this one runs the codec in the examples. *)

Definition adler32 (data : bytes) : Z :=
  let ab :=
    fold_left (fun ab x =>
                 let a := (fst ab + Z_of_byte x) mod 65521 in
                 (a, (snd ab + a) mod 65521))
              data (1, 0) in
  snd ab * 65536 + fst ab.

Definition le16 (v : Z) : bytes := to_bytes_le 2 v.

Definition be32 (v : Z) : bytes := rev (to_bytes_le 4 v).

Fixpoint stored_blocks (fuel : nat) (data : bytes) : bytes :=
  match fuel with
  | O => []
  | S k =>
      if len data <=? 65535 then
        x01 :: le16 (len data) ++ le16 (65535 - len data) ++ data
      else
        x00 :: le16 65535 ++ le16 0 ++ firstn (Z.to_nat 65535) data
            ++ stored_blocks k (skipn (Z.to_nat 65535) data)
  end.

Definition stored_compress (data : bytes) (level : Z) : bytes :=
  [x78; x01] ++ stored_blocks (S (length data)) data ++ be32 (adler32 data).

Fixpoint inflate_stored (fuel : nat) (data out : bytes)
  : result (bytes * bytes) :=
  match fuel with
  | O => Raise ZlibError
  | S k =>
      match data with
      | hdr :: l0 :: l1 :: n0 :: n1 :: rest =>
          let n := Z_of_byte l0 + 256 * Z_of_byte l1 in
          let c := Z_of_byte n0 + 256 * Z_of_byte n1 in
          if negb (Z.land (Z.shiftr (Z_of_byte hdr) 1) 3 =? 0)
             || negb (n + c =? 65535) || (len rest <? n)
          then Raise ZlibError
          else
            let out' := out ++ firstn (Z.to_nat n) rest in
            let rest' := skipn (Z.to_nat n) rest in
            if Z.testbit (Z_of_byte hdr) 0 then Ok (out', rest')
            else inflate_stored k rest' out'
      | _ => Raise ZlibError
      end
  end.

Definition stored_decompress (data : bytes) : result bytes :=
  match data with
  | cmf :: flg :: rest =>
      if (Z.land (Z_of_byte cmf) 15 =? 8)
         && ((Z_of_byte cmf * 256 + Z_of_byte flg) mod 31 =? 0)
         && negb (Z.testbit (Z_of_byte flg) 5)
      then
        r <- inflate_stored (S (length rest)) rest [] ;;
        match snd r with
        | a :: b :: c :: d :: _ =>
            if ((Z_of_byte a * 256 + Z_of_byte b) * 256 + Z_of_byte c) * 256
               + Z_of_byte d =? adler32 (fst r)
            then Ok (fst r) else Raise ZlibError
        | _ => Raise ZlibError
        end
      else Raise ZlibError
  | _ => Raise ZlibError
  end.

Definition b64_alphabet : pystr :=
  lit "ABCDEFGHIJKLMNOPQRSTUVWXYZabcdefghijklmnopqrstuvwxyz0123456789+/".

Definition b64_char (v : Z) : byte :=
  byte_of_Z (Z.of_N (N_of_ascii (nth (Z.to_nat v) b64_alphabet "="%char))).

Definition b64_pad : byte := byte_of_Z 61.

Fixpoint b64_groups (data : list Z) : bytes :=
  match data with
  | a :: b :: c :: rest =>
      b64_char (a / 4) :: b64_char (a mod 4 * 16 + b / 16)
        :: b64_char (b mod 16 * 4 + c / 64) :: b64_char (c mod 64)
        :: b64_groups rest
  | [a; b] =>
      [b64_char (a / 4); b64_char (a mod 4 * 16 + b / 16);
       b64_char (b mod 16 * 4); b64_pad]
  | [a] => [b64_char (a / 4); b64_char (a mod 4 * 16); b64_pad; b64_pad]
  | [] => []
  end.

Definition std_b64encode (data : bytes) : bytes :=
  b64_groups (map Z_of_byte data).

Fixpoint index_of (c : Z) (l : list Z) (i : Z) : option Z :=
  match l with
  | [] => None
  | x :: l' => if x =? c then Some i else index_of c l' (i + 1)
  end.

Definition b64_value (c : byte) : option Z :=
  index_of (Z_of_byte c) (codepoints b64_alphabet) 0.

Definition is_pad (c : byte) : bool := Z_of_byte c =? 61.

Fixpoint b64_ungroup (cs : bytes) : result (list Z) :=
  match cs with
  | [] => Ok []
  | a :: b :: c :: d :: rest =>
      match b64_value a, b64_value b with
      | Some va, Some vb =>
          if is_pad c && is_pad d && (len rest =? 0)
          then Ok [va * 4 + vb / 16]
          else
            match b64_value c with
            | Some vc =>
                if is_pad d && (len rest =? 0)
                then Ok [va * 4 + vb / 16; vb mod 16 * 16 + vc / 4]
                else
                  match b64_value d with
                  | Some vd =>
                      r <- b64_ungroup rest ;;
                      Ok (va * 4 + vb / 16 :: vb mod 16 * 16 + vc / 4
                            :: vc mod 4 * 64 + vd :: r)
                  | None => Raise BinasciiError
                  end
            | None => Raise BinasciiError
            end
      | _, _ => Raise BinasciiError
      end
  | _ => Raise BinasciiError
  end.

Definition strict_b64decode (data : bytes) : result bytes :=
  vs <- b64_ungroup data ;; Ok (map byte_of_Z vs).

(** ** Notions used to state the properties *)

(** The base at [i] equals the base [k] positions earlier (false when
    there is no such position). *)
Definition repeats_back (sequence : pystr) (i k : Z) : bool :=
  match str_at sequence i, str_at sequence (i - k) with
  | Some a, Some b => Ascii.eqb a b
  | _, _ => false
  end.

Definition is_bit (c : ascii) : bool := Ascii.eqb c digit0 || Ascii.eqb c digit1.

Definition bit_of (c : ascii) : Z := if Ascii.eqb c digit1 then 1 else 0.

(** The number a string of binary digits denotes, most significant first. *)
Definition bits_value_from (acc : Z) (s : pystr) : Z :=
  fold_left (fun a c => 2 * a + bit_of c) s acc.

Definition bits_value (s : pystr) : Z := bits_value_from 0 s.

(** Every byte of a buffer written as eight binary digits. *)
Definition bitstring_of_bytes (b : bytes) : pystr :=
  List.concat (map (fun x => format_08b (Z_of_byte x)) b).

(** The fixed 2-bit code of a base: A=00, C=01, G=10, T=11, anything else
    00. *)
Definition two_bit_code (base : ascii) : pystr :=
  if Ascii.eqb "A"%char base then [digit0; digit0]
  else if Ascii.eqb "C"%char base then [digit0; digit1]
  else if Ascii.eqb "G"%char base then [digit1; digit0]
  else if Ascii.eqb "T"%char base then [digit1; digit1]
  else [digit0; digit0].

(** The packing as the specification words it: the bit string is cut
    into bytes from the left, and the final byte is filled up with zero
    bits. *)
Fixpoint pack_left_aligned (fuel : nat) (bits : pystr) : bytes :=
  match fuel with
  | O => []
  | S k =>
      match bits with
      | [] => []
      | _ :: _ =>
          byte_of_Z (bits_value (firstn 8 (bits ++ repeat digit0 7)))
            :: pack_left_aligned k (skipn 8 bits)
      end
  end.

(** The bit string as the specification words it: the 2-bit code of every
    symbol, case-normalised, then the 8-bit quality fields. *)
Definition combined_as_stated (sequence : pystr) : pystr :=
  List.concat (map (fun base => two_bit_code (upper_char base)) sequence)
  ++ List.concat (map format_08b (_calculate_quality_scores sequence)).

Definition encode_as_stated (sequence : pystr) : bytes :=
  pack_left_aligned (length (combined_as_stated sequence))
    (combined_as_stated sequence).

Definition is_num (v : pyval) : Prop :=
  match v with
  | PList _ => False
  | _ => True
  end.

(** Number of chunks of an [N]-symbol input for chunk size [C]:
    the ceiling of [N / C]. *)
Definition chunk_count (N C : Z) : Z := (N + C - 1) / C.

(** The cursor [current_pos] when the loop reaches entry [k] of the
    metadata list, having started at [pos]. *)
Definition cursor (pos : Z) (metas : list ChunkMetadata) (k : nat) : Z :=
  fold_left Z.add (map original_length (firstn k metas)) pos.

(** The slice of the decoded buffer handed to zlib for entry [k]. *)
Definition chunk_data (decoded : bytes) (metas : list ChunkMetadata)
  (k : nat) (m : ChunkMetadata) : bytes :=
  py_slice decoded (cursor 0 metas k) (cursor 0 metas k + original_length m).

(** An entry whose stored checksum is right, and one whose checksum is
    not, for the same stored-block stream of the four bytes "ACGT". *)
Definition sample_data : bytes := map byte_of_Z (codepoints (lit "ACGT")).

Definition sample_blob : bytes := std_b64encode (stored_compress sample_data 9).

Definition sample_meta (sum : Z) : ChunkMetadata :=
  {| original_length := len (stored_compress sample_data 9);
     patterns := [];
     checksum := sum;
     quality_scores := [];
     compression_type := lit "adaptive";
     error_rate := PFloat 0 |}.

(** [crc32], on the values of the bytes. *)
Definition crc32_of_values (vs : list Z) : Z :=
  Z.lxor (fold_left (fun crc v => crc_byte crc (byte_of_Z v)) vs 0xFFFFFFFF)
         0xFFFFFFFF.

(** What a lookup yields when the positions [ps] have been appended, in
    order, under the key looked up. *)
Definition merge (o : option (list Z)) (ps : list Z) : option (list Z) :=
  match o with
  | Some v => Some (v ++ ps)
  | None => match ps with [] => None | _ :: _ => Some ps end
  end.

(** The start positions that the scan of one window length records under
    the key [k]. *)
Definition window_positions (sequence : pystr) (length : Z) (k : pystr)
  : list Z :=
  filter (fun i =>
            (1 <? str_count sequence (py_slice sequence i (i + length)))
            && str_eqb (py_slice sequence i (i + length)) k)
         (py_range (len sequence - length)).

(** The start positions recorded under [k] when all lengths are scanned. *)
Definition recorded (self : GenomeCompressor) (sequence : pystr) (k : pystr)
  : list Z :=
  flat_map (fun length => window_positions sequence length k)
           (py_range2 (min_pattern_length self) (max_pattern_length self + 1)).

(** All the start indices at which [p] occurs in [sequence], overlapping
    occurrences included. *)
Definition occurrences (sequence p : pystr) : list Z :=
  filter (fun i => str_eqb (py_slice sequence i (i + len p)) p)
         (py_range (len sequence - len p + 1)).

(** The positions recorded under [k] as the specification words it: every
    start index of [k], provided [k] occurs more than once. *)
Definition recorded_as_stated (sequence k : pystr) : list Z :=
  if 1 <? len (occurrences sequence k) then occurrences sequence k else [].

(** The result as the specification words it: the substrings of a length
    in the window range with more than two recorded positions. *)
Definition find_patterns_as_stated (self : GenomeCompressor)
  (sequence : pystr) : Prop :=
  forall k,
    min_pattern_length self <= len k <= max_pattern_length self ->
    dict_get (_find_patterns self sequence) k
    = if 2 <? len (recorded_as_stated sequence k)
      then Some (recorded_as_stated sequence k) else None.

Definition sum_list (l : list Z) : Z := fold_right Z.add 0 l.

(** The positions held under the key [k], as a number. *)
Definition positions_under (d : pydict) (k : pystr) : Z :=
  match dict_get d k with
  | Some v => len v
  | None => 0
  end.

Definition acgt_1000 : pystr := str_repeat (lit "ACGT") 1000.

(** ** [AdvancedCompressionPipeline] (lines 221-270) *)

(** [s.encode()]: UTF-8, for the 8-bit characters of the model. *)
Definition str_encode (s : pystr) : bytes :=
  flat_map
    (fun c =>
       let n := Z.of_N (N_of_ascii c) in
       if n <? 128 then [byte_of_Z n]
       else [byte_of_Z (0xC0 + n / 64); byte_of_Z (0x80 + n mod 64)])
    s.

(** [k in d] *)
Definition dict_contains (d : pydict) (k : pystr) : bool :=
  match dict_get d k with
  | Some _ => true
  | None => false
  end.

(** [d[k].extend(v)] for a key that is present. *)
Fixpoint dict_extend (d : pydict) (k : pystr) (v : list Z) : pydict :=
  match d with
  | [] => []
  | (k', v') :: d' =>
      if str_eqb k' k then (k', v' ++ v) :: d'
      else (k', v') :: dict_extend d' k v
  end.

(** [d[k] = v]: an existing key keeps its place, a new one goes last. *)
Fixpoint dict_set (d : pydict) (k : pystr) (v : list Z) : pydict :=
  match d with
  | [] => [(k, v)]
  | (k', v') :: d' =>
      if str_eqb k' k then (k', v) :: d'
      else (k', v') :: dict_set d' k v
  end.

(** The attributes of a pipeline instance. *)
Record AdvancedCompressionPipeline : Type := {
  compressor : GenomeCompressor;
  patterns_cache : pydict;
  quality_cache : pydict
}.


(** One iteration of the loop of [_update_patterns_cache]. *)
Definition cache_pattern (cache : pydict) (item : pystr * list Z) : pydict :=
  if dict_contains cache (fst item)
  then dict_extend cache (fst item) (snd item)
  else dict_set cache (fst item) (snd item).

(** [_update_patterns_cache] (lines 242-250) *)
Definition _update_patterns_cache (self : AdvancedCompressionPipeline)
  (sequence : pystr) : AdvancedCompressionPipeline :=
  let new_patterns := _find_patterns (compressor self) sequence in
  {| compressor := compressor self;
     patterns_cache := fold_left cache_pattern new_patterns (patterns_cache self);
     quality_cache := quality_cache self |}.


Section Pipeline.

(** [hashlib.md5(data).hexdigest()] *)
Variable md5_hexdigest : bytes -> pystr.
Variable zlib_compress : bytes -> Z -> bytes.
Variable b64encode : bytes -> bytes.

(** [_update_quality_cache] (lines 252-255) *)
Definition _update_quality_cache (self : AdvancedCompressionPipeline)
  (sequence : pystr) : AdvancedCompressionPipeline :=
  let quality_scores := _calculate_quality_scores sequence in
  {| compressor := compressor self;
     patterns_cache := patterns_cache self;
     quality_cache :=
       dict_set (quality_cache self) (md5_hexdigest (str_encode sequence))
         quality_scores |}.

(** The local [cleaned] of [_preprocess]. *)
Definition clean (data : pystr) : pystr :=
  filter (fun c => existsb (Ascii.eqb c) (lit "ACGTN")) (upper data).

(** [_preprocess] (lines 229-240): the text returned and the instance
    afterwards. *)
Definition _preprocess (self : AdvancedCompressionPipeline) (data : pystr)
  : pystr * AdvancedCompressionPipeline :=
  let cleaned := clean data in
  let self := _update_patterns_cache self cleaned in
  let self := _update_quality_cache self cleaned in
  (cleaned, self).


End Pipeline.

(** ** Further notions used to state the properties *)

(** The instance after [compress] has been called on each input in turn. *)
Definition compress_calls (zlib_compress : bytes -> Z -> bytes)
  (b64encode : bytes -> bytes) (self : GenomeCompressor)
  (inputs : list pystr) : GenomeCompressor :=
  fold_left (fun st s => snd (compress zlib_compress b64encode st s))
            inputs self.

(** The characters that count as errors: everything but A, C, G, T, in
    upper case. *)
Definition is_error_char (c : ascii) : bool :=
  negb (existsb (Ascii.eqb c) (lit "ACGT")).

(** No character equals its predecessor. *)
Fixpoint no_adjacent_repeat (s : pystr) : bool :=
  match s with
  | [] => true
  | a :: s' =>
      match s' with
      | [] => true
      | b :: _ => negb (Ascii.eqb b a) && no_adjacent_repeat s'
      end
  end.

(** A value of [float] that is not below zero: a zero, a positive number,
    plus infinity, or not a number. *)
Definition sf_not_negative (x : spec_float) : Prop :=
  match x with
  | S754_finite true _ _ => False
  | S754_infinity true => False
  | _ => True
  end.

(** The entries whose scores trigger the warning, by cursor position. *)
Fixpoint low_quality_positions (threshold : Z) (metas : list ChunkMetadata)
  (pos : Z) : list log_entry :=
  match metas with
  | [] => []
  | m :: rest =>
      (if existsb (fun score => score <? threshold) (quality_scores m)
       then [LowQualityWarning pos] else [])
      ++ low_quality_positions threshold rest (pos + original_length m)
  end.

(** What two lookups give when a cache is updated with new patterns. *)
Definition merge_lookup (old new : option (list Z)) : option (list Z) :=
  match old, new with
  | Some v, Some w => Some (v ++ w)
  | Some v, None => Some v
  | None, Some w => Some w
  | None, None => None
  end.

(** The entry of [sample_meta] with the right checksum and given scores. *)
Definition sample_meta_scores (scores : list Z) : ChunkMetadata :=
  {| original_length := len (stored_compress sample_data 9);
     patterns := [];
     checksum := crc32 sample_data;
     quality_scores := scores;
     compression_type := lit "adaptive";
     error_rate := PFloat 0 |}.

(** The renaming of "N" into "A". *)
Definition n_to_a (c : ascii) : ascii :=
  if Ascii.eqb c "N"%char then "A"%char else c.

(** * Properties *)

Example crc32_check_value :
  crc32 (map byte_of_Z (codepoints (lit "123456789"))) = 0xCBF43926.
Proof. vm_compute. reflexivity. Qed.

(** ** Ranges, slices and the error monad *)

Lemma len_nonneg {A} (l : list A) : 0 <= len l.
Proof. unfold len. lia. Qed.

Lemma len_app {A} (l m : list A) : len (l ++ m) = len l + len m.
Proof. unfold len. rewrite length_app. lia. Qed.

Lemma len_nil_iff {A} (l : list A) : len l = 0 <-> l = [].
Proof.
  unfold len. split; intros H.
  - destruct l; [reflexivity | simpl in H; lia].
  - subst. reflexivity.
Qed.

Lemma py_range2_length (a b : Z) :
  length (py_range2 a b) = Z.to_nat (b - a).
Proof. unfold py_range2. rewrite length_map, length_seq. reflexivity. Qed.

Lemma py_range2_nth (a b : Z) (k : nat) :
  (k < Z.to_nat (b - a))%nat ->
  nth_error (py_range2 a b) k = Some (a + Z.of_nat k).
Proof.
  intros Hk. unfold py_range2.
  rewrite nth_error_map, nth_error_seq.
  destruct (Nat.ltb_spec k (Z.to_nat (b - a))); [reflexivity | lia].
Qed.

Lemma py_range2_In (a b i : Z) : In i (py_range2 a b) <-> a <= i < b.
Proof.
  unfold py_range2. rewrite in_map_iff. split.
  - intros (k & <- & Hk). apply in_seq in Hk. lia.
  - intros Hi. exists (Z.to_nat (i - a)). split; [lia |].
    apply in_seq. lia.
Qed.

Lemma py_range_In (n i : Z) : In i (py_range n) <-> 0 <= i < n.
Proof. apply py_range2_In. Qed.

Lemma map_seq_shift {A} (f : nat -> A) (n a : nat) :
  map f (seq a n) = map (fun k => f (a + k)%nat) (seq 0 n).
Proof.
  revert a f. induction n as [| n IH]; intros a f; simpl; [reflexivity |].
  rewrite Nat.add_0_r. f_equal.
  rewrite (IH (S a)), (IH 1%nat). apply map_ext. intros k.
  f_equal. lia.
Qed.

Lemma py_range2_split (a b c : Z) :
  a <= b <= c -> py_range2 a c = py_range2 a b ++ py_range2 b c.
Proof.
  intros H. unfold py_range2.
  replace (Z.to_nat (c - a)) with (Z.to_nat (b - a) + Z.to_nat (c - b))%nat
    by lia.
  rewrite seq_app, map_app. f_equal.
  simpl. rewrite map_seq_shift. apply map_ext. intros k. lia.
Qed.

Lemma str_at_Some (s : pystr) (i : Z) :
  0 <= i < len s -> exists c, str_at s i = Some c.
Proof.
  intros Hi. unfold str_at, len in *.
  destruct (Z.ltb_spec i 0); [lia |].
  destruct (nth_error s (Z.to_nat i)) eqn:E; [eauto |].
  apply nth_error_None in E. lia.
Qed.

Lemma bind_Ok {A B} (r : result A) (k : A -> result B) (b : B) :
  bind r k = Ok b -> exists a, r = Ok a /\ k a = Ok b.
Proof. destruct r; simpl; [eauto | discriminate]. Qed.

Lemma mapM_Ok_length {A B} (f : A -> result B) (xs : list A) (ys : list B) :
  mapM f xs = Ok ys -> length ys = length xs.
Proof.
  revert ys. induction xs as [| x xs IH]; simpl; intros ys H.
  - inversion H. reflexivity.
  - apply bind_Ok in H. destruct H as (y & _ & H).
    apply bind_Ok in H. destruct H as (ys' & Hys & H).
    inversion H. simpl. f_equal. auto.
Qed.

Lemma mapM_Ok_Forall2 {A B} (f : A -> result B) (xs : list A) (ys : list B) :
  mapM f xs = Ok ys -> Forall2 (fun x y => f x = Ok y) xs ys.
Proof.
  revert ys. induction xs as [| x xs IH]; simpl; intros ys H.
  - inversion H. constructor.
  - apply bind_Ok in H. destruct H as (y & Hy & H).
    apply bind_Ok in H. destruct H as (ys' & Hys & H).
    inversion H. constructor; auto.
Qed.

Lemma mapM_total {A B} (f : A -> result B) (xs : list A) :
  Forall (fun x => exists y, f x = Ok y) xs -> exists ys, mapM f xs = Ok ys.
Proof.
  induction 1 as [| x xs (y & Hy) _ (ys & Hys)]; simpl.
  - eauto.
  - rewrite Hy, Hys. simpl. eauto.
Qed.

(** ** Quality scores *)

Lemma quality_at_range (sequence : pystr) (i : Z) :
  30 <= quality_at sequence i <= 38.
Proof.
  unfold quality_at.
  destruct (_ && _); destruct (_ && _); lia.
Qed.

Lemma guarded_eq_repeats_back (sequence : pystr) (i k : Z) :
  0 <= i < len sequence -> 0 < k ->
  (k - 1 <? i) && opt_ascii_eqb (str_at sequence i) (str_at sequence (i - k))
  = repeats_back sequence i k.
Proof.
  intros Hi Hk. unfold repeats_back.
  destruct (str_at_Some sequence Hi) as (c & Hc). rewrite Hc.
  destruct (Z.ltb_spec (k - 1) i) as [Hlt | Hge]; simpl.
  - assert (Hj : 0 <= i - k < len sequence) by lia.
    destruct (str_at_Some sequence Hj) as (d & Hd). rewrite Hd. reflexivity.
  - unfold str_at at 1. destruct (Z.ltb_spec (i - k) 0); [reflexivity | lia].
Qed.

Lemma quality_at_spec (sequence : pystr) (i : Z) :
  0 <= i < len sequence ->
  quality_at sequence i =
    Z.min 40 (30 + (if repeats_back sequence i 1 then 5 else 0)
                 + (if repeats_back sequence i 2 then 3 else 0)).
Proof.
  intros Hi. unfold quality_at.
  change (0 <? i) with (1 - 1 <? i). change (1 <? i) with (2 - 1 <? i).
  rewrite !guarded_eq_repeats_back by lia.
  destruct (repeats_back sequence i 1), (repeats_back sequence i 2); lia.
Qed.

Lemma quality_scores_length (sequence : pystr) :
  len (_calculate_quality_scores sequence) = len sequence.
Proof.
  unfold _calculate_quality_scores, len, py_range.
  rewrite length_map, py_range2_length. lia.
Qed.

Lemma quality_scores_nth (sequence : pystr) (i : Z) :
  0 <= i < len sequence ->
  nth_error (_calculate_quality_scores sequence) (Z.to_nat i)
  = Some (quality_at sequence i).
Proof.
  intros Hi. unfold _calculate_quality_scores, py_range.
  rewrite nth_error_map, py_range2_nth by lia.
  simpl. f_equal. f_equal. lia.
Qed.

Lemma quality_scores_Forall (sequence : pystr) :
  Forall (fun q => 30 <= q <= 38) (_calculate_quality_scores sequence).
Proof.
  unfold _calculate_quality_scores. apply Forall_map, Forall_forall.
  intros i _. apply quality_at_range.
Qed.

(** C6.  The quality estimator returns one score per base; the score at a
    position is 30, plus 5 when the base equals its predecessor, plus 3
    when it equals the base two positions earlier, capped at 40, and it is
    never below 30. *)
Theorem quality_scores_spec (sequence : pystr) (i : Z) :
  0 <= i < len sequence ->
  len (_calculate_quality_scores sequence) = len sequence /\
  exists score,
    nth_error (_calculate_quality_scores sequence) (Z.to_nat i) = Some score /\
    score = Z.min 40 (30 + (if repeats_back sequence i 1 then 5 else 0)
                         + (if repeats_back sequence i 2 then 3 else 0)) /\
    30 <= score <= 40.
Proof.
  intros Hi. split; [apply quality_scores_length |].
  exists (quality_at sequence i). split; [apply quality_scores_nth, Hi |].
  split; [apply quality_at_spec, Hi |].
  pose proof (quality_at_range sequence i). lia.
Qed.

Lemma quality_scores_spec_witness :
  let s := lit "GAAATA" in
  len (_calculate_quality_scores s) = 6 /\
  nth_error (_calculate_quality_scores s) 3 = Some 38 /\
  nth_error (_calculate_quality_scores s) 5 = Some 33.
Proof.
  intros s.
  destruct (@quality_scores_spec s 3) as (Hlen & q3 & Hq3 & Hv3 & _);
    [vm_compute; split; [discriminate | reflexivity] |].
  destruct (@quality_scores_spec s 5) as (_ & q5 & Hq5 & Hv5 & _);
    [vm_compute; split; [discriminate | reflexivity] |].
  split; [exact Hlen |].
  split; [rewrite Hv3 in Hq3; exact Hq3 | rewrite Hv5 in Hq5; exact Hq5].
Defined.

(** ** Validation *)

Lemma at_dollar_iff (rest : pystr) :
  at_dollar rest = true <-> rest = [] \/ rest = [newline].
Proof.
  destruct rest as [| c [| d rest]]; simpl.
  - split; auto.
  - split.
    + intros H. apply Ascii.eqb_eq in H. subst. auto.
    + intros [H | H]; [discriminate | inversion H; apply Ascii.eqb_refl].
  - split; [discriminate | intros [H | H]; discriminate].
Qed.

Lemma re_match_ACGTN_cons (c : ascii) (s : pystr) :
  re_match_ACGTN (c :: s)
  = in_class_ACGTN c && (at_dollar s || re_match_ACGTN s).
Proof. reflexivity. Qed.

(** What the regular expression accepts: a non-empty run of A, C, G, T, N,
    optionally followed by one final newline. *)
Lemma re_match_ACGTN_iff (u : pystr) :
  re_match_ACGTN u = true <->
  exists body, body <> [] /\ forallb in_class_ACGTN body = true /\
               (u = body \/ u = body ++ [newline]).
Proof.
  split.
  - induction u as [| c u IH]; simpl; [discriminate |].
    intros H. apply andb_true_iff in H. destruct H as [Hc H].
    apply orb_true_iff in H. destruct H as [H | H].
    + exists [c]. simpl. rewrite Hc.
      apply at_dollar_iff in H. destruct H; subst; repeat split; auto;
        discriminate.
    + destruct (IH H) as (body & Hne & Hall & Hu).
      exists (c :: body). simpl. rewrite Hc, Hall.
      repeat split; [discriminate |].
      destruct Hu; subst; auto.
  - intros (body & Hne & Hall & Hu). revert u Hu.
    induction body as [| c body IH]; [contradiction |].
    intros u Hu. simpl in Hall. apply andb_true_iff in Hall.
    destruct Hall as [Hc Hall].
    assert (Hu' : u = c :: body \/ u = c :: (body ++ [newline]))
      by (destruct Hu; auto).
    destruct body as [| d body].
    + destruct Hu' as [-> | ->]; simpl; rewrite Hc; reflexivity.
    + assert (Hne' : d :: body <> []) by discriminate.
      destruct Hu' as [-> | ->]; rewrite re_match_ACGTN_cons, Hc.
      * rewrite (IH Hne' Hall (d :: body)) by auto. apply orb_true_r.
      * rewrite (IH Hne' Hall ((d :: body) ++ [newline])) by auto.
        apply orb_true_r.
Qed.

(** The sequences the validator admits. *)
Lemma validate_sequence_iff (sequence : pystr) :
  _validate_sequence sequence = true <->
  100 <= len sequence /\
  exists body, body <> [] /\ forallb in_class_ACGTN body = true /\
               (upper sequence = body \/ upper sequence = body ++ [newline]).
Proof.
  unfold _validate_sequence. rewrite <- re_match_ACGTN_iff.
  destruct (re_match_ACGTN (upper sequence)); simpl;
    destruct (Z.ltb_spec (len sequence) 100); split;
    try discriminate; try tauto; try lia.
Qed.

(** Sequences of at least 100 symbols over the alphabet (in either case)
    are admitted. *)
Lemma validate_sequence_admits (sequence : pystr) :
  100 <= len sequence ->
  forallb in_class_ACGTN (upper sequence) = true ->
  _validate_sequence sequence = true.
Proof.
  intros Hlen Hall. apply validate_sequence_iff. split; [exact Hlen |].
  exists (upper sequence). repeat split; auto.
  intros E. unfold upper in E. apply map_eq_nil in E. subst.
  unfold len in Hlen. simpl in Hlen. lia.
Qed.

(** Short sequences are rejected. *)
Lemma validate_sequence_rejects_short (sequence : pystr) :
  len sequence < 100 -> _validate_sequence sequence = false.
Proof.
  intros H. unfold _validate_sequence.
  destruct (re_match_ACGTN (upper sequence)); simpl; [| reflexivity].
  destruct (Z.ltb_spec (len sequence) 100); [reflexivity | lia].
Qed.

Lemma in_init_of_snoc {A} (pre post body : list A) (x z : A) :
  post <> [] -> pre ++ x :: post = body ++ [z] -> In x body.
Proof.
  intros Hne H. destruct (exists_last Hne) as (l & y & ->).
  rewrite app_comm_cons, app_assoc in H.
  apply app_inj_tail in H. destruct H as [<- _].
  apply in_or_app. right. left. reflexivity.
Qed.

(** A character outside the alphabet is rejected wherever it stands,
    except a newline in the last position. *)
Lemma validate_sequence_rejects_foreign (pre post : pystr) (c : ascii) :
  in_class_ACGTN (upper_char c) = false ->
  (c <> newline \/ post <> []) ->
  _validate_sequence (pre ++ c :: post) = false.
Proof.
  intros Hc Hpos.
  destruct (_validate_sequence (pre ++ c :: post)) eqn:E; [| reflexivity].
  exfalso. apply validate_sequence_iff in E.
  destruct E as (_ & body & _ & Hall & Hu).
  unfold upper in Hu. rewrite map_app in Hu. simpl in Hu.
  assert (Hin : forall x l, forallb in_class_ACGTN l = true -> In x l ->
                            in_class_ACGTN x = true).
  { intros x l Hl Hx. rewrite forallb_forall in Hl. auto. }
  destruct Hu as [Hu | Hu].
  - rewrite (Hin (upper_char c) body Hall) in Hc; [discriminate |].
    rewrite <- Hu. apply in_or_app. right. left. reflexivity.
  - destruct post as [| d post].
    + simpl in Hu. apply app_inj_tail in Hu. destruct Hu as [_ Hu].
      destruct Hpos as [Hpos | Hpos]; [| contradiction].
      apply Hpos. unfold upper_char in Hu.
      destruct ((97 <=? N_of_ascii c)%N && (N_of_ascii c <=? 122)%N) eqn:Hr;
        [| exact Hu].
      apply andb_true_iff in Hr. destruct Hr as [H1 H2].
      apply N.leb_le in H1. apply N.leb_le in H2.
      apply (f_equal N_of_ascii) in Hu.
      rewrite N_ascii_embedding in Hu by lia.
      change (N_of_ascii newline) with 10%N in Hu. lia.
    + rewrite (Hin (upper_char c) body Hall) in Hc; [discriminate |].
      apply (@in_init_of_snoc _ (map upper_char pre)
               (map upper_char (d :: post)) body (upper_char c) newline);
        [discriminate | exact Hu].
Qed.

(** C3 (the code departs from the claim).  A sequence of 99 bases followed
    by a newline contains a character outside the alphabet and is admitted
    all the same: [$] also matches before a final newline.  [compress] then
    fails further on, not with [InvalidSequence]. *)
Theorem validate_sequence_trailing_newline :
  let sequence := str_repeat (lit "A") 99 ++ [newline] in
  len sequence = 100 /\
  existsb (fun c => negb (in_class_ACGTN (upper_char c))) sequence = true /\
  _validate_sequence sequence = true /\
  forall zlib_compress b64encode,
    fst (compress zlib_compress b64encode (__init__ default_chunk_size) sequence)
    = Raise TypeError.
Proof.
  intros sequence.
  split; [vm_compute; reflexivity |].
  split; [vm_compute; reflexivity |].
  split; [vm_compute; reflexivity |].
  intros zlib_compress b64encode. vm_compute. reflexivity.
Qed.

(** ** Bit strings *)

Lemma bits_value_from_cons (c : ascii) (s : pystr) (acc : Z) :
  bits_value_from acc (c :: s) = bits_value_from (2 * acc + bit_of c) s.
Proof. reflexivity. Qed.

Lemma len_cons {A} (x : A) (l : list A) : len (x :: l) = len l + 1.
Proof. unfold len. simpl length. lia. Qed.

Lemma bits_value_from_shift (s : pystr) (acc : Z) :
  bits_value_from acc s = acc * 2 ^ len s + bits_value_from 0 s.
Proof.
  revert acc. induction s as [| c s IH]; intros acc.
  - unfold bits_value_from, len. simpl. lia.
  - rewrite !bits_value_from_cons.
    rewrite (IH (2 * acc + bit_of c)), (IH (2 * 0 + bit_of c)).
    rewrite len_cons, Z.pow_add_r by (pose proof (len_nonneg s); lia).
    lia.
Qed.

Lemma bits_value_cons (c : ascii) (s : pystr) :
  bits_value (c :: s) = bit_of c * 2 ^ len s + bits_value s.
Proof.
  unfold bits_value. rewrite bits_value_from_cons, bits_value_from_shift.
  lia.
Qed.

Lemma bits_value_app (s t : pystr) :
  bits_value (s ++ t) = bits_value s * 2 ^ len t + bits_value t.
Proof.
  unfold bits_value. unfold bits_value_from at 1. rewrite fold_left_app.
  fold (bits_value_from 0 s). fold (bits_value_from (bits_value_from 0 s) t).
  apply bits_value_from_shift.
Qed.

Lemma bit_of_range (c : ascii) : 0 <= bit_of c <= 1.
Proof. unfold bit_of. destruct (Ascii.eqb c digit1); lia. Qed.

Lemma bits_value_range (s : pystr) : 0 <= bits_value s < 2 ^ len s.
Proof.
  induction s as [| c s IH].
  - vm_compute. split; [discriminate | reflexivity].
  - rewrite bits_value_cons.
    rewrite len_cons, Z.pow_add_r by (pose proof (len_nonneg s); lia).
    pose proof (bit_of_range c). nia.
Qed.

Lemma bits_value_zeros (k : nat) (s : pystr) :
  bits_value (repeat digit0 k ++ s) = bits_value s.
Proof.
  induction k as [| k IH]; simpl; [reflexivity |].
  rewrite bits_value_cons, IH. change (bit_of digit0) with 0. lia.
Qed.

Lemma is_bit_inj (a b : ascii) :
  is_bit a = true -> is_bit b = true -> bit_of a = bit_of b -> a = b.
Proof.
  unfold is_bit, bit_of. intros Ha Hb H.
  destruct (Ascii.eqb_spec a digit1) as [-> |]; destruct (Ascii.eqb_spec b digit1) as [-> |];
    try reflexivity; try discriminate.
  destruct (Ascii.eqb_spec a digit0) as [-> |]; destruct (Ascii.eqb_spec b digit0) as [-> |];
    try reflexivity; discriminate.
Qed.

(** Two digit strings of one length that denote one number are equal. *)
Lemma bits_value_inj (s t : pystr) :
  forallb is_bit s = true -> forallb is_bit t = true ->
  length s = length t -> bits_value s = bits_value t -> s = t.
Proof.
  revert t. induction s as [| a s IH]; intros [| b t] Hs Ht Hlen Hv;
    try reflexivity; try discriminate.
  simpl in Hs, Ht, Hlen.
  apply andb_true_iff in Hs. destruct Hs as [Ha Hs].
  apply andb_true_iff in Ht. destruct Ht as [Hb Ht].
  rewrite !bits_value_cons in Hv.
  assert (Hl : len s = len t) by (unfold len; lia).
  rewrite Hl in Hv.
  pose proof (bits_value_range s) as Rs. pose proof (bits_value_range t) as Rt.
  rewrite Hl in Rs.
  pose proof (bit_of_range a). pose proof (bit_of_range b).
  assert (bit_of a = bit_of b) by nia.
  f_equal.
  - apply is_bit_inj; assumption.
  - apply IH; try assumption; [lia | nia].
Qed.

Lemma int2_from_bits (s : pystr) (acc : Z) :
  forallb is_bit s = true -> int2_from acc s = Ok (bits_value_from acc s).
Proof.
  revert acc. induction s as [| c s IH]; intros acc H; [reflexivity |].
  simpl in H. apply andb_true_iff in H. destruct H as [Hc Hs].
  unfold bits_value_from. simpl. unfold is_bit in Hc. unfold bit_of.
  destruct (Ascii.eqb_spec c digit0) as [-> |].
  - change (Ascii.eqb digit0 digit1) with false.
    rewrite IH by assumption. unfold bits_value_from. do 2 f_equal. lia.
  - simpl in Hc. rewrite Hc. rewrite IH by assumption. reflexivity.
Qed.

Lemma int2_bits (s : pystr) :
  s <> [] -> forallb is_bit s = true -> int2 s = Ok (bits_value s).
Proof.
  intros Hne H. destruct s as [| c s]; [contradiction |].
  unfold int2. apply int2_from_bits. exact H.
Qed.

(** The eight digits of a byte. *)
Lemma format_byte (b : byte) :
  length (format_08b (Z_of_byte b)) = 8%nat /\
  forallb is_bit (format_08b (Z_of_byte b)) = true /\
  bits_value (format_08b (Z_of_byte b)) = Z_of_byte b.
Proof. destruct b; vm_compute; auto. Qed.

Lemma Z_of_byte_of_Z (z : Z) : Z_of_byte (byte_of_Z z) = z mod 256.
Proof.
  unfold Z_of_byte, byte_of_Z.
  pose proof (Z.mod_pos_bound z 256 ltac:(lia)) as Hr.
  destruct (Byte.of_N (Z.to_N (z mod 256))) as [b |] eqn:E.
  - apply Byte.to_of_N in E. rewrite E. lia.
  - apply Byte.of_N_None_iff in E. lia.
Qed.

Lemma format_08b_small (z : Z) :
  0 <= z < 256 ->
  length (format_08b z) = 8%nat /\
  forallb is_bit (format_08b z) = true /\
  bits_value (format_08b z) = z.
Proof.
  intros Hz. rewrite <- (Z.mod_small z 256) by lia.
  rewrite <- Z_of_byte_of_Z. apply format_byte.
Qed.

Lemma bitstring_of_bytes_app (a b : bytes) :
  bitstring_of_bytes (a ++ b) = bitstring_of_bytes a ++ bitstring_of_bytes b.
Proof. unfold bitstring_of_bytes. rewrite map_app, concat_app. reflexivity. Qed.

Lemma bitstring_of_bytes_facts (b : bytes) :
  len (bitstring_of_bytes b) = 8 * len b /\
  forallb is_bit (bitstring_of_bytes b) = true.
Proof.
  induction b as [| x b (IHl & IHb)]; [split; reflexivity |].
  change (x :: b) with ([x] ++ b). rewrite bitstring_of_bytes_app.
  destruct (format_byte x) as (Hl & Hb & _).
  unfold bitstring_of_bytes at 1 3. simpl. rewrite app_nil_r.
  split.
  - rewrite len_app, IHl. unfold len at 1. rewrite Hl.
    unfold len. simpl length. lia.
  - rewrite forallb_app, Hb, IHb. reflexivity.
Qed.

Lemma to_bytes_le_length (n : nat) (v : Z) : length (to_bytes_le n v) = n.
Proof. revert v. induction n; intros v; simpl; [| rewrite IHn]; reflexivity. Qed.

Lemma to_bytes_le_value (n : nat) (v : Z) :
  0 <= v < 256 ^ Z.of_nat n ->
  bits_value (bitstring_of_bytes (rev (to_bytes_le n v))) = v.
Proof.
  revert v. induction n as [| n IH]; intros v Hv.
  - simpl in *. vm_compute. change (256 ^ 0) with 1 in Hv. lia.
  - cbn [to_bytes_le rev]. rewrite bitstring_of_bytes_app, bits_value_app.
    rewrite IH.
    + unfold bitstring_of_bytes at 1 2. simpl. rewrite app_nil_r.
      destruct (format_byte (byte_of_Z (v mod 256))) as (Hl & _ & Hval).
      rewrite Hval. unfold len. rewrite Hl.
      rewrite Z_of_byte_of_Z, Z.mod_mod by lia.
      change (2 ^ Z.of_nat 8) with 256.
      pose proof (Z.div_mod v 256 ltac:(lia)). lia.
    + rewrite Nat2Z.inj_succ, Z.pow_succ_r in Hv by lia.
      split; [apply Z.div_pos; lia |].
      apply Z.div_lt_upper_bound; lia.
Qed.

Lemma to_bytes_big_Ok (v n : Z) :
  0 <= n -> 0 <= v < 256 ^ n ->
  exists b, to_bytes_big v n = Ok b /\ len b = n /\
            bits_value (bitstring_of_bytes b) = v.
Proof.
  intros Hn Hv. unfold to_bytes_big.
  destruct (Z.ltb_spec v 0); [lia |].
  destruct (Z.leb_spec (256 ^ n) v); [lia |]. simpl.
  eexists. split; [reflexivity |]. split.
  - unfold len. rewrite length_rev, to_bytes_le_length. lia.
  - apply to_bytes_le_value. rewrite Z2Nat.id by lia. exact Hv.
Qed.

(** ** The encoder *)

Lemma encoding_get_two_bit_code (base : ascii) :
  encoding_get encoding base (lit "00") = two_bit_code base.
Proof. reflexivity. Qed.

Lemma two_bit_code_facts (base : ascii) :
  length (two_bit_code base) = 2%nat /\
  forallb is_bit (two_bit_code base) = true.
Proof.
  unfold two_bit_code.
  repeat match goal with |- context [if ?b then _ else _] => destruct b end;
    split; reflexivity.
Qed.

Lemma concat_fields {A} (f : A -> pystr) (k : nat) (l : list A) :
  Forall (fun x => length (f x) = k /\ forallb is_bit (f x) = true) l ->
  len (List.concat (map f l)) = Z.of_nat k * len l /\
  forallb is_bit (List.concat (map f l)) = true.
Proof.
  induction 1 as [| x l (Hk & Hb) _ (IHl & IHb)]; simpl.
  - split; [unfold len; simpl; lia | reflexivity].
  - rewrite len_app, forallb_app, Hb, IHb, IHl, len_cons.
    split; [unfold len; rewrite Hk; lia | reflexivity].
Qed.

Lemma sequence_binary_eq (sequence : pystr) :
  sequence_binary sequence
  = List.concat (map (fun base => two_bit_code (upper_char base)) sequence).
Proof. unfold sequence_binary, upper. rewrite map_map. reflexivity. Qed.

Lemma sequence_binary_facts (sequence : pystr) :
  len (sequence_binary sequence) = 2 * len sequence /\
  forallb is_bit (sequence_binary sequence) = true.
Proof.
  rewrite sequence_binary_eq.
  apply (@concat_fields _ (fun base => two_bit_code (upper_char base)) 2).
  apply Forall_forall. intros x _. apply two_bit_code_facts.
Qed.

Lemma quality_binary_facts (sequence : pystr) :
  len (quality_binary sequence) = 8 * len sequence /\
  forallb is_bit (quality_binary sequence) = true.
Proof.
  unfold quality_binary. rewrite <- (quality_scores_length sequence).
  apply (@concat_fields _ format_08b 8).
  eapply Forall_impl; [| apply quality_scores_Forall].
  intros q Hq. simpl in Hq.
  destruct (@format_08b_small q ltac:(lia)) as (H1 & H2 & _). auto.
Qed.

Lemma combined_binary_facts (sequence : pystr) :
  len (combined_binary sequence) = 10 * len sequence /\
  forallb is_bit (combined_binary sequence) = true.
Proof.
  unfold combined_binary.
  destruct (sequence_binary_facts sequence) as (L1 & B1).
  destruct (quality_binary_facts sequence) as (L2 & B2).
  rewrite len_app, forallb_app, L1, L2, B1, B2. split; [lia | reflexivity].
Qed.

Lemma pow256 (n : Z) : 0 <= n -> 256 ^ n = 2 ^ (8 * n).
Proof. intros H. rewrite Z.pow_mul_r by lia. reflexivity. Qed.

(** The encoder succeeds on every non-empty sequence, and its buffer
    holds the combined bit string, right-aligned. *)
Lemma encode_sequence_Ok (sequence : pystr) :
  sequence <> [] ->
  exists buffer,
    _encode_sequence sequence = Ok buffer /\
    len buffer = (10 * len sequence + 7) / 8 /\
    bitstring_of_bytes buffer
    = repeat digit0 (Z.to_nat (8 * len buffer - 10 * len sequence))
      ++ combined_binary sequence.
Proof.
  intros Hne.
  destruct (combined_binary_facts sequence) as (Hlen & Hbits).
  assert (Hpos : 0 < len sequence).
  { pose proof (len_nonneg sequence).
    destruct (Z.eq_dec (len sequence) 0) as [E |]; [| lia].
    apply len_nil_iff in E. contradiction. }
  unfold _encode_sequence. cbv zeta.
  rewrite int2_bits; [| intros E; rewrite E in Hlen;
                        change (0 = 10 * len sequence) in Hlen; lia
                      | exact Hbits].
  simpl bind. rewrite Hlen.
  set (n := (10 * len sequence + 7) / 8).
  assert (Hn : 10 * len sequence <= 8 * n < 10 * len sequence + 8).
  { unfold n. pose proof (Z.div_mod (10 * len sequence + 7) 8 ltac:(lia)).
    pose proof (Z.mod_pos_bound (10 * len sequence + 7) 8 ltac:(lia)). lia. }
  pose proof (bits_value_range (combined_binary sequence)) as Hv.
  rewrite Hlen in Hv.
  destruct (@to_bytes_big_Ok (bits_value (combined_binary sequence)) n)
    as (buffer & Hb & Hbl & Hbv).
  { lia. }
  { split; [lia |]. rewrite pow256 by lia.
    eapply Z.lt_le_trans; [apply Hv |].
    apply Z.pow_le_mono_r; lia. }
  exists buffer. split; [exact Hb |]. split; [exact Hbl |].
  destruct (bitstring_of_bytes_facts buffer) as (Hsl & Hsb).
  apply bits_value_inj.
  - exact Hsb.
  - rewrite forallb_app, Hbits, andb_true_r.
    apply forallb_forall. intros x Hx. apply repeat_spec in Hx. subst.
    reflexivity.
  - apply Nat2Z.inj. fold (len (bitstring_of_bytes buffer)).
    rewrite Hsl, length_app, repeat_length, Nat2Z.inj_add.
    fold (len (combined_binary sequence)). rewrite Hlen. lia.
  - rewrite bits_value_zeros. exact Hbv.
Qed.

(** C5, as the code has it.  On a non-empty ASCII sequence the encoder
    concatenates the 2-bit codes of the upper-cased bases in sequence
    order, appends every quality score as an 8-bit field in the same
    order, and writes the bit string as one big-endian integer into
    ceil(bits/8) bytes: the zero bits that fill the buffer stand in front
    of the bit string, in the first byte. *)
Theorem encode_sequence_layout (sequence : pystr) :
  sequence <> [] -> isascii sequence = true ->
  let scores := _calculate_quality_scores sequence in
  let bases :=
    List.concat (map (fun base => two_bit_code (upper_char base)) sequence) in
  let fields := List.concat (map format_08b scores) in
  Forall (fun q => length (format_08b q) = 8%nat
                   /\ bits_value (format_08b q) = q) scores /\
  exists buffer,
    _encode_sequence sequence = Ok buffer /\
    len buffer = (10 * len sequence + 7) / 8 /\
    bitstring_of_bytes buffer
    = repeat digit0 (Z.to_nat (8 * len buffer - 10 * len sequence))
      ++ bases ++ fields.
Proof.
  intros Hne _ scores bases fields. split.
  - eapply Forall_impl; [| apply quality_scores_Forall].
    intros q Hq. simpl in Hq.
    destruct (@format_08b_small q ltac:(lia)) as (H1 & _ & H3). auto.
  - destruct (encode_sequence_Ok Hne) as (buffer & H1 & H2 & H3).
    exists buffer. split; [exact H1 |]. split; [exact H2 |].
    rewrite H3. unfold combined_binary. rewrite sequence_binary_eq.
    reflexivity.
Qed.

Lemma encode_sequence_layout_witness :
  exists buffer,
    _encode_sequence (lit "T") = Ok buffer /\
    bitstring_of_bytes buffer = lit "0000001100011110".
Proof.
  destruct (@encode_sequence_layout (lit "T")) as (_ & buffer & H1 & H2 & H3);
    [discriminate | reflexivity |].
  exists buffer. split; [exact H1 |].
  rewrite H3, H2. vm_compute. reflexivity.
Defined.

(** C5 as stated fails.  For a valid sequence of 101 bases the fill bits
    are the high bits of the first byte (0x03 for a leading T), not the
    low bits of the final byte (which would make the first byte 0xC0). *)
Lemma encode_sequence_padding_counterexample :
  let sequence := lit "T" ++ str_repeat (lit "A") 100 in
  _validate_sequence sequence = true /\
  isascii sequence = true /\
  exists buffer,
    _encode_sequence sequence = Ok buffer /\
    buffer <> encode_as_stated sequence /\
    nth_error buffer 0 = Some x03 /\
    nth_error (encode_as_stated sequence) 0 = Some xc0.
Proof.
  intros sequence.
  split; [vm_compute; reflexivity |].
  split; [vm_compute; reflexivity |].
  eexists. split; [vm_compute; reflexivity |].
  split; [| split; vm_compute; reflexivity].
  intros H. apply (f_equal (fun l => nth_error l 0)) in H.
  vm_compute in H. discriminate.
Qed.

(** ** The error-rate estimate never fails on a non-empty chunk *)

Lemma py_add_num (a b : pyval) :
  is_num a -> is_num b -> exists c, py_add a b = Ok c /\ is_num c.
Proof.
  destruct a, b; simpl; intros Ha Hb; try contradiction; eexists; split;
    try reflexivity; exact I.
Qed.

Lemma error_step_num (sequence : pystr) (errors : pyval) (i : Z) :
  is_num errors ->
  exists errors', error_step sequence errors i = Ok errors' /\ is_num errors'.
Proof.
  intros H. unfold error_step.
  assert (H1 : exists e1,
             (if negb (char_in (str_at sequence i) (lit "ACGT"))
              then py_add errors (PInt 1) else Ok errors) = Ok e1 /\ is_num e1).
  { destruct (negb _); [apply py_add_num; [exact H | exact I] | eauto]. }
  destruct H1 as (e1 & -> & He1). simpl bind.
  destruct (_ && _); [apply py_add_num; [exact He1 | exact I] | eauto].
Qed.

Lemma foldM_error_step_num (sequence : pystr) (idxs : list Z) (errors : pyval) :
  is_num errors ->
  exists errors', foldM (error_step sequence) idxs errors = Ok errors'
                  /\ is_num errors'.
Proof.
  revert errors. induction idxs as [| i idxs IH]; intros errors H; simpl.
  - eauto.
  - destruct (@error_step_num sequence errors i H) as (e & -> & He). simpl bind.
    apply IH, He.
Qed.

Lemma calculate_error_rate_Ok (sequence : pystr) :
  sequence <> [] -> exists r, _calculate_error_rate sequence = Ok r /\ is_num r.
Proof.
  intros Hne. unfold _calculate_error_rate.
  destruct (@foldM_error_step_num sequence (py_range (len sequence)) (PInt 0) I)
    as (e & -> & He).
  simpl bind.
  assert (Hz : (len sequence =? 0) = false).
  { apply Z.eqb_neq. intros E. apply len_nil_iff in E. contradiction. }
  destruct e; simpl; try contradiction; rewrite Hz; eexists; split;
    try reflexivity; exact I.
Qed.

(** ** Slices and chunks *)

Lemma firstn_add_skipn {A} (a b : nat) (l : list A) :
  firstn (a + b) l = firstn a l ++ firstn b (skipn a l).
Proof.
  revert l. induction a as [| a IH]; intros l; [reflexivity |].
  destruct l as [| x l]; simpl.
  - rewrite firstn_nil. reflexivity.
  - rewrite IH. reflexivity.
Qed.

(** A slice with in-range, ordered bounds. *)
Lemma py_slice_inner {A} (l : list A) (lo hi : Z) :
  0 <= lo <= hi ->
  py_slice l lo hi
  = firstn (Z.to_nat (Z.min hi (len l) - Z.min lo (len l)))
           (skipn (Z.to_nat (Z.min lo (len l))) l).
Proof.
  intros H. unfold py_slice, clamp.
  destruct (Z.ltb_spec lo 0); [lia |].
  destruct (Z.ltb_spec hi 0); [lia |]. reflexivity.
Qed.

Lemma py_slice_len {A} (l : list A) (lo hi : Z) :
  0 <= lo <= hi ->
  len (py_slice l lo hi) = Z.min hi (len l) - Z.min lo (len l).
Proof.
  intros H. rewrite py_slice_inner by exact H. unfold len.
  rewrite length_firstn, length_skipn. lia.
Qed.

Lemma py_slice_window {A} (l : list A) (i w : Z) :
  0 <= i -> 0 <= w -> i + w <= len l -> len (py_slice l i (i + w)) = w.
Proof. intros. rewrite py_slice_len by lia. lia. Qed.

(** The starts [0, C, 2C, ...] below [N]. *)
Lemma chunk_starts (N C : Z) :
  0 < C -> 0 <= N ->
  py_range3 0 N C
  = Ok (map (fun k => Z.of_nat k * C) (seq 0 (Z.to_nat ((N + C - 1) / C)))).
Proof.
  intros HC HN. unfold py_range3.
  destruct (Z.eqb_spec C 0); [lia |]. f_equal.
  assert (E : range_len 0 N C = (N + C - 1) / C).
  { unfold range_len. destruct (Z.ltb_spec 0 C); [| lia].
    destruct (Z.ltb_spec 0 N).
    - replace (N + C - 1) with (N - 0 - 1 + 1 * C) by lia.
      rewrite Z.div_add by lia. reflexivity.
    - assert (N = 0) by lia. subst. rewrite Z.div_small; lia. }
  rewrite E. apply map_ext. intros k. lia.
Qed.

Lemma concat_chunks {A} (l : list A) (c m : nat) :
  List.concat (map (fun k => firstn c (skipn (k * c) l)) (seq 0 m))
  = firstn (m * c) l.
Proof.
  induction m as [| m IH]; [reflexivity |].
  rewrite seq_S, map_app, concat_app, IH. simpl.
  rewrite app_nil_r, <- firstn_add_skipn. f_equal. lia.
Qed.

Lemma sum_len_concat {A} (ls : list (list A)) :
  fold_left Z.add (map len ls) 0 = len (List.concat ls).
Proof.
  assert (G : forall acc, fold_left Z.add (map len ls) acc
                          = acc + len (List.concat ls)).
  { induction ls as [| x ls IH]; intros acc; simpl.
    - change (len []) with 0. lia.
    - rewrite IH, len_app. lia. }
  apply G.
Qed.

(** One chunk of the list comprehension of line 130. *)
Lemma chunk_slice_nth {A} (l : list A) (C : Z) (k : nat) :
  0 < C -> Z.of_nat k < (len l + C - 1) / C ->
  py_slice l (Z.of_nat k * C) (Z.of_nat k * C + C)
  = firstn (Z.to_nat C) (skipn (k * Z.to_nat C) l).
Proof.
  intros HC Hm.
  assert (Hlt : Z.of_nat k * C < len l).
  { pose proof (Z.mul_div_le (len l + C - 1) C HC). nia. }
  rewrite py_slice_inner by nia.
  replace (Z.to_nat (Z.min (Z.of_nat k * C) (len l)))
    with (k * Z.to_nat C)%nat by nia.
  destruct (Z.le_gt_cases (Z.of_nat k * C + C) (len l)) as [Hfull | Hpart].
  - f_equal. lia.
  - rewrite Z.min_r, Z.min_l by lia.
    rewrite !firstn_all2; try reflexivity; rewrite length_skipn;
      unfold len in *; nia.
Qed.

Lemma chunk_slices {A} (l : list A) (C : Z) :
  0 < C ->
  map (fun i => py_slice l i (i + C))
      (map (fun k => Z.of_nat k * C) (seq 0 (Z.to_nat ((len l + C - 1) / C))))
  = map (fun k => firstn (Z.to_nat C) (skipn (k * Z.to_nat C) l))
        (seq 0 (Z.to_nat ((len l + C - 1) / C))).
Proof.
  intros HC. rewrite map_map. apply map_ext_in. intros k Hk.
  apply in_seq in Hk. apply chunk_slice_nth; [exact HC | lia].
Qed.

(** ** [compress]: chunks, metadata and the statistics record *)

Lemma chunk_count_ceiling (N C : Z) :
  0 < C -> 0 <= N ->
  (chunk_count N C - 1) * C < N <= chunk_count N C * C \/ (N = 0 /\ chunk_count N C = 0).
Proof.
  intros HC HN. unfold chunk_count.
  pose proof (Z.div_mod (N + C - 1) C ltac:(lia)).
  pose proof (Z.mod_pos_bound (N + C - 1) C HC).
  destruct (Z.eq_dec N 0) as [-> |]; [right | left; nia].
  split; [reflexivity |]. apply Z.div_small. lia.
Qed.

Section CompressFacts.

Variable zlib_compress : bytes -> Z -> bytes.
Variable b64encode : bytes -> bytes.

Lemma compress_chunk_Ok (self : GenomeCompressor) (chunk : pystr) :
  chunk <> [] ->
  exists compressed meta buffer,
    _compress_chunk zlib_compress self chunk = Ok (compressed, meta) /\
    _encode_sequence chunk = Ok buffer /\
    compressed = zlib_compress buffer 9 /\
    original_length meta = len chunk /\
    checksum meta = crc32 buffer /\
    quality_scores meta = _calculate_quality_scores chunk /\
    patterns meta = _find_patterns self chunk.
Proof.
  intros Hne. unfold _compress_chunk.
  destruct (encode_sequence_Ok Hne) as (buffer & Hb & _).
  destruct (calculate_error_rate_Ok Hne) as (rate & Hr & _).
  rewrite Hb, Hr. simpl bind.
  do 3 eexists. split; [reflexivity |]. split; [reflexivity |].
  split; [| repeat split].
  unfold _compress_repetitive. destruct (_is_highly_repetitive self chunk);
    reflexivity.
Qed.

Lemma chunk_nonempty (genome_data : pystr) (C : Z) (k : nat) :
  0 < C -> Z.of_nat k < chunk_count (len genome_data) C ->
  firstn (Z.to_nat C) (skipn (k * Z.to_nat C) genome_data) <> [] /\
  len (firstn (Z.to_nat C) (skipn (k * Z.to_nat C) genome_data))
  = Z.min C (len genome_data - Z.of_nat k * C).
Proof.
  intros HC Hk.
  destruct (@chunk_count_ceiling (len genome_data) C HC (len_nonneg _))
    as [Hc | [_ Hc]]; [| lia].
  assert (Hlt : Z.of_nat k * C < len genome_data) by nia.
  assert (Hlen : len (firstn (Z.to_nat C) (skipn (k * Z.to_nat C) genome_data))
                 = Z.min C (len genome_data - Z.of_nat k * C)).
  { unfold len in *. rewrite length_firstn, length_skipn. nia. }
  split; [| exact Hlen].
  intros E. rewrite E in Hlen. change (len []) with 0 in Hlen. lia.
Qed.

(** Lines 130-150 succeed on a non-empty input when the chunk size is
    positive; every chunk gets its metadata entry, in chunk order. *)
Lemma compress_body_Ok (self : GenomeCompressor) (genome_data : pystr) :
  genome_data <> [] -> 0 < chunk_size self ->
  exists l,
    compress_body zlib_compress b64encode self genome_data = Ok l /\
    chunks l
    = map (fun k => firstn (Z.to_nat (chunk_size self))
                      (skipn (k * Z.to_nat (chunk_size self)) genome_data))
          (seq 0 (Z.to_nat (chunk_count (len genome_data) (chunk_size self)))) /\
    Forall2 (fun chunk meta =>
               original_length meta = len chunk /\
               quality_scores meta = _calculate_quality_scores chunk /\
               patterns meta = _find_patterns self chunk /\
               exists buffer, _encode_sequence chunk = Ok buffer /\
                              checksum meta = crc32 buffer)
            (chunks l) (metadata_list l).
Proof.
  intros Hne HC. unfold compress_body.
  rewrite chunk_starts by (auto using len_nonneg). simpl bind.
  rewrite chunk_slices by exact HC. fold (chunk_count (len genome_data) (chunk_size self)).
  set (cs := map _ (seq 0 _)).
  assert (Hcs : Forall (fun c => c <> []) cs).
  { unfold cs. apply Forall_forall. intros c Hc.
    apply in_map_iff in Hc. destruct Hc as (k & <- & Hk).
    apply in_seq in Hk. apply chunk_nonempty; [exact HC | lia]. }
  destruct (@mapM_total _ _ (_compress_chunk zlib_compress self) cs)
    as (results & Hres).
  { eapply Forall_impl; [| exact Hcs]. intros c Hc. simpl in Hc.
    destruct (@compress_chunk_Ok self c Hc) as (x & m & _ & H & _). eauto. }
  rewrite Hres. simpl bind. eexists. split; [reflexivity |].
  split; [reflexivity |]. simpl.
  apply mapM_Ok_Forall2 in Hres. clear - Hres Hcs.
  induction Hres as [| c r cs results Hr Hres IH]; simpl; constructor.
  - inversion Hcs as [| ? ? Hc _]; subst.
    destruct (@compress_chunk_Ok self c Hc)
      as (x & m & buffer & H & Hb & _ & H1 & H2 & H3 & H4).
    rewrite H in Hr. inversion Hr. simpl. eauto 8.
  - apply IH. inversion Hcs; assumption.
Qed.

Lemma validate_sequence_nonempty (sequence : pystr) :
  _validate_sequence sequence = true -> sequence <> [] /\ 100 <= len sequence.
Proof.
  intros H. apply validate_sequence_iff in H. destruct H as [H _].
  split; [| exact H]. intros E. subst. change (len []) with 0 in H. lia.
Qed.

(** The statistics record cannot be built once there is a chunk: the sum
    over the per-chunk score lists starts from the integer 0. *)
Lemma make_stats_raises (genome_data : pystr) (l : compress_locals) :
  genome_data <> [] -> metadata_list l <> [] ->
  make_stats genome_data l = Raise TypeError.
Proof.
  intros Hne Hm. unfold make_stats.
  assert (Hz : (len genome_data =? 0) = false).
  { apply Z.eqb_neq. intros E. apply len_nil_iff in E. contradiction. }
  simpl py_truediv. rewrite Hz. simpl bind.
  destruct (metadata_list l) as [| m ms]; [contradiction |]. reflexivity.
Qed.

Lemma compress_raises_TypeError (self : GenomeCompressor) (genome_data : pystr) :
  _validate_sequence genome_data = true -> 0 < chunk_size self ->
  compress zlib_compress b64encode self genome_data = (Raise TypeError, self).
Proof.
  intros Hv HC. unfold compress. rewrite Hv. simpl negb. cbv iota.
  destruct (validate_sequence_nonempty _ Hv) as (Hne & Hlen).
  destruct (compress_body_Ok self Hne HC) as (l & Hl & Hch & Hall).
  rewrite Hl. simpl bind. rewrite make_stats_raises; [reflexivity | exact Hne |].
  intros E. rewrite E in Hall. inversion Hall as [Hnil |].
  rewrite Hch in Hnil. symmetry in Hnil. apply map_eq_nil in Hnil.
  apply (f_equal (@length nat)) in Hnil. rewrite length_seq in Hnil.
  simpl in Hnil.
  destruct (@chunk_count_ceiling (len genome_data) (chunk_size self) HC
              (len_nonneg _)) as [Hc | [Hc _]]; nia.
Qed.

(** No call of [compress] returns: an invalid input raises
    [InvalidSequence], a zero chunk size makes [range] raise, a negative
    one leaves no chunk and the means divide by zero, and a positive one
    runs into the sum of the score lists. *)
Lemma compress_never_succeeds (self : GenomeCompressor) (genome_data : pystr) :
  fst (compress zlib_compress b64encode self genome_data)
  = (if negb (_validate_sequence genome_data) then Raise InvalidSequence
     else if chunk_size self =? 0
          then Raise (ValueError "range() arg 3 must not be zero")
     else if chunk_size self <? 0 then Raise ZeroDivisionError
     else Raise TypeError) /\
  snd (compress zlib_compress b64encode self genome_data) = self.
Proof.
  destruct (_validate_sequence genome_data) eqn:Hv; simpl negb; cbv iota.
  - destruct (Z.eqb_spec (chunk_size self) 0) as [E0 | N0].
    + unfold compress, compress_body, py_range3. rewrite Hv, E0. split; reflexivity.
    + destruct (Z.ltb_spec (chunk_size self) 0) as [Hneg | Hpos].
      * destruct (validate_sequence_nonempty _ Hv) as (Hne & Hlen).
        unfold compress, compress_body, py_range3, range_len. rewrite Hv.
        destruct (Z.eqb_spec (chunk_size self) 0); [contradiction |].
        destruct (Z.ltb_spec 0 (chunk_size self)); [lia |].
        destruct (Z.ltb_spec (len genome_data) 0); [lia |].
        simpl. unfold make_stats. simpl.
        destruct (Z.eqb_spec (len genome_data) 0); [lia |].
        split; reflexivity.
      * rewrite compress_raises_TypeError by (assumption || lia).
        split; reflexivity.
  - unfold compress. rewrite Hv. split; reflexivity.
Qed.

End CompressFacts.

(** C2 (the code departs from the claim).  On every valid input, with a
    positive chunk size, [compress] raises [TypeError] while it builds the
    statistics record (the mean quality score sums lists of scores
    starting from 0): nothing is returned and the history of
    [get_compression_stats] does not grow. *)
Theorem compress_never_returns
  (zlib_compress : bytes -> Z -> bytes) (b64encode : bytes -> bytes)
  (self : GenomeCompressor) (genome_data : pystr) :
  _validate_sequence genome_data = true -> 0 < chunk_size self ->
  fst (compress zlib_compress b64encode self genome_data) = Raise TypeError /\
  get_compression_stats (snd (compress zlib_compress b64encode self genome_data))
  = get_compression_stats self.
Proof.
  intros Hv HC.
  rewrite (compress_raises_TypeError zlib_compress b64encode self _ Hv HC).
  split; reflexivity.
Qed.

Lemma compress_never_returns_witness :
  let s := str_repeat (lit "ACGT") 250 in
  fst (compress stored_compress std_b64encode (__init__ 100) s) = Raise TypeError /\
  get_compression_stats (snd (compress stored_compress std_b64encode (__init__ 100) s))
  = [].
Proof.
  intros s.
  apply (@compress_never_returns stored_compress std_b64encode (__init__ 100) s).
  - vm_compute. reflexivity.
  - reflexivity.
Defined.

Lemma Forall2_map_eq {A B C} (f : A -> C) (g : B -> C) (xs : list A) (ys : list B) :
  Forall2 (fun x y => g y = f x) xs ys -> map g ys = map f xs.
Proof. induction 1; simpl; congruence. Qed.

(** On a valid [N]-symbol input with chunk size [C > 0], lines 130-150
    of [compress] split the input into ceil(N/C) contiguous chunks of at
    most [C] symbols, only the last possibly shorter, and build one
    metadata entry per chunk whose [original_length] fields add up to
    [N]. *)
Lemma compress_body_chunking
  (zlib_compress : bytes -> Z -> bytes) (b64encode : bytes -> bytes)
  (self : GenomeCompressor) (genome_data : pystr) :
  _validate_sequence genome_data = true -> 0 < chunk_size self ->
  let N := len genome_data in
  let C := chunk_size self in
  exists l,
    compress_body zlib_compress b64encode self genome_data = Ok l /\
    len (chunks l) = chunk_count N C /\
    (chunk_count N C - 1) * C < N <= chunk_count N C * C /\
    List.concat (chunks l) = genome_data /\
    (forall k chunk, nth_error (chunks l) k = Some chunk ->
       chunk = py_slice genome_data (Z.of_nat k * C) (Z.of_nat k * C + C) /\
       0 < len chunk <= C /\
       (Z.of_nat k + 1 < len (chunks l) -> len chunk = C)) /\
    len (metadata_list l) = len (chunks l) /\
    map original_length (metadata_list l) = map len (chunks l) /\
    fold_left Z.add (map original_length (metadata_list l)) 0 = N.
Proof.
  intros Hv HC N C.
  destruct (validate_sequence_nonempty _ Hv) as (Hne & Hlen).
  destruct (compress_body_Ok zlib_compress b64encode self Hne HC)
    as (l & Hl & Hch & Hall).
  fold N C in Hch.
  destruct (@chunk_count_ceiling N C HC (len_nonneg _)) as [Hceil | [E _]];
    [| unfold N in E; lia].
  assert (Hcount : len (chunks l) = chunk_count N C).
  { rewrite Hch. unfold len. rewrite length_map, length_seq.
    unfold chunk_count in *. lia. }
  assert (Hcat : List.concat (chunks l) = genome_data).
  { rewrite Hch, concat_chunks. apply firstn_all2.
    assert (Hm0 : 0 <= chunk_count N C) by (unfold N in *; nia).
    apply Nat2Z.inj_le. rewrite Nat2Z.inj_mul, !Z2Nat.id by lia.
    apply Hceil. }
  assert (Hmap : map original_length (metadata_list l) = map len (chunks l)).
  { apply Forall2_map_eq. eapply Forall2_impl; [| exact Hall].
    intros c m (H & _). exact H. }
  exists l. split; [exact Hl |]. split; [exact Hcount |].
  split; [exact Hceil |]. split; [exact Hcat |]. split; [| split; [| split]].
  - intros k chunk Hk.
    assert (Hkm : (k < Z.to_nat (chunk_count N C))%nat).
    { assert (Hb : nth_error (chunks l) k <> None) by congruence.
      apply nth_error_Some in Hb. unfold len in Hcount. lia. }
    rewrite Hch, nth_error_map, nth_error_seq in Hk.
    destruct (Nat.ltb_spec k (Z.to_nat (chunk_count N C))); [| lia].
    simpl in Hk. inversion Hk as [Hc]. clear Hk.
    split; [symmetry; apply chunk_slice_nth; [exact HC |];
            unfold chunk_count, N in Hkm; lia |].
    destruct (@chunk_nonempty genome_data C k HC ltac:(unfold N in Hkm; lia))
      as (_ & Hlen').
    fold N in Hlen'. rewrite Hlen', Hcount. nia.
  - unfold len. f_equal. symmetry. exact (Forall2_length Hall).
  - exact Hmap.
  - rewrite Hmap, sum_len_concat, Hcat. reflexivity.
Qed.

Lemma Forall2_nth_error_l {A B} (R : A -> B -> Prop) (xs : list A)
  (ys : list B) (k : nat) (x : A) :
  Forall2 R xs ys -> nth_error xs k = Some x ->
  exists y, nth_error ys k = Some y /\ R x y.
Proof.
  intros H. revert k. induction H as [| x0 y0 xs ys Hxy _ IH]; intros k Hk.
  - destruct k; discriminate Hk.
  - destruct k as [| k]; cbn [nth_error] in *.
    + inversion Hk. subst. eauto.
    + apply IH. exact Hk.
Qed.

(** The metadata list is in chunk order: the entry at index [k] is the
    one that [_compress_chunk] returns for the chunk at index [k]. *)
Lemma compress_body_entries (zlib_compress : bytes -> Z -> bytes)
  (b64encode : bytes -> bytes) (self : GenomeCompressor)
  (genome_data : pystr) (l : compress_locals) :
  compress_body zlib_compress b64encode self genome_data = Ok l ->
  forall k chunk, nth_error (chunks l) k = Some chunk ->
    exists compressed meta,
      _compress_chunk zlib_compress self chunk = Ok (compressed, meta) /\
      nth_error (compressed_chunks l) k = Some compressed /\
      nth_error (metadata_list l) k = Some meta.
Proof.
  intros H k chunk Hk. unfold compress_body in H.
  apply bind_Ok in H. destruct H as (starts & _ & H).
  apply bind_Ok in H. destruct H as (results & Hres & H).
  inversion H as [Hl]. clear H. subst l.
  cbn [chunks compressed_chunks metadata_list] in *.
  apply mapM_Ok_Forall2 in Hres.
  destruct (Forall2_nth_error_l _ Hres Hk) as ([compressed meta] & Hr & Hc).
  exists compressed, meta. split; [exact Hc |].
  rewrite !nth_error_map, Hr. split; reflexivity.
Qed.

(** C8 (the code departs from the claim).  On a valid [N]-symbol input
    with chunk size [C > 0], [compress] does split the input into
    ceil(N/C) contiguous chunks of at most [C] symbols, only the last
    possibly shorter, and does build one metadata entry per chunk, the
    entry at index [k] being the one of the chunk at index [k], with
    [original_length] fields that add up to [N]; but these are locals of
    lines 130-150.  The call then raises [TypeError] while it builds the
    statistics record, so no metadata list is returned to the caller. *)
Theorem compress_chunk_list_not_returned
  (zlib_compress : bytes -> Z -> bytes) (b64encode : bytes -> bytes)
  (self : GenomeCompressor) (genome_data : pystr) :
  _validate_sequence genome_data = true -> 0 < chunk_size self ->
  let N := len genome_data in
  let C := chunk_size self in
  (exists l,
     compress_body zlib_compress b64encode self genome_data = Ok l /\
     len (chunks l) = chunk_count N C /\
     (chunk_count N C - 1) * C < N <= chunk_count N C * C /\
     List.concat (chunks l) = genome_data /\
     (forall k chunk, nth_error (chunks l) k = Some chunk ->
        chunk = py_slice genome_data (Z.of_nat k * C) (Z.of_nat k * C + C) /\
        0 < len chunk <= C /\
        (Z.of_nat k + 1 < len (chunks l) -> len chunk = C) /\
        exists compressed meta,
          _compress_chunk zlib_compress self chunk = Ok (compressed, meta) /\
          nth_error (metadata_list l) k = Some meta /\
          original_length meta = len chunk) /\
     len (metadata_list l) = len (chunks l) /\
     fold_left Z.add (map original_length (metadata_list l)) 0 = N) /\
  compress zlib_compress b64encode self genome_data = (Raise TypeError, self) /\
  (forall returned,
     fst (compress zlib_compress b64encode self genome_data) <> Ok returned).
Proof.
  intros Hv HC N C.
  pose proof (compress_raises_TypeError zlib_compress b64encode self _ Hv HC)
    as Hraise.
  split; [| split; [exact Hraise | rewrite Hraise; discriminate]].
  destruct (@compress_body_chunking zlib_compress b64encode self genome_data
              Hv HC)
    as (l & Hl & Hcount & Hceil & Hcat & Hk & Hlen & Hmap & Hsum).
  exists l. split; [exact Hl |]. split; [exact Hcount |].
  split; [exact Hceil |]. split; [exact Hcat |].
  split; [| split; [exact Hlen | exact Hsum]].
  intros k chunk Hc.
  destruct (Hk k chunk Hc) as (H1 & H2 & H3).
  split; [exact H1 |]. split; [exact H2 |]. split; [exact H3 |].
  destruct (compress_body_entries _ _ _ _ Hl k Hc)
    as (compressed & meta & Hcc & _ & Hm).
  exists compressed, meta. split; [exact Hcc |]. split; [exact Hm |].
  assert (E : nth_error (map original_length (metadata_list l)) k
              = nth_error (map len (chunks l)) k) by (rewrite Hmap; reflexivity).
  rewrite !nth_error_map, Hm in E. cbn [option_map] in E.
  assert (E' : option_map (@len ascii) (nth_error (chunks l) k)
               = Some (len chunk)) by (rewrite Hc; reflexivity).
  pose proof (eq_trans E E') as E''. inversion E''. reflexivity.
Qed.

Lemma compress_chunk_list_not_returned_witness :
  let s := str_repeat (lit "ACGT") 250 in
  (exists l,
     compress_body stored_compress std_b64encode (__init__ 300) s = Ok l /\
     len (chunks l) = 4 /\
     map original_length (metadata_list l) = [300; 300; 300; 100]) /\
  compress stored_compress std_b64encode (__init__ 300) s
  = (Raise TypeError, __init__ 300).
Proof.
  intros s.
  destruct (@compress_chunk_list_not_returned stored_compress std_b64encode
              (__init__ 300) s)
    as ((l & Hl & Hn & _ & _ & Hk & Hlm & _) & Hraise & _).
  - vm_compute. reflexivity.
  - reflexivity.
  - split; [| exact Hraise].
    assert (E : chunk_count (len s) (chunk_size (__init__ 300)) = 4)
      by (vm_compute; reflexivity).
    rewrite E in Hn. rewrite Hn in Hlm.
    exists l. split; [exact Hl |]. split; [exact Hn |].
    assert (Hlen : length (chunks l) = 4%nat) by (unfold len in Hn; lia).
    assert (Hlen' : length (metadata_list l) = 4%nat)
      by (unfold len in Hlm; lia).
    destruct (chunks l) as [| c0 [| c1 [| c2 [| c3 [| c4 cs]]]]];
      try discriminate Hlen.
    destruct (metadata_list l) as [| m0 [| m1 [| m2 [| m3 [| m4 ms]]]]];
      try discriminate Hlen'.
    destruct (Hk 0%nat c0 eq_refl) as (_ & _ & H0 & (x0 & n0 & _ & E0 & L0)).
    destruct (Hk 1%nat c1 eq_refl) as (_ & _ & H1 & (x1 & n1 & _ & E1 & L1)).
    destruct (Hk 2%nat c2 eq_refl) as (_ & _ & H2 & (x2 & n2 & _ & E2 & L2)).
    destruct (Hk 3%nat c3 eq_refl) as (H3 & _ & _ & (x3 & n3 & _ & E3 & L3)).
    cbn [nth_error] in E0, E1, E2, E3.
    inversion E0. inversion E1. inversion E2. inversion E3. subst m0 m1 m2 m3.
    cbn [map]. rewrite L0, L1, L2, L3.
    rewrite H0, H1, H2 by (vm_compute; reflexivity).
    rewrite H3. vm_compute. reflexivity.
Defined.

(** ** [decompress]: the cursor, the checksums and the warnings *)

Lemma cursor_0 (pos : Z) (metas : list ChunkMetadata) : cursor pos metas 0 = pos.
Proof. reflexivity. Qed.

Lemma cursor_S (pos : Z) (m : ChunkMetadata) (metas : list ChunkMetadata)
  (k : nat) :
  cursor pos (m :: metas) (S k) = cursor (pos + original_length m) metas k.
Proof. reflexivity. Qed.

Section DecompressFacts.

Variable zlib_decompress : bytes -> result bytes.
Variable b64decode : bytes -> result bytes.

(** One iteration of the loop, by cases. *)
Lemma decompress_loop_cons (self : GenomeCompressor) (decoded : bytes)
  (m : ChunkMetadata) (rest : list ChunkMetadata) (pos : Z)
  (acc : list bytes) (log : list log_entry) :
  decompress_loop zlib_decompress self decoded (m :: rest) pos acc log =
  match zlib_decompress (py_slice decoded pos (pos + original_length m)) with
  | Raise e => (Raise e, log)
  | Ok d =>
      if negb (crc32 d =? checksum m) then (Raise (ChecksumMismatch pos), log)
      else
        decompress_loop zlib_decompress self decoded rest (pos + original_length m) (acc ++ [d])
          (if negb (len (quality_scores m) =? 0)
              && existsb (fun score => score <? quality_threshold self)
                         (quality_scores m)
           then log ++ [LowQualityWarning pos] else log)
  end.
Proof. reflexivity. Qed.

(** When the loop completes, every entry was inflated and its CRC-32
    equalled the stored checksum. *)
Lemma decompress_loop_Ok (self : GenomeCompressor) (decoded : bytes)
  (metas : list ChunkMetadata) :
  forall pos acc log out log',
    decompress_loop zlib_decompress self decoded metas pos acc log = (Ok out, log') ->
    exists ds,
      out = acc ++ ds /\ length ds = length metas /\
      forall k m, nth_error metas k = Some m ->
        exists d,
          nth_error ds k = Some d /\
          zlib_decompress
            (py_slice decoded (cursor pos metas k)
               (cursor pos metas k + original_length m)) = Ok d /\
          crc32 d = checksum m.
Proof.
  induction metas as [| m rest IH]; intros pos acc log out log' H.
  - simpl in H. inversion H. exists []. rewrite app_nil_r.
    repeat split. intros [| k] m Hk; discriminate.
  - rewrite decompress_loop_cons in H.
    destruct (zlib_decompress _) as [d | e] eqn:Hd; [| discriminate].
    destruct (Z.eqb_spec (crc32 d) (checksum m)) as [Hc |]; [| discriminate].
    simpl negb in H. cbv iota in H.
    apply IH in H. destruct H as (ds & Hout & Hlen & Hall).
    exists (d :: ds). split; [rewrite Hout, <- app_assoc; reflexivity |].
    split; [simpl; congruence |].
    intros [| k] m' Hk.
    + inversion Hk; subst m'. exists d. rewrite cursor_0. auto.
    + simpl in Hk. rewrite cursor_S. apply Hall. exact Hk.
Qed.

(** When some entry inflates to bytes whose CRC-32 differs from the stored
    checksum, and the entries before it inflate, the loop stops with
    [ChecksumMismatch] at the first such entry. *)
Lemma decompress_loop_mismatch (self : GenomeCompressor) (decoded : bytes)
  (metas : list ChunkMetadata) :
  forall k pos acc log m d,
    nth_error metas k = Some m ->
    (forall j mj, (j < k)%nat -> nth_error metas j = Some mj ->
       exists dj,
         zlib_decompress
           (py_slice decoded (cursor pos metas j)
              (cursor pos metas j + original_length mj)) = Ok dj) ->
    zlib_decompress
      (py_slice decoded (cursor pos metas k)
         (cursor pos metas k + original_length m)) = Ok d ->
    crc32 d <> checksum m ->
    exists j,
      (j <= k)%nat /\
      fst (decompress_loop zlib_decompress self decoded metas pos acc log)
      = Raise (ChecksumMismatch (cursor pos metas j)).
Proof.
  induction metas as [| m0 rest IH]; intros k pos acc log m d Hk Hbefore Hd Hc.
  - destruct k; discriminate.
  - rewrite decompress_loop_cons. destruct k as [| k].
    + inversion Hk; subst m0. rewrite cursor_0 in Hd. rewrite Hd.
      destruct (Z.eqb_spec (crc32 d) (checksum m)); [contradiction |].
      exists 0%nat. split; [lia | reflexivity].
    + destruct (Hbefore 0%nat m0 ltac:(lia) eq_refl) as (d0 & Hd0).
      rewrite cursor_0 in Hd0. rewrite Hd0.
      destruct (Z.eqb_spec (crc32 d0) (checksum m0)) as [E | NE].
      * simpl negb. cbv iota.
        destruct (IH k (pos + original_length m0) (acc ++ [d0])
                    (if negb (len (quality_scores m0) =? 0)
                        && existsb (fun score => score <? quality_threshold self)
                                   (quality_scores m0)
                     then log ++ [LowQualityWarning pos] else log) m d)
          as (j & Hj & Hres).
        -- exact Hk.
        -- intros j mj Hj Hmj. rewrite <- cursor_S.
           apply (Hbefore (S j) mj); [lia | exact Hmj].
        -- rewrite <- cursor_S. exact Hd.
        -- exact Hc.
        -- exists (S j). split; [lia |]. rewrite cursor_S. exact Hres.
      * exists 0%nat. split; [lia | reflexivity].
Qed.

(** The warning is logged only for an entry with a score below the
    threshold. *)
Lemma decompress_loop_quiet (self : GenomeCompressor) (decoded : bytes)
  (metas : list ChunkMetadata) :
  Forall (fun m => Forall (fun q => quality_threshold self <= q)
                          (quality_scores m)) metas ->
  forall pos acc log, snd (decompress_loop zlib_decompress self decoded metas pos acc log) = log.
Proof.
  induction 1 as [| m rest Hm _ IH]; intros pos acc log; [reflexivity |].
  rewrite decompress_loop_cons.
  destruct (zlib_decompress _) as [d | e]; [| reflexivity].
  destruct (negb (crc32 d =? checksum m)); [reflexivity |].
  assert (E : existsb (fun score => score <? quality_threshold self)
                      (quality_scores m) = false).
  { destruct (existsb _ _) eqn:Hex; [| reflexivity].
    apply existsb_exists in Hex. destruct Hex as (q & Hin & Hq).
    rewrite Forall_forall in Hm. specialize (Hm q Hin).
    apply Z.ltb_lt in Hq. lia. }
  rewrite E, andb_false_r. apply IH.
Qed.

Lemma decompress_log (self : GenomeCompressor) (blob : bytes)
  (metas : list ChunkMetadata) :
  Forall (fun m => Forall (fun q => quality_threshold self <= q)
                          (quality_scores m)) metas ->
  snd (decompress zlib_decompress b64decode self blob metas) = [].
Proof.
  intros H. unfold decompress.
  destruct (b64decode blob) as [decoded | e]; [| reflexivity].
  pose proof (@decompress_loop_quiet self decoded metas H 0 [] []) as Hq.
  destruct (decompress_loop zlib_decompress self decoded metas 0 [] []) as [[out | e] log]; exact Hq.
Qed.

Lemma decompress_Ok_inv (self : GenomeCompressor) (blob : bytes)
  (metas : list ChunkMetadata) (text : list Z) :
  fst (decompress zlib_decompress b64decode self blob metas) = Ok text ->
  exists decoded ds strs,
    b64decode blob = Ok decoded /\
    length ds = length metas /\
    (forall k m, nth_error metas k = Some m ->
       exists d, nth_error ds k = Some d /\
                 zlib_decompress (chunk_data decoded metas k m) = Ok d /\
                 crc32 d = checksum m) /\
    mapM bytes_decode ds = Ok strs /\ text = List.concat strs.
Proof.
  unfold decompress. intros H.
  destruct (b64decode blob) as [decoded | e]; [| discriminate].
  destruct (decompress_loop zlib_decompress self decoded metas 0 [] []) as [[out | e] log] eqn:Hloop;
    [| discriminate].
  simpl in H. apply bind_Ok in H. destruct H as (strs & Hstrs & Ht).
  inversion Ht; subst text.
  apply decompress_loop_Ok in Hloop. destruct Hloop as (ds & Hout & Hlen & Hall).
  simpl in Hout. subst out.
  exists decoded, ds, strs. repeat split; assumption.
Qed.

End DecompressFacts.

(** C4.  Once the blob is decoded, [decompress] walks the metadata in
    order, inflates the slice of each entry, recomputes the CRC-32 of the
    inflated bytes and compares it with the stored checksum.  It returns a
    text only if every entry's checksum matched; and when an entry (whose
    predecessors inflate) does not match, the call fails with
    [ChecksumMismatch] at the first mismatching entry and no text is
    returned. *)
Theorem decompress_checksum_guard
  (zlib_decompress b64decode : bytes -> result bytes)
  (self : GenomeCompressor) (blob decoded : bytes)
  (metas : list ChunkMetadata) :
  b64decode blob = Ok decoded ->
  (forall text,
     fst (decompress zlib_decompress b64decode self blob metas) = Ok text ->
     forall k m, nth_error metas k = Some m ->
       exists d, zlib_decompress (chunk_data decoded metas k m) = Ok d /\
                 crc32 d = checksum m) /\
  (forall k m d,
     nth_error metas k = Some m ->
     (forall j mj, (j < k)%nat -> nth_error metas j = Some mj ->
        exists dj, zlib_decompress (chunk_data decoded metas j mj) = Ok dj) ->
     zlib_decompress (chunk_data decoded metas k m) = Ok d ->
     crc32 d <> checksum m ->
     (exists j, (j <= k)%nat /\
        fst (decompress zlib_decompress b64decode self blob metas)
        = Raise (ChecksumMismatch (cursor 0 metas j))) /\
     forall text,
       fst (decompress zlib_decompress b64decode self blob metas) <> Ok text).
Proof.
  intros Hb. split.
  - intros text H k m Hk.
    apply decompress_Ok_inv in H.
    destruct H as (decoded' & ds & strs & Hb' & _ & Hall & _).
    rewrite Hb in Hb'. inversion Hb'; subst decoded'.
    destruct (Hall k m Hk) as (d & _ & Hd & Hc). eauto.
  - intros k m d Hk Hbefore Hd Hc.
    assert (Hraise : exists j, (j <= k)%nat /\
              fst (decompress zlib_decompress b64decode self blob metas)
              = Raise (ChecksumMismatch (cursor 0 metas j))).
    { destruct (@decompress_loop_mismatch zlib_decompress self decoded metas
                  k 0 [] [] m d Hk Hbefore Hd Hc) as (j & Hj & Hres).
      exists j. split; [exact Hj |].
      unfold decompress. rewrite Hb.
      destruct (decompress_loop zlib_decompress self decoded metas 0 [] [])
        as [[out | e] log]; simpl in Hres; [discriminate |].
      inversion Hres. reflexivity. }
    split; [exact Hraise |].
    destruct Hraise as (j & _ & Hres). intros text. rewrite Hres. discriminate.
Qed.

Lemma decompress_checksum_guard_witness :
  fst (decompress stored_decompress strict_b64decode (__init__ 100) sample_blob
         [sample_meta (crc32 sample_data)])
  = Ok (codepoints (lit "ACGT")) /\
  (exists d, stored_decompress
               (chunk_data (stored_compress sample_data 9)
                  [sample_meta (crc32 sample_data)] 0
                  (sample_meta (crc32 sample_data))) = Ok d /\
             crc32 d = crc32 sample_data) /\
  fst (decompress stored_decompress strict_b64decode (__init__ 100) sample_blob
         [sample_meta 0])
  = Raise (ChecksumMismatch 0).
Proof.
  assert (Hb : strict_b64decode sample_blob = Ok (stored_compress sample_data 9))
    by (vm_compute; reflexivity).
  assert (Hok : fst (decompress stored_decompress strict_b64decode (__init__ 100)
                       sample_blob [sample_meta (crc32 sample_data)])
                = Ok (codepoints (lit "ACGT")))
    by (vm_compute; reflexivity).
  split; [exact Hok |]. split.
  - destruct (@decompress_checksum_guard stored_decompress strict_b64decode
                (__init__ 100) sample_blob _ [sample_meta (crc32 sample_data)] Hb)
      as (Hgood & _).
    exact (Hgood _ Hok 0%nat _ eq_refl).
  - destruct (@decompress_checksum_guard stored_decompress strict_b64decode
                (__init__ 100) sample_blob _ [sample_meta 0] Hb)
      as (_ & Hbad).
    destruct (Hbad 0%nat (sample_meta 0) sample_data eq_refl) as ((j & Hj & Hres) & _).
    + intros j mj Hj. lia.
    + vm_compute. reflexivity.
    + vm_compute. discriminate.
    + assert (j = 0%nat) by lia. subst j. exact Hres.
Defined.

Lemma compress_chunk_quality_scores
  (zlib_compress : bytes -> Z -> bytes) (self : GenomeCompressor)
  (chunk : pystr) (compressed : bytes) (meta : ChunkMetadata) :
  _compress_chunk zlib_compress self chunk = Ok (compressed, meta) ->
  quality_scores meta = _calculate_quality_scores chunk.
Proof.
  unfold _compress_chunk. intros H.
  apply bind_Ok in H. destruct H as (buffer & _ & H).
  apply bind_Ok in H. destruct H as (rate & _ & H).
  inversion H. reflexivity.
Qed.

(** C10.  Every score of the quality estimator lies in [30, 38] (the cap
    of 40 is never reached), so for metadata produced by
    [_compress_chunk] the low-quality branch of [decompress] (a score
    below the threshold 30) is never taken: no warning is logged. *)
Theorem low_quality_warning_unreachable
  (zlib_compress : bytes -> Z -> bytes)
  (zlib_decompress b64decode : bytes -> result bytes)
  (self producer : GenomeCompressor) (blob : bytes)
  (metas : list ChunkMetadata) :
  quality_threshold self = 30 ->
  Forall (fun m => exists chunk compressed,
            _compress_chunk zlib_compress producer chunk = Ok (compressed, m))
         metas ->
  (forall sequence,
     Forall (fun q => 30 <= q <= 38) (_calculate_quality_scores sequence)) /\
  Forall (fun m => existsb (fun score => score <? quality_threshold self)
                           (quality_scores m) = false) metas /\
  snd (decompress zlib_decompress b64decode self blob metas) = [].
Proof.
  intros Hthr Hmetas.
  assert (Hq : Forall (fun m => Forall (fun q => quality_threshold self <= q)
                                       (quality_scores m)) metas).
  { eapply Forall_impl; [| exact Hmetas].
    intros m (chunk & compressed & Hm). simpl.
    rewrite (compress_chunk_quality_scores _ _ _ Hm), Hthr.
    eapply Forall_impl; [| apply quality_scores_Forall].
    intros q Hq. simpl in Hq. lia. }
  split; [exact quality_scores_Forall |]. split.
  - eapply Forall_impl; [| exact Hq]. intros m Hm. simpl in Hm.
    destruct (existsb _ _) eqn:Hex; [| reflexivity].
    apply existsb_exists in Hex. destruct Hex as (q & Hin & Hlt).
    rewrite Forall_forall in Hm. specialize (Hm q Hin).
    apply Z.ltb_lt in Hlt. lia.
  - apply decompress_log. exact Hq.
Qed.

Lemma low_quality_warning_unreachable_witness :
  exists compressed m,
    _compress_chunk stored_compress (__init__ 100) (str_repeat (lit "ACGT") 25)
    = Ok (compressed, m) /\
    snd (decompress stored_decompress strict_b64decode (__init__ 100)
           (std_b64encode compressed) [m]) = [].
Proof.
  destruct (@compress_chunk_Ok stored_compress (__init__ 100)
              (str_repeat (lit "ACGT") 25) ltac:(discriminate))
    as (compressed & m & _ & H & _).
  exists compressed, m. split; [exact H |].
  destruct (@low_quality_warning_unreachable stored_compress stored_decompress
              strict_b64decode (__init__ 100) (__init__ 100)
              (std_b64encode compressed) [m] eq_refl)
    as (_ & _ & Hlog); [| exact Hlog].
  constructor; [| constructor]. eauto.
Defined.

(** ** Decoding text that is plain ASCII *)

Ltac bool_to_Z :=
  unfold is_cont in *;
  repeat match goal with
    | H : _ && _ = true |- _ => apply andb_true_iff in H; destruct H
    | H : _ && _ = false |- _ => apply andb_false_iff in H
    | H : negb _ = true |- _ => apply negb_true_iff in H
    | H : negb _ = false |- _ => apply negb_false_iff in H
    | H : (_ <=? _) = true |- _ => apply Z.leb_le in H
    | H : (_ <=? _) = false |- _ => apply Z.leb_gt in H
    | H : (_ <? _) = true |- _ => apply Z.ltb_lt in H
    | H : (_ <? _) = false |- _ => apply Z.ltb_ge in H
    | H : (_ =? _) = true |- _ => apply Z.eqb_eq in H
    | H : (_ =? _) = false |- _ => apply Z.eqb_neq in H
    end.

(** A byte string that decodes to code points below 128 is that list of
    code points: only the one-byte form yields them. *)
Lemma utf8_decode_ascii (fuel : nat) :
  forall bs cps,
    utf8_decode fuel bs = Ok cps -> Forall (fun c => c < 128) cps -> bs = cps.
Proof.
  induction fuel as [| k IH]; intros bs cps H Hall.
  - destruct bs; [inversion H; reflexivity | discriminate].
  - destruct bs as [| b0 r0]; [inversion H; reflexivity |].
    cbn [utf8_decode] in H.
    destruct (b0 <? 128) eqn:E0.
    + apply bind_Ok in H. destruct H as (cs & Hcs & H). inversion H; subst.
      inversion Hall; subst. f_equal. apply IH; assumption.
    + exfalso.
      repeat match type of H with
        | Raise _ = Ok _ => discriminate H
        | (if ?c then _ else _) = _ => destruct c eqn:?
        | match ?l with [] => _ | _ :: _ => _ end = _ => destruct l
        end;
        apply bind_Ok in H; destruct H as (cs & _ & H); inversion H; subst;
        inversion Hall; subst; bool_to_Z; intuition lia.
Qed.

Lemma bytes_decode_ascii (b : bytes) (cps : list Z) :
  bytes_decode b = Ok cps -> Forall (fun c => c < 128) cps ->
  map Z_of_byte b = cps.
Proof. unfold bytes_decode. apply utf8_decode_ascii. Qed.

Lemma byte_of_Z_of_byte (b : byte) : byte_of_Z (Z_of_byte b) = b.
Proof. destruct b; reflexivity. Qed.

Lemma crc32_values (b : bytes) : crc32 b = crc32_of_values (map Z_of_byte b).
Proof.
  unfold crc32, crc32_of_values. f_equal.
  generalize 0xFFFFFFFF. induction b as [| x b IH]; intros crc; simpl.
  - reflexivity.
  - rewrite byte_of_Z_of_byte. apply IH.
Qed.

(** C1 (the code departs from the claim).  For the valid single-chunk
    sequence of 100 "A", [compress] raises [TypeError] and returns
    nothing to decode.  Moreover, whatever zlib and base64 compute,
    [decompress] applied to the blob and the metadata that [compress] had
    built by line 150 cannot return the sequence: it joins the decoded
    text of the packed buffers and never unpacks the 2-bit codes. *)
Theorem roundtrip_fails_on_single_chunk :
  let s := str_repeat (lit "A") 100 in
  let self := __init__ default_chunk_size in
  _validate_sequence s = true /\
  len s <= chunk_size self /\
  (forall zlib_compress b64encode,
     fst (compress zlib_compress b64encode self s) = Raise TypeError) /\
  (forall zlib_compress b64encode zlib_decompress b64decode l,
     compress_body zlib_compress b64encode self s = Ok l ->
     fst (decompress zlib_decompress b64decode self (encoded l) (metadata_list l))
     <> Ok (codepoints s)).
Proof.
  intros s self.
  assert (Hv : _validate_sequence s = true) by (vm_compute; reflexivity).
  assert (HC : 0 < chunk_size self) by reflexivity.
  split; [exact Hv |]. split; [vm_compute; discriminate |]. split.
  - intros zc be. rewrite (compress_raises_TypeError zc be self _ Hv HC).
    reflexivity.
  - intros zc be zd bd l Hl Hdec.
    destruct (validate_sequence_nonempty _ Hv) as (Hne & _).
    destruct (compress_body_Ok zc be self Hne HC) as (l' & Hl' & Hch & Hall).
    rewrite Hl in Hl'. inversion Hl'; subst l'. clear Hl'.
    assert (E : map (fun k => firstn (Z.to_nat (chunk_size self))
                                (skipn (k * Z.to_nat (chunk_size self)) s))
                    (seq 0 (Z.to_nat (chunk_count (len s) (chunk_size self))))
                = [s]) by (vm_compute; reflexivity).
    rewrite E in Hch. rewrite Hch in Hall.
    inversion Hall as [| c m cs ms (_ & _ & _ & buffer & Hb & Hck) Hrest Hc Hm].
    inversion Hrest. subst.
    apply decompress_Ok_inv in Hdec.
    destruct Hdec as (decoded & ds & strs & _ & Hlen & Hk & Hstrs & Htext).
    rewrite <- Hm in Hlen, Hk.
    destruct (Hk 0%nat m eq_refl) as (d & Hd & _ & Hcrc).
    destruct ds as [| d0 [| d1 ds]]; try discriminate Hlen.
    inversion Hd; subst d0.
    simpl in Hstrs. apply bind_Ok in Hstrs.
    destruct Hstrs as (cps & Hcps & Hstrs). inversion Hstrs; subst strs.
    simpl in Htext. rewrite app_nil_r in Htext. subst cps.
    apply bytes_decode_ascii in Hcps.
    + assert (Henc : exists B, _encode_sequence s = Ok B /\
                               crc32 B <> crc32_of_values (codepoints s)).
      { eexists. split; [vm_compute; reflexivity | vm_compute; discriminate]. }
      destruct Henc as (B & HB & Hneq).
      rewrite HB in Hb. inversion Hb; subst buffer.
      apply Hneq. rewrite <- Hck, <- Hcrc, crc32_values, Hcps. reflexivity.
    + assert (F : forallb (fun c => c <? 128) (codepoints s) = true)
        by (vm_compute; reflexivity).
      rewrite forallb_forall in F. apply Forall_forall. intros c Hin.
      apply Z.ltb_lt, F, Hin.
Qed.

(** ** The pattern dictionary *)

Lemma str_eqb_eq (a b : pystr) : str_eqb a b = true <-> a = b.
Proof.
  revert b. induction a as [| x a IH]; intros [| y b]; simpl;
    try (split; [discriminate | discriminate]); [tauto |].
  rewrite andb_true_iff, Ascii.eqb_eq, IH.
  split; [intros [-> ->]; reflexivity | intros H; inversion H; auto].
Qed.

Lemma str_eqb_refl (a : pystr) : str_eqb a a = true.
Proof. apply str_eqb_eq. reflexivity. Qed.

Lemma str_eqb_neq (a b : pystr) : str_eqb a b = false <-> a <> b.
Proof.
  rewrite <- str_eqb_eq. destruct (str_eqb a b); split; congruence.
Qed.

Lemma merge_nil (o : option (list Z)) : merge o [] = o.
Proof. destruct o; simpl; [rewrite app_nil_r |]; reflexivity. Qed.

Lemma merge_app (o : option (list Z)) (a b : list Z) :
  merge (merge o a) b = merge o (a ++ b).
Proof.
  destruct o as [v |]; simpl.
  - rewrite app_assoc. reflexivity.
  - destruct a; simpl; reflexivity.
Qed.

Lemma dict_get_append (d : pydict) (k' k : pystr) (i : Z) :
  dict_get (dict_append d k' i) k
  = if str_eqb k' k then merge (dict_get d k) [i] else dict_get d k.
Proof.
  induction d as [| [k0 v] d IH]; simpl.
  - destruct (str_eqb k' k); reflexivity.
  - destruct (str_eqb k0 k') eqn:E0; simpl.
    + apply str_eqb_eq in E0. subst k0.
      destruct (str_eqb k' k); reflexivity.
    + rewrite IH. destruct (str_eqb k0 k) eqn:E1; [| reflexivity].
      apply str_eqb_eq in E1. subst k0.
      assert (E2 : str_eqb k' k = false).
      { apply str_eqb_neq. apply str_eqb_neq in E0. congruence. }
      rewrite E2. reflexivity.
Qed.

Lemma dict_append_keys (d : pydict) (k : pystr) (i : Z) (x : pystr) :
  In x (map fst (dict_append d k i)) -> x = k \/ In x (map fst d).
Proof.
  induction d as [| [k0 v] d IH]; simpl.
  - intros [H | []]. auto.
  - destruct (str_eqb k0 k); simpl; intros [H | H]; auto.
    destruct (IH H); auto.
Qed.

Lemma dict_append_NoDup (d : pydict) (k : pystr) (i : Z) :
  NoDup (map fst d) -> NoDup (map fst (dict_append d k i)).
Proof.
  induction d as [| [k0 v] d IH]; simpl; intros H.
  - constructor; [intros [] | constructor].
  - inversion H as [| ? ? Hnotin Hnd]; subst.
    destruct (str_eqb k0 k) eqn:E; simpl; constructor; auto.
    intros Hin. apply dict_append_keys in Hin. destruct Hin as [-> | Hin].
    + rewrite str_eqb_refl in E. discriminate.
    + contradiction.
Qed.

Lemma dict_get_None (d : pydict) (k : pystr) :
  ~ In k (map fst d) -> dict_get d k = None.
Proof.
  induction d as [| [k0 v] d IH]; simpl; intros H; [reflexivity |].
  destruct (str_eqb k0 k) eqn:E.
  - apply str_eqb_eq in E. subst. exfalso. auto.
  - apply IH. auto.
Qed.

Lemma dict_get_filter (P : list Z -> bool) (d : pydict) (k : pystr) :
  NoDup (map fst d) ->
  dict_get (filter (fun kv => P (snd kv)) d) k
  = match dict_get d k with
    | Some v => if P v then Some v else None
    | None => None
    end.
Proof.
  induction d as [| [k0 v] d IH]; simpl; intros H; [reflexivity |].
  inversion H as [| ? ? Hnotin Hnd]; subst.
  destruct (P v) eqn:EP; simpl.
  - destruct (str_eqb k0 k); [rewrite EP; reflexivity | apply IH, Hnd].
  - rewrite (IH Hnd). destruct (str_eqb k0 k) eqn:E; [| reflexivity].
    apply str_eqb_eq in E. subst k0.
    rewrite (dict_get_None _ _ Hnotin), EP. reflexivity.
Qed.

Lemma scan_fold_get (sequence : pystr) (length : Z) (k : pystr)
  (idxs : list Z) :
  forall d,
    dict_get
      (fold_left
         (fun pats i =>
            let pattern := py_slice sequence i (i + length) in
            if 1 <? str_count sequence pattern then dict_append pats pattern i
            else pats) idxs d) k
    = merge (dict_get d k)
        (filter (fun i =>
                   (1 <? str_count sequence (py_slice sequence i (i + length)))
                   && str_eqb (py_slice sequence i (i + length)) k) idxs).
Proof.
  induction idxs as [| i idxs IH]; intros d; simpl.
  - rewrite merge_nil. reflexivity.
  - rewrite IH.
    destruct (1 <? str_count sequence (py_slice sequence i (i + length))); simpl.
    + rewrite dict_get_append.
      destruct (str_eqb (py_slice sequence i (i + length)) k).
      * rewrite merge_app. reflexivity.
      * reflexivity.
    + reflexivity.
Qed.

Lemma scan_fold_NoDup (sequence : pystr) (length : Z) (idxs : list Z) :
  forall d,
    NoDup (map fst d) ->
    NoDup (map fst
      (fold_left
         (fun pats i =>
            let pattern := py_slice sequence i (i + length) in
            if 1 <? str_count sequence pattern then dict_append pats pattern i
            else pats) idxs d)).
Proof.
  induction idxs as [| i idxs IH]; intros d H; simpl; [exact H |].
  apply IH. destruct (1 <? _); [apply dict_append_NoDup |]; exact H.
Qed.

Lemma scan_lengths_get (sequence : pystr) (k : pystr) (lengths : list Z) :
  forall d,
    dict_get (fold_left (scan_length sequence) lengths d) k
    = merge (dict_get d k)
        (flat_map (fun length => window_positions sequence length k) lengths).
Proof.
  induction lengths as [| L lengths IH]; intros d; simpl.
  - rewrite merge_nil. reflexivity.
  - rewrite IH. unfold scan_length. rewrite scan_fold_get.
    fold (window_positions sequence L k). rewrite merge_app. reflexivity.
Qed.

Lemma scan_lengths_NoDup (sequence : pystr) (lengths : list Z) :
  forall d,
    NoDup (map fst d) ->
    NoDup (map fst (fold_left (scan_length sequence) lengths d)).
Proof.
  induction lengths as [| L lengths IH]; intros d H; simpl; [exact H |].
  apply IH. apply scan_fold_NoDup. exact H.
Qed.

(** The dictionary when the loops are over: under each key, the
    positions recorded for it. *)
Lemma scan_patterns_get (self : GenomeCompressor) (sequence k : pystr) :
  dict_get (scan_patterns self sequence) k
  = match recorded self sequence k with
    | [] => None
    | _ :: _ => Some (recorded self sequence k)
    end.
Proof. unfold scan_patterns. rewrite scan_lengths_get. reflexivity. Qed.

(** The dictionary returned: the keys with more than two positions. *)
Lemma find_patterns_get (self : GenomeCompressor) (sequence k : pystr) :
  dict_get (_find_patterns self sequence) k
  = if 2 <? len (recorded self sequence k)
    then Some (recorded self sequence k) else None.
Proof.
  unfold _find_patterns.
  rewrite (@dict_get_filter (fun v => 2 <? len v)).
  - rewrite scan_patterns_get.
    destruct (recorded self sequence k); reflexivity.
  - unfold scan_patterns. apply scan_lengths_NoDup. constructor.
Qed.

Lemma window_positions_In (sequence : pystr) (length : Z) (k : pystr) (i : Z) :
  In i (window_positions sequence length k) <->
  0 <= i < len sequence - length /\
  k = py_slice sequence i (i + length) /\ 1 < str_count sequence k.
Proof.
  unfold window_positions. rewrite filter_In, py_range_In, andb_true_iff.
  rewrite str_eqb_eq, Z.ltb_lt. split.
  - intros (Hi & Hc & <-). auto.
  - intros (Hi & -> & Hc). auto.
Qed.

Lemma recorded_In (self : GenomeCompressor) (sequence k : pystr) (i : Z) :
  In i (recorded self sequence k) <->
  exists length,
    min_pattern_length self <= length <= max_pattern_length self /\
    0 <= i < len sequence - length /\
    k = py_slice sequence i (i + length) /\ 1 < str_count sequence k.
Proof.
  unfold recorded. rewrite in_flat_map. split.
  - intros (L & HL & Hi). apply py_range2_In in HL.
    apply window_positions_In in Hi. exists L. split; [lia | exact Hi].
  - intros (L & HL & Hi). exists L. split.
    + apply py_range2_In. lia.
    + apply window_positions_In. exact Hi.
Qed.

(** C7, as the code has it.  For every window length L in [8,32] and every
    start index i with i + L < len(sequence), i is recorded under the
    substring of length L at i exactly when [str.count] finds that
    substring more than once (occurrences that do not overlap); the keys
    returned are exactly those with more than 2 recorded positions; so
    every key has a length in [8,32] and at least 3 recorded positions,
    each of them a start index of the key. *)
Theorem find_patterns_spec (chunk_size : Z) (sequence : pystr) :
  let self := __init__ chunk_size in
  (forall L i,
     8 <= L <= 32 -> 0 <= i -> i + L < len sequence ->
     len (py_slice sequence i (i + L)) = L /\
     (1 < str_count sequence (py_slice sequence i (i + L)) <->
      exists v,
        dict_get (scan_patterns self sequence) (py_slice sequence i (i + L))
        = Some v /\ In i v)) /\
  (forall k v,
     dict_get (_find_patterns self sequence) k = Some v <->
     dict_get (scan_patterns self sequence) k = Some v /\ 2 < len v) /\
  (forall k v,
     dict_get (_find_patterns self sequence) k = Some v ->
     8 <= len k <= 32 /\ 3 <= len v /\
     forall i, In i v -> py_slice sequence i (i + len k) = k).
Proof.
  intros self.
  assert (Hscan : forall k v,
             dict_get (scan_patterns self sequence) k = Some v ->
             v = recorded self sequence k).
  { intros k v H. rewrite scan_patterns_get in H.
    destruct (recorded self sequence k); [discriminate | congruence]. }
  assert (Hrec : forall k i,
             In i (recorded self sequence k) ->
             dict_get (scan_patterns self sequence) k
             = Some (recorded self sequence k)).
  { intros k i H. rewrite scan_patterns_get.
    destruct (recorded self sequence k); [destruct H | reflexivity]. }
  assert (Hkey : forall k i,
             In i (recorded self sequence k) ->
             8 <= len k <= 32 /\ py_slice sequence i (i + len k) = k).
  { intros k i H. apply recorded_In in H.
    destruct H as (L & HL & Hi & Hk & _). simpl in HL.
    assert (E : len k = L) by (rewrite Hk; apply py_slice_window; lia).
    rewrite E. split; [lia | congruence]. }
  split; [| split].
  - intros L i HL Hi Hend.
    split; [apply py_slice_window; lia |]. split.
    + intros Hc.
      assert (Hin : In i (recorded self sequence (py_slice sequence i (i + L)))).
      { apply recorded_In. exists L. simpl.
        split; [lia |]. split; [lia |]. split; [reflexivity | exact Hc]. }
      exists (recorded self sequence (py_slice sequence i (i + L))).
      split; [exact (Hrec _ _ Hin) | exact Hin].
    + intros (v & Hv & Hin). apply Hscan in Hv. subst v.
      apply recorded_In in Hin. destruct Hin as (L' & _ & _ & _ & Hc).
      exact Hc.
  - intros k v. rewrite find_patterns_get. split.
    + destruct (Z.ltb_spec 2 (len (recorded self sequence k))) as [Hlt |];
        [| discriminate].
      intros H. inversion H; subst v. split; [| exact Hlt].
      rewrite scan_patterns_get.
      destruct (recorded self sequence k); [| reflexivity].
      change (len []) with 0 in Hlt. lia.
    + intros (Hv & Hlt). apply Hscan in Hv. subst v.
      destruct (Z.ltb_spec 2 (len (recorded self sequence k))); [reflexivity | lia].
  - intros k v H. rewrite find_patterns_get in H.
    destruct (Z.ltb_spec 2 (len (recorded self sequence k))) as [Hlt |];
      [| discriminate].
    inversion H; subst v.
    destruct (recorded self sequence k) as [| i0 r] eqn:E;
      [change (len []) with 0 in Hlt; lia |].
    assert (Hin0 : In i0 (recorded self sequence k)) by (rewrite E; left; reflexivity).
    split; [apply (Hkey k i0 Hin0) |]. split; [lia |].
    intros i Hin. rewrite <- E in Hin. apply (Hkey k i Hin).
Qed.

Lemma find_patterns_spec_witness :
  let s := str_repeat (lit "ACGT") 8 in
  (exists v, dict_get (scan_patterns (__init__ 100) s) (lit "ACGTACGT") = Some v
             /\ In 4 v) /\
  (exists v, dict_get (_find_patterns (__init__ 100) s) (lit "ACGTACGT") = Some v
             /\ 3 <= len v).
Proof.
  intros s.
  destruct (find_patterns_spec 100 s) as (Hwin & Hkeep & Hkeys).
  destruct (Hwin 8 4) as (_ & Hrec & _); try lia.
  { vm_compute. reflexivity. }
  destruct Hrec as (v & Hv & Hin); [vm_compute; reflexivity |].
  change (py_slice s 4 (4 + 8)) with (lit "ACGTACGT") in Hv.
  split; [exists v; split; assumption |].
  assert (Hget : dict_get (_find_patterns (__init__ 100) s) (lit "ACGTACGT")
                 = Some [0; 4; 8; 12; 16; 20]) by (vm_compute; reflexivity).
  exists [0; 4; 8; 12; 16; 20]. split; [exact Hget |].
  apply (Hkeys _ _ Hget).
Defined.

(** C7 as stated fails: in a run of 11 "A" the substring of 8 "A" begins
    at the indices 0, 1, 2 and 3, so it occurs more than once and would be
    kept with those positions; [str.count] finds it once, nothing is
    recorded and the result is empty. *)
Lemma find_patterns_overlap_counterexample :
  let s := str_repeat (lit "A") 11 in
  occurrences s (str_repeat (lit "A") 8) = [0; 1; 2; 3] /\
  str_count s (str_repeat (lit "A") 8) = 1 /\
  _find_patterns (__init__ default_chunk_size) s = [] /\
  ~ find_patterns_as_stated (__init__ default_chunk_size) s.
Proof.
  intros s.
  split; [vm_compute; reflexivity |].
  split; [vm_compute; reflexivity |].
  split; [vm_compute; reflexivity |].
  intros H. specialize (H (str_repeat (lit "A") 8)).
  assert (E : dict_get (_find_patterns (__init__ default_chunk_size) s)
                (str_repeat (lit "A") 8) = None) by (vm_compute; reflexivity).
  assert (F : (if 2 <? len (recorded_as_stated s (str_repeat (lit "A") 8))
               then Some (recorded_as_stated s (str_repeat (lit "A") 8))
               else None) = Some [0; 1; 2; 3]) by (vm_compute; reflexivity).
  rewrite E, F in H.
  assert (Hr : 8 <= len (str_repeat (lit "A") 8) <= 32)
    by (vm_compute; split; discriminate).
  specialize (H Hr). discriminate H.
Qed.

(** The last window of each length is left out of the scan
    ([range(len(sequence) - length)]): in three copies of an 8-letter word
    the word stands at 0, 8 and 16 and is counted three times, but only 0
    and 8 are recorded, so the word is not kept. *)
Example find_patterns_last_window :
  let s := str_repeat (lit "ACGTTGCA") 3 in
  str_count s (lit "ACGTTGCA") = 3 /\
  py_slice s 16 (16 + 8) = lit "ACGTTGCA" /\
  dict_get (scan_patterns (__init__ default_chunk_size) s) (lit "ACGTTGCA")
  = Some [0; 8] /\
  dict_get (_find_patterns (__init__ default_chunk_size) s) (lit "ACGTTGCA") = None.
Proof. repeat split; vm_compute; reflexivity. Qed.

(** ** The periodic sequence ["ACGT" * 1000] *)

Lemma total_positions_cons (k : pystr) (v : list Z) (d : pydict) :
  total_positions ((k, v) :: d) = len v + total_positions d.
Proof.
  unfold total_positions. simpl.
  assert (G : forall l a, fold_left Z.add l a = a + fold_left Z.add l 0).
  { induction l as [| x l IH]; intros a; simpl; [lia |].
    rewrite (IH (a + x)), (IH x). lia. }
  apply G.
Qed.

Lemma total_positions_nonneg (d : pydict) : 0 <= total_positions d.
Proof.
  induction d as [| [k v] d IH]; [unfold total_positions; simpl; lia |].
  rewrite total_positions_cons. pose proof (len_nonneg v). lia.
Qed.

Lemma positions_under_nonneg (d : pydict) (k : pystr) : 0 <= positions_under d k.
Proof.
  unfold positions_under. destruct (dict_get d k); [apply len_nonneg | lia].
Qed.

Lemma sum_positions_cons (k0 : pystr) (v : list Z) (d : pydict)
  (ks : list pystr) :
  NoDup ks ->
  sum_list (map (positions_under ((k0, v) :: d)) ks)
  <= len v + sum_list (map (positions_under d) ks).
Proof.
  induction 1 as [| k ks Hnotin Hnd IH]; simpl.
  - pose proof (len_nonneg v). lia.
  - unfold positions_under at 1. simpl.
    destruct (str_eqb k0 k) eqn:E.
    + apply str_eqb_eq in E. subst k0.
      assert (Hsame : map (positions_under ((k, v) :: d)) ks
                      = map (positions_under d) ks).
      { apply map_ext_in. intros x Hx. unfold positions_under. simpl.
        destruct (str_eqb k x) eqn:Ex; [| reflexivity].
        apply str_eqb_eq in Ex. subst x. contradiction. }
      rewrite Hsame. pose proof (positions_under_nonneg d k). lia.
    + fold (positions_under d k). lia.
Qed.

(** The total of a dictionary is at least the positions held under any
    distinct keys. *)
Lemma total_positions_lower_bound (d : pydict) (ks : list pystr) :
  NoDup ks -> sum_list (map (positions_under d) ks) <= total_positions d.
Proof.
  intros Hnd. induction d as [| [k0 v] d IH].
  - assert (E : sum_list (map (positions_under []) ks) = 0).
    { clear Hnd. induction ks as [| k ks IHk]; simpl; [reflexivity |].
      rewrite IHk. reflexivity. }
    rewrite E. apply total_positions_nonneg.
  - rewrite total_positions_cons.
    pose proof (sum_positions_cons k0 v d Hnd). lia.
Qed.

Lemma filter_length_prefix (f : Z -> bool) (m n : Z) :
  0 <= m <= n ->
  len (filter f (py_range m)) <= len (filter f (py_range n)).
Proof.
  intros H. unfold py_range. rewrite (@py_range2_split 0 m n) by lia.
  rewrite filter_app, len_app.
  pose proof (len_nonneg (filter f (py_range2 m n))). lia.
Qed.

(** Under a key that [str.count] finds more than once, the scan of one
    window length records every start index at which the key stands. *)
Lemma window_positions_counted (sequence : pystr) (length : Z) (k : pystr) :
  1 < str_count sequence k ->
  window_positions sequence length k
  = filter (fun i => str_eqb (py_slice sequence i (i + length)) k)
           (py_range (len sequence - length)).
Proof.
  intros Hc. unfold window_positions. apply filter_ext. intros i.
  destruct (str_eqb (py_slice sequence i (i + length)) k) eqn:E.
  - apply str_eqb_eq in E. rewrite E.
    apply Z.ltb_lt in Hc. rewrite Hc. reflexivity.
  - apply andb_false_r.
Qed.

Lemma recorded_first_length (chunk_size : Z) (sequence k : pystr) :
  len (window_positions sequence 8 k)
  <= len (recorded (__init__ chunk_size) sequence k).
Proof.
  unfold recorded. simpl min_pattern_length. simpl max_pattern_length.
  change (py_range2 8 (32 + 1)) with (8 :: py_range2 9 33).
  simpl flat_map. rewrite len_app.
  match goal with |- _ <= _ + len ?x => pose proof (len_nonneg x) end.
  lia.
Qed.

(** A key of the result has a length in the window range. *)
Lemma find_patterns_key_length (chunk_size : Z) (sequence k : pystr)
  (v : list Z) :
  dict_get (_find_patterns (__init__ chunk_size) sequence) k = Some v ->
  8 <= len k <= 32.
Proof.
  rewrite find_patterns_get.
  destruct (Z.ltb_spec 2 (len (recorded (__init__ chunk_size) sequence k)))
    as [Hlt |]; [| discriminate].
  intros _.
  destruct (recorded (__init__ chunk_size) sequence k) as [| i r] eqn:E;
    [change (len []) with 0 in Hlt; lia |].
  assert (Hin : In i (recorded (__init__ chunk_size) sequence k))
    by (rewrite E; left; reflexivity).
  apply recorded_In in Hin. destruct Hin as (L & HL & Hi & Hk & _).
  simpl in HL. rewrite Hk, py_slice_window; lia.
Qed.

Lemma acgt_1000_len : len acgt_1000 = 4000.
Proof. vm_compute. reflexivity. Qed.

(** Each of the four 8-letter windows of the periodic sequence is found
    more than once and stands at 326 of the first 1304 start indices. *)
Lemma acgt_1000_window (k : pystr) :
  In k [lit "ACGTACGT"; lit "CGTACGTA"; lit "GTACGTAC"; lit "TACGTACG"] ->
  326 <= len (recorded (__init__ default_chunk_size) acgt_1000 k).
Proof.
  intros Hk.
  eapply Z.le_trans; [| apply recorded_first_length].
  assert (Hc : 1 < str_count acgt_1000 k).
  { simpl in Hk. destruct Hk as [<- | [<- | [<- | [<- | []]]]];
      vm_compute; reflexivity. }
  rewrite (window_positions_counted _ 8 _ Hc).
  eapply Z.le_trans; [| apply (@filter_length_prefix _ 1304)];
    [| rewrite acgt_1000_len; lia].
  assert (E : filter (fun i => str_eqb (py_slice acgt_1000 i (i + 8)) k)
                     (py_range 1304)
              = filter (fun i => str_eqb
                                   (firstn 8 (skipn (Z.to_nat i) acgt_1000)) k)
                       (py_range 1304)).
  { apply filter_ext_in. intros i Hi. apply py_range_In in Hi.
    rewrite py_slice_inner by lia. rewrite acgt_1000_len.
    rewrite !Z.min_l by lia. do 2 f_equal. f_equal. lia. }
  rewrite E. clear E.
  simpl in Hk. destruct Hk as [<- | [<- | [<- | [<- | []]]]];
    vm_compute; discriminate.
Qed.

(** C9, as the code has it.  For "ACGT" repeated 1000 times the result
    holds the key "ACGTACGT" ("ACGT" twice: keys are at least 8 symbols
    long) with more than 2 recorded positions, and the sequence is
    classified as highly repetitive. *)
Theorem periodic_sequence_patterns :
  let self := __init__ default_chunk_size in
  (exists v,
     dict_get (_find_patterns self acgt_1000) (str_repeat (lit "ACGT") 2)
     = Some v /\ 2 < len v) /\
  _is_highly_repetitive self acgt_1000 = true.
Proof.
  intros self.
  assert (Hget : forall k,
             In k [lit "ACGTACGT"; lit "CGTACGTA"; lit "GTACGTAC"; lit "TACGTACG"] ->
             326 <= positions_under (_find_patterns self acgt_1000) k).
  { intros k Hk. pose proof (@acgt_1000_window k Hk) as Hw.
    unfold positions_under. rewrite find_patterns_get. fold self in Hw.
    destruct (Z.ltb_spec 2 (len (recorded self acgt_1000 k))); [exact Hw | lia]. }
  split.
  - pose proof (@acgt_1000_window (lit "ACGTACGT") ltac:(left; reflexivity)) as Hw.
    fold self in Hw.
    exists (recorded self acgt_1000 (lit "ACGTACGT")).
    change (str_repeat (lit "ACGT") 2) with (lit "ACGTACGT").
    rewrite find_patterns_get.
    destruct (Z.ltb_spec 2 (len (recorded self acgt_1000 (lit "ACGTACGT"))));
      [split; [reflexivity | assumption] | lia].
  - unfold _is_highly_repetitive. cbv zeta.
    assert (Htotal : 1304 <= total_positions (_find_patterns self acgt_1000)).
    { eapply Z.le_trans;
        [| apply (@total_positions_lower_bound _
                    [lit "ACGTACGT"; lit "CGTACGTA"; lit "GTACGTAC"; lit "TACGTACG"])].
      - unfold sum_list. cbn [map fold_right].
        pose proof (Hget (lit "ACGTACGT") ltac:(simpl; auto)).
        pose proof (Hget (lit "CGTACGTA") ltac:(simpl; auto)).
        pose proof (Hget (lit "GTACGTAC") ltac:(simpl; auto)).
        pose proof (Hget (lit "TACGTACG") ltac:(simpl; auto)).
        lia.
      - repeat constructor; simpl; intros H;
          repeat (destruct H as [H | H]; [discriminate H |]); exact H. }
    assert (Hthr : Prim2SF (PrimFloat.mul (float_of_Z (len acgt_1000)) three_tenths)
                   = S754_finite false 5277655813324800 (-42))
      by (vm_compute; reflexivity).
    unfold int_gt_float. rewrite Hthr.
    change (0 <=? -42) with false. cbv iota.
    change (2 ^ (- -42)) with 4398046511104.
    apply Z.ltb_lt. lia.
Qed.

(** C9 as stated fails: neither "ACGT" nor a rotation of it is a key of
    the result; they are 4 symbols long and keys have at least 8. *)
Lemma periodic_sequence_key_counterexample :
  Forall (fun k =>
            dict_get (_find_patterns (__init__ default_chunk_size) acgt_1000) k
            = None)
         [lit "ACGT"; lit "CGTA"; lit "GTAC"; lit "TACG"].
Proof.
  apply Forall_forall. intros k Hk.
  destruct (dict_get (_find_patterns (__init__ default_chunk_size) acgt_1000) k)
    as [v |] eqn:E; [| reflexivity].
  apply find_patterns_key_length in E.
  simpl in Hk. destruct Hk as [<- | [<- | [<- | [<- | []]]]];
    vm_compute in E; destruct E as [E _]; exfalso; apply E; reflexivity.
Qed.

(** * Further properties of the codec *)

(** ** Validation, exactly *)

Lemma upper_char_newline (c : ascii) : upper_char c = newline -> c = newline.
Proof.
  unfold upper_char. intros Hu.
  destruct ((97 <=? N_of_ascii c)%N && (N_of_ascii c <=? 122)%N) eqn:Hr;
    [| exact Hu].
  apply andb_true_iff in Hr. destruct Hr as [H1 H2].
  apply N.leb_le in H1. apply N.leb_le in H2.
  apply (f_equal N_of_ascii) in Hu.
  rewrite N_ascii_embedding in Hu by lia.
  change (N_of_ascii newline) with 10%N in Hu. lia.
Qed.

(** X1.  The validator admits exactly the texts of at least 100
    characters that are a non-empty run of A, C, G, T, N in either case,
    optionally followed by one newline. *)
Theorem validate_sequence_exact (sequence : pystr) :
  _validate_sequence sequence = true <->
  100 <= len sequence /\
  exists body,
    body <> [] /\
    Forall (fun c => In (upper_char c) (lit "ACGTN")) body /\
    (sequence = body \/ sequence = body ++ [newline]).
Proof.
  assert (Hclass : forall l,
             forallb in_class_ACGTN (map upper_char l) = true <->
             Forall (fun c => In (upper_char c) (lit "ACGTN")) l).
  { intros l. rewrite forallb_forall, Forall_forall. split.
    - intros H c Hc. specialize (H (upper_char c) (in_map _ _ _ Hc)).
      unfold in_class_ACGTN in H. apply existsb_exists in H.
      destruct H as (x & Hx & E). apply Ascii.eqb_eq in E. subst. exact Hx.
    - intros H x Hx. apply in_map_iff in Hx. destruct Hx as (c & <- & Hc).
      unfold in_class_ACGTN. apply existsb_exists.
      exists (upper_char c). split; [apply H, Hc | apply Ascii.eqb_refl]. }
  rewrite validate_sequence_iff. split.
  - intros (Hlen & body & Hne & Hall & Hu). split; [exact Hlen |].
    destruct Hu as [Hu | Hu].
    + exists sequence. split; [| split; [| left; reflexivity]].
      * intros E. apply Hne. rewrite <- Hu, E. reflexivity.
      * apply Hclass. unfold upper in Hu. rewrite Hu. exact Hall.
    + assert (Hne2 : sequence <> []).
      { intros E. rewrite E in Hu. destruct body; discriminate Hu. }
      destruct (exists_last Hne2) as (s' & c & E). subst sequence.
      unfold upper in Hu. rewrite map_app in Hu. simpl in Hu.
      apply app_inj_tail in Hu. destruct Hu as [Hs' Hc].
      apply upper_char_newline in Hc. subst c.
      exists s'. split; [| split; [| right; reflexivity]].
      * intros E. subst. apply Hne. reflexivity.
      * apply Hclass. rewrite Hs'. exact Hall.
  - intros (Hlen & body & Hne & Hall & Hs). split; [exact Hlen |].
    exists (map upper_char body). split; [| split].
    + intros E. apply map_eq_nil in E. contradiction.
    + apply Hclass. exact Hall.
    + unfold upper. destruct Hs as [-> | ->]; [left; reflexivity |].
      right. rewrite map_app. reflexivity.
Qed.

(** ** [compress] on every input *)

(** X2.  [compress] returns on no input: it raises [InvalidSequence] on a
    text the validator rejects, and on an admitted text the [ValueError]
    of [range] for chunk size 0, [ZeroDivisionError] for a negative chunk
    size (no chunk, so the means divide by zero) and [TypeError]
    otherwise.  The instance is left as it was, so after any calls on a
    new instance the history of [get_compression_stats] is empty. *)
Theorem compress_error_behaviour
  (zlib_compress : bytes -> Z -> bytes) (b64encode : bytes -> bytes)
  (self : GenomeCompressor) (genome_data : pystr) (inputs : list pystr) :
  fst (compress zlib_compress b64encode self genome_data)
  = (if negb (_validate_sequence genome_data) then Raise InvalidSequence
     else if chunk_size self =? 0
          then Raise (ValueError "range() arg 3 must not be zero")
     else if chunk_size self <? 0 then Raise ZeroDivisionError
     else Raise TypeError) /\
  compress_calls zlib_compress b64encode self inputs = self /\
  get_compression_stats
    (compress_calls zlib_compress b64encode (__init__ (chunk_size self)) inputs)
  = [].
Proof.
  assert (Hcalls : forall st,
             compress_calls zlib_compress b64encode st inputs = st).
  { unfold compress_calls. induction inputs as [| s inputs' IH]; intros st;
      simpl; [reflexivity |].
    rewrite (proj2 (compress_never_succeeds zlib_compress b64encode st s)).
    apply IH. }
  split; [apply compress_never_succeeds |].
  split; [apply Hcalls |]. rewrite Hcalls. reflexivity.
Qed.

(** ** [_encode_sequence] and [_compress_chunk] on any chunk *)

Lemma encode_sequence_empty :
  _encode_sequence []
  = Raise (ValueError "invalid literal for int() with base 2").
Proof. reflexivity. Qed.

(** X3.  [_compress_chunk] fails exactly on the empty chunk (with the
    [ValueError] of [int('', 2)]).  On any other chunk it returns
    [zlib.compress(encoded, 9)], whichever way the repetitiveness test
    goes, with the chunk's length, its patterns, the CRC-32 of the
    encoded (not the compressed) bytes, its quality scores and its error
    rate. *)
Theorem compress_chunk_result
  (zlib_compress : bytes -> Z -> bytes) (self : GenomeCompressor)
  (chunk : pystr) :
  (chunk = [] ->
   _compress_chunk zlib_compress self chunk
   = Raise (ValueError "invalid literal for int() with base 2")) /\
  (chunk <> [] ->
   exists buffer rate,
     _encode_sequence chunk = Ok buffer /\
     _calculate_error_rate chunk = Ok rate /\
     _compress_chunk zlib_compress self chunk
     = Ok (zlib_compress buffer 9,
           {| original_length := len chunk;
              patterns := _find_patterns self chunk;
              checksum := crc32 buffer;
              quality_scores := _calculate_quality_scores chunk;
              compression_type := lit "adaptive";
              error_rate := rate |})).
Proof.
  split.
  - intros ->. reflexivity.
  - intros Hne.
    destruct (encode_sequence_Ok Hne) as (buffer & Hb & _).
    destruct (calculate_error_rate_Ok Hne) as (rate & Hr & _).
    exists buffer, rate. split; [exact Hb |]. split; [exact Hr |].
    unfold _compress_chunk. rewrite Hb, Hr. simpl bind.
    unfold _compress_repetitive.
    destruct (_is_highly_repetitive self chunk); reflexivity.
Qed.

Lemma compress_chunk_result_witness :
  exists buffer rate,
    _compress_chunk stored_compress (__init__ 100) (lit "ACGTNACGTN")
    = Ok (stored_compress buffer 9,
          {| original_length := 10;
             patterns := [];
             checksum := crc32 buffer;
             quality_scores := [30; 30; 30; 30; 30; 30; 30; 30; 30; 30];
             compression_type := lit "adaptive";
             error_rate := rate |}).
Proof.
  destruct (compress_chunk_result stored_compress (__init__ 100)
              (lit "ACGTNACGTN")) as (_ & H).
  destruct (H ltac:(discriminate)) as (buffer & rate & _ & _ & Hc).
  exists buffer, rate. rewrite Hc. reflexivity.
Defined.

(** X4.  The encoder raises ValueError on the empty sequence; on an
    ASCII text of n > 0 symbols its buffer has ceil(10 n / 8) bytes,
    which is more than n: the encoded chunk is longer than the text it
    encodes. *)
Theorem encode_sequence_size (sequence : pystr) :
  (sequence = [] ->
   _encode_sequence sequence
   = Raise (ValueError "invalid literal for int() with base 2")) /\
  (sequence <> [] -> isascii sequence = true ->
   exists buffer,
     _encode_sequence sequence = Ok buffer /\
     len buffer = (10 * len sequence + 7) / 8 /\
     len sequence < len buffer <= 2 * len sequence).
Proof.
  split.
  - intros ->. reflexivity.
  - intros Hne _. destruct (encode_sequence_Ok Hne) as (buffer & Hb & Hl & _).
    exists buffer. split; [exact Hb |]. split; [exact Hl |].
    assert (Hpos : 0 < len sequence).
    { pose proof (len_nonneg sequence).
      destruct (Z.eq_dec (len sequence) 0) as [E |]; [| lia].
      apply len_nil_iff in E. contradiction. }
    rewrite Hl.
    pose proof (Z.div_mod (10 * len sequence + 7) 8 ltac:(lia)).
    pose proof (Z.mod_pos_bound (10 * len sequence + 7) 8 ltac:(lia)).
    lia.
Qed.

Lemma encode_sequence_size_witness :
  exists buffer,
    _encode_sequence (str_repeat (lit "ACGT") 25) = Ok buffer /\
    len buffer = 125.
Proof.
  destruct (encode_sequence_size (str_repeat (lit "ACGT") 25)) as (_ & H).
  destruct (H ltac:(discriminate) ltac:(vm_compute; reflexivity))
    as (buffer & Hb & Hl & _).
  exists buffer. split; [exact Hb |]. rewrite Hl. reflexivity.
Defined.

(** ** What the encoding cannot tell apart *)

Lemma str_at_map (f : ascii -> ascii) (s : pystr) (i : Z) :
  str_at (map f s) i = option_map f (str_at s i).
Proof.
  unfold str_at. destruct (i <? 0); [reflexivity |]. apply nth_error_map.
Qed.

Lemma str_at_In (s : pystr) (i : Z) (c : ascii) :
  str_at s i = Some c -> In c s.
Proof.
  unfold str_at. destruct (i <? 0); [discriminate |]. apply nth_error_In.
Qed.

Lemma opt_ascii_eqb_map (f : ascii -> ascii) (s : pystr) (i j : Z) :
  (forall a b, In a s -> In b s -> f a = f b -> a = b) ->
  opt_ascii_eqb (str_at (map f s) i) (str_at (map f s) j)
  = opt_ascii_eqb (str_at s i) (str_at s j).
Proof.
  intros Hinj. rewrite !str_at_map.
  destruct (str_at s i) as [a |] eqn:Ea; destruct (str_at s j) as [b |] eqn:Eb;
    simpl; try reflexivity.
  apply str_at_In in Ea. apply str_at_In in Eb.
  destruct (Ascii.eqb_spec a b) as [-> | Hab].
  - apply Ascii.eqb_refl.
  - apply Ascii.eqb_neq. intros E. apply Hab. apply Hinj; assumption.
Qed.

(** The scores only depend on which characters are equal. *)
Lemma quality_scores_renaming (f : ascii -> ascii) (s : pystr) :
  (forall a b, In a s -> In b s -> f a = f b -> a = b) ->
  _calculate_quality_scores (map f s) = _calculate_quality_scores s.
Proof.
  intros Hinj. unfold _calculate_quality_scores.
  replace (len (map f s)) with (len s) by (unfold len; rewrite length_map; reflexivity).
  apply map_ext. intros i. unfold quality_at.
  rewrite !(@opt_ascii_eqb_map f s _ _ Hinj). reflexivity.
Qed.

(** X5.  The encoding is lossy: renaming the symbols of an ASCII
    sequence by a map into ASCII that keeps distinct symbols distinct and
    keeps every 2-bit code gives the same buffer.  So a sequence without
    "A" and the sequence with every "N" replaced by "A" are encoded
    alike. *)
Theorem encode_sequence_renaming (f : ascii -> ascii) (sequence : pystr) :
  isascii sequence = true -> isascii (map f sequence) = true ->
  (forall a b, In a sequence -> In b sequence -> f a = f b -> a = b) ->
  (forall a, In a sequence ->
     two_bit_code (upper_char (f a)) = two_bit_code (upper_char a)) ->
  _encode_sequence (map f sequence) = _encode_sequence sequence.
Proof.
  intros _ _ Hinj Hcode. unfold _encode_sequence.
  assert (E : combined_binary (map f sequence) = combined_binary sequence).
  { unfold combined_binary, quality_binary.
    rewrite (@quality_scores_renaming f sequence Hinj). f_equal.
    rewrite !sequence_binary_eq, map_map. f_equal.
    apply map_ext_in. exact Hcode. }
  rewrite E. reflexivity.
Qed.

Lemma encode_sequence_renaming_witness :
  let s := str_repeat (lit "NCGT") 25 in
  map n_to_a s = str_repeat (lit "ACGT") 25 /\
  _validate_sequence s = true /\
  _encode_sequence (str_repeat (lit "ACGT") 25) = _encode_sequence s.
Proof.
  intros s.
  assert (Hin : forall a, In a s -> a = "N"%char \/ a = "C"%char
                                    \/ a = "G"%char \/ a = "T"%char).
  { intros a Ha. assert (F : forallb (fun c => existsb (Ascii.eqb c) (lit "NCGT")) s = true)
      by (vm_compute; reflexivity).
    rewrite forallb_forall in F. specialize (F a Ha).
    apply existsb_exists in F. destruct F as (x & Hx & E).
    apply Ascii.eqb_eq in E. subst x. simpl in Hx. intuition. }
  assert (Hmap : map n_to_a s = str_repeat (lit "ACGT") 25)
    by (vm_compute; reflexivity).
  split; [exact Hmap |]. split; [vm_compute; reflexivity |].
  rewrite <- Hmap. apply encode_sequence_renaming.
  - vm_compute. reflexivity.
  - vm_compute. reflexivity.
  - intros a b Ha Hb.
    destruct (Hin a Ha) as [-> | [-> | [-> | ->]]];
      destruct (Hin b Hb) as [-> | [-> | [-> | ->]]];
      vm_compute; intros E; try reflexivity; discriminate E.
  - intros a Ha.
    destruct (Hin a Ha) as [-> | [-> | [-> | ->]]]; reflexivity.
Defined.

(** ** The error rate *)

Lemma str_at_range_map (s : pystr) :
  map (str_at s) (py_range (len s)) = map Some s.
Proof.
  apply nth_error_ext. intros n.
  rewrite !nth_error_map. unfold py_range.
  destruct (Nat.lt_ge_cases n (length s)) as [Hlt | Hge].
  - rewrite py_range2_nth by (unfold len; lia). simpl.
    unfold str_at.
    destruct (Z.ltb_spec (Z.of_nat n) 0); [lia |].
    rewrite Nat2Z.id.
    destruct (nth_error s n) eqn:E; [reflexivity |].
    apply nth_error_None in E. lia.
  - assert (E1 : nth_error (py_range2 0 (len s)) n = None).
    { apply nth_error_None. rewrite py_range2_length. unfold len. lia. }
    assert (E2 : nth_error s n = None) by (apply nth_error_None; lia).
    rewrite E1, E2. reflexivity.
Qed.

Lemma filter_map_length {A B} (p : B -> bool) (h : A -> B) (l : list A) :
  length (filter (fun x => p (h x)) l) = length (filter p (map h l)).
Proof.
  induction l as [| x l IH]; simpl; [reflexivity |].
  destruct (p (h x)); simpl; rewrite IH; reflexivity.
Qed.

Lemma no_adjacent_repeat_nth (s : pystr) :
  no_adjacent_repeat s = true ->
  forall n, (S n < length s)%nat ->
    opt_ascii_eqb (nth_error s (S n)) (nth_error s n) = false.
Proof.
  induction s as [| a s IH]; intros H n Hn; [simpl in Hn; lia |].
  destruct s as [| b s']; [simpl in Hn; lia |].
  cbn [no_adjacent_repeat] in H. apply andb_true_iff in H.
  destruct H as [Hab Hs].
  destruct n as [| n].
  - simpl. apply negb_true_iff in Hab. exact Hab.
  - change (nth_error (a :: b :: s') (S (S n))) with (nth_error (b :: s') (S n)).
    change (nth_error (a :: b :: s') (S n)) with (nth_error (b :: s') n).
    apply IH; [exact Hs | simpl in *; lia].
Qed.

Lemma no_adjacent_repeat_at (s : pystr) (i : Z) :
  no_adjacent_repeat s = true -> 0 < i < len s ->
  opt_ascii_eqb (str_at s i) (str_at s (i - 1)) = false.
Proof.
  intros H Hi. unfold str_at.
  destruct (Z.ltb_spec i 0); [lia |].
  destruct (Z.ltb_spec (i - 1) 0); [lia |].
  replace (Z.to_nat i) with (S (Z.to_nat (i - 1))) by lia.
  apply no_adjacent_repeat_nth; [exact H | unfold len in Hi; lia].
Qed.

(** The loop, when no symbol repeats its predecessor: the count of the
    error characters, still an [int]. *)
Lemma error_loop_no_repeat (s : pystr) (idxs : list Z) (c : Z) :
  no_adjacent_repeat s = true ->
  Forall (fun i => 0 <= i < len s) idxs ->
  foldM (error_step s) idxs (PInt c)
  = Ok (PInt (c + len (filter (fun i => negb (char_in (str_at s i) (lit "ACGT")))
                              idxs))).
Proof.
  intros Hs Hall. revert c.
  induction Hall as [| i idxs Hi _ IH]; intros c.
  - simpl. change (len []) with 0. rewrite Z.add_0_r. reflexivity.
  - cbn [foldM filter]. unfold error_step at 1.
    assert (Hrep : (0 <? i) && opt_ascii_eqb (str_at s i) (str_at s (i - 1)) = false).
    { destruct (Z.ltb_spec 0 i) as [Hpos |]; [| reflexivity].
      rewrite (@no_adjacent_repeat_at s i Hs) by lia. reflexivity. }
    destruct (negb (char_in (str_at s i) (lit "ACGT"))); simpl bind;
      rewrite Hrep; simpl bind; rewrite IH; rewrite ?len_cons;
      do 2 f_equal; lia.
Qed.

(** X6.  [_calculate_error_rate] divides by zero on the empty sequence.
    On a sequence in which no symbol repeats its predecessor it returns
    the number of characters other than upper-case A, C, G, T divided by
    the length: lower-case bases, which the validator admits, count as
    errors. *)
Theorem calculate_error_rate_no_repeat (sequence : pystr) :
  (sequence = [] -> _calculate_error_rate sequence = Raise ZeroDivisionError) /\
  (sequence <> [] -> no_adjacent_repeat sequence = true ->
   _calculate_error_rate sequence
   = Ok (PFloat (PrimFloat.div
                   (float_of_Z (len (filter is_error_char sequence)))
                   (float_of_Z (len sequence))))).
Proof.
  split.
  - intros ->. reflexivity.
  - intros Hne Hs. unfold _calculate_error_rate.
    rewrite (@error_loop_no_repeat sequence (py_range (len sequence)) 0 Hs)
      by (apply Forall_forall; intros i Hi; apply py_range_In in Hi; exact Hi).
    simpl bind. unfold py_truediv.
    destruct (Z.eqb_spec (len sequence) 0) as [E |];
      [apply len_nil_iff in E; contradiction |].
    do 4 f_equal. unfold len at 1 3. f_equal.
    change (length (filter (fun i => (fun o => negb (char_in o (lit "ACGT")))
                                       (str_at sequence i))
                           (py_range (len sequence)))
            = length (filter is_error_char sequence)).
    rewrite (filter_map_length (fun o => negb (char_in o (lit "ACGT")))
               (str_at sequence)).
    rewrite str_at_range_map.
    rewrite <- (filter_map_length (fun o => negb (char_in o (lit "ACGT"))) Some).
    reflexivity.
Qed.

Lemma calculate_error_rate_no_repeat_witness :
  let s := str_repeat (lit "acgt") 25 in
  _validate_sequence s = true /\
  _calculate_error_rate s = Ok (PFloat 1).
Proof.
  intros s. split; [vm_compute; reflexivity |].
  destruct (calculate_error_rate_no_repeat s) as (_ & H).
  rewrite H; [vm_compute; reflexivity | discriminate | vm_compute; reflexivity].
Defined.

(** ** Patterns: short sequences, and the positions under a key *)

Lemma startswith_length (p s : pystr) :
  startswith p s = true -> (length p <= length s)%nat.
Proof.
  revert s. induction p as [| a p IH]; intros [| b s] H; simpl in *;
    try lia; try discriminate.
  apply andb_true_iff in H. destruct H as [_ H]. apply IH in H. lia.
Qed.

(** Occurrences that do not overlap fit into the text. *)
Lemma count_from_bound (p : pystr) (s : pystr) :
  p <> [] ->
  forall skip,
    0 <= count_from p skip s /\
    count_from p skip s * len p <= Z.max 0 (len s - Z.of_nat skip).
Proof.
  intros Hp.
  assert (Hlp : 0 < len p).
  { pose proof (len_nonneg p). destruct (Z.eq_dec (len p) 0) as [E |]; [| lia].
    apply len_nil_iff in E. contradiction. }
  induction s as [| c s IH]; intros skip.
  - simpl. change (len []) with 0. lia.
  - cbn [count_from]. rewrite len_cons. destruct skip as [| k].
    + destruct (startswith p (c :: s)) eqn:E.
      * apply startswith_length in E. simpl in E.
        destruct (IH (length p - 1)%nat) as [H0 H1].
        unfold len in *. split; [lia |]. nia.
      * destruct (IH 0%nat) as [H0 H1]. split; [lia |]. lia.
    + destruct (IH k) as [H0 H1]. split; [lia |]. lia.
Qed.

Lemma str_count_bound (s p : pystr) :
  p <> [] -> str_count s p * len p <= len s.
Proof.
  intros Hp. destruct p as [| a p]; [contradiction |].
  unfold str_count.
  destruct (@count_from_bound (a :: p) s Hp 0%nat) as [_ H].
  pose proof (len_nonneg s). simpl Z.of_nat in H. lia.
Qed.

Lemma dict_all_None (d : pydict) :
  (forall k, dict_get d k = None) -> d = [].
Proof.
  destruct d as [| [k v] d]; [reflexivity |].
  intros H. specialize (H k). simpl in H. rewrite str_eqb_refl in H.
  discriminate.
Qed.

(** X7.  A sequence shorter than twice the least window length (16 for
    an instance as [__init__] makes it) has no pattern at all: nothing is
    recorded, and the result is empty. *)
Theorem find_patterns_short (self : GenomeCompressor) (sequence : pystr) :
  0 < min_pattern_length self ->
  len sequence < 2 * min_pattern_length self ->
  scan_patterns self sequence = [] /\ _find_patterns self sequence = [].
Proof.
  intros Hmin Hlen.
  assert (Hscan : scan_patterns self sequence = []).
  { apply dict_all_None. intros k. rewrite scan_patterns_get.
    destruct (recorded self sequence k) as [| i r] eqn:E; [reflexivity |].
    exfalso.
    assert (Hin : In i (recorded self sequence k)) by (rewrite E; left; reflexivity).
    apply recorded_In in Hin. destruct Hin as (L & HL & Hi & Hk & Hc).
    assert (Hlk : len k = L) by (rewrite Hk; apply py_slice_window; lia).
    assert (Hne : k <> []).
    { intros E0. rewrite E0 in Hlk. change (len []) with 0 in Hlk. lia. }
    pose proof (str_count_bound sequence Hne). nia. }
  split; [exact Hscan |]. unfold _find_patterns. rewrite Hscan. reflexivity.
Qed.

Lemma find_patterns_short_witness :
  _find_patterns (__init__ 100) (lit "AAAAAAAAAAAAAAA") = [].
Proof.
  apply (@find_patterns_short (__init__ 100) (lit "AAAAAAAAAAAAAAA"));
    vm_compute; reflexivity.
Defined.

Lemma flat_map_nil {A B} (f : A -> list B) (l : list A) :
  (forall x, In x l -> f x = []) -> flat_map f l = [].
Proof.
  induction l as [| x l IH]; intros H; simpl; [reflexivity |].
  rewrite (H x (or_introl eq_refl)), IH; [reflexivity |].
  intros y Hy. apply H. right. exact Hy.
Qed.

Lemma list_no_member {A} (l : list A) : (forall x, ~ In x l) -> l = [].
Proof.
  destruct l as [| x l]; [reflexivity |]. intros H.
  exfalso. apply (H x). left. reflexivity.
Qed.

Lemma window_positions_other_length (sequence k : pystr) (L : Z) :
  0 <= L -> L <> len k -> window_positions sequence L k = [].
Proof.
  intros HL Hne. apply list_no_member. intros i Hi.
  apply window_positions_In in Hi. destruct Hi as (Hi & Hk & _).
  apply Hne. rewrite Hk. symmetry. apply py_slice_window; lia.
Qed.

Lemma py_range2_cons (a b : Z) : a < b -> py_range2 a b = a :: py_range2 (a + 1) b.
Proof.
  intros H. rewrite (@py_range2_split a (a + 1) b) by lia.
  unfold py_range2 at 1. replace (a + 1 - a) with 1 by lia. simpl.
  rewrite Z.add_0_r. reflexivity.
Qed.

(** Only the scan of the key's own length records under the key. *)
Lemma recorded_own_length (self : GenomeCompressor) (sequence k : pystr) :
  0 <= min_pattern_length self ->
  min_pattern_length self <= len k <= max_pattern_length self ->
  recorded self sequence k = window_positions sequence (len k) k.
Proof.
  intros Hmin Hk. unfold recorded.
  rewrite (@py_range2_split (min_pattern_length self) (len k)
             (max_pattern_length self + 1)) by lia.
  rewrite (@py_range2_cons (len k)) by lia.
  rewrite flat_map_app. simpl flat_map.
  rewrite !flat_map_nil.
  - rewrite app_nil_r. reflexivity.
  - intros L HL. apply py_range2_In in HL.
    apply window_positions_other_length; lia.
  - intros L HL. apply py_range2_In in HL.
    apply window_positions_other_length; lia.
Qed.

Lemma py_range2_sorted (a b : Z) : StronglySorted Z.lt (py_range2 a b).
Proof.
  unfold py_range2. generalize (Z.to_nat (b - a)). intros n.
  generalize 0%nat. induction n as [| n IH]; intros s; simpl; constructor.
  - apply IH.
  - apply Forall_forall. intros x Hx. apply in_map_iff in Hx.
    destruct Hx as (j & <- & Hj). apply in_seq in Hj. lia.
Qed.

Lemma filter_sorted (f : Z -> bool) (l : list Z) :
  StronglySorted Z.lt l -> StronglySorted Z.lt (filter f l).
Proof.
  induction 1 as [| x l Hs IH Hx]; simpl; [constructor |].
  destruct (f x); [| exact IH]. constructor; [exact IH |].
  apply Forall_forall. intros y Hy. apply filter_In in Hy.
  rewrite Forall_forall in Hx. apply Hx. apply Hy.
Qed.

Lemma filter_keys_NoDup (P : pystr * list Z -> bool) (d : pydict) :
  NoDup (map fst d) -> NoDup (map fst (filter P d)).
Proof.
  induction d as [| [k v] d IH]; simpl; intros H; [constructor |].
  inversion H as [| ? ? Hnotin Hnd]; subst.
  destruct (P (k, v)); simpl; [constructor |]; auto.
  intros Hin. apply Hnotin. apply in_map_iff in Hin.
  destruct Hin as ([k' v'] & E & Hin). simpl in E. subst k'.
  apply filter_In in Hin. apply in_map_iff. exists (k, v'). split; [reflexivity |].
  apply Hin.
Qed.

Lemma find_patterns_keys_NoDup (self : GenomeCompressor) (sequence : pystr) :
  NoDup (map fst (_find_patterns self sequence)).
Proof.
  unfold _find_patterns. apply filter_keys_NoDup.
  unfold scan_patterns. apply scan_lengths_NoDup. constructor.
Qed.

(** X8.  The keys of the result are distinct, and under each key stand
    exactly the start indices i < len(sequence) - len(key) at which the
    key is found, in increasing order (the last possible start,
    len(sequence) - len(key), is never among them). *)
Theorem find_patterns_positions (chunk_size : Z) (sequence k : pystr)
  (v : list Z) :
  dict_get (_find_patterns (__init__ chunk_size) sequence) k = Some v ->
  v = filter (fun i => str_eqb (py_slice sequence i (i + len k)) k)
             (py_range (len sequence - len k)) /\
  StronglySorted Z.lt v /\
  ~ In (len sequence - len k) v /\
  NoDup (map fst (_find_patterns (__init__ chunk_size) sequence)).
Proof.
  intros H.
  pose proof (find_patterns_key_length _ _ _ H) as Hk.
  rewrite find_patterns_get in H.
  destruct (Z.ltb_spec 2 (len (recorded (__init__ chunk_size) sequence k)))
    as [Hlt |]; [| discriminate].
  inversion H as [Hv]. clear H.
  rewrite recorded_own_length in * by (simpl; lia).
  assert (Hc : 1 < str_count sequence k).
  { destruct (window_positions sequence (len k) k) as [| i r] eqn:E;
      [change (len []) with 0 in Hlt; lia |].
    assert (Hin : In i (window_positions sequence (len k) k))
      by (rewrite E; left; reflexivity).
    apply window_positions_In in Hin. apply Hin. }
  rewrite (window_positions_counted _ _ _ Hc).
  split; [reflexivity |]. split; [| split].
  - apply filter_sorted, py_range2_sorted.
  - intros Hin. apply filter_In in Hin. destruct Hin as [Hin _].
    apply py_range_In in Hin. lia.
  - apply find_patterns_keys_NoDup.
Qed.

Lemma find_patterns_positions_witness :
  dict_get (_find_patterns (__init__ 100) (str_repeat (lit "ACGT") 8))
           (lit "ACGTACGT") = Some [0; 4; 8; 12; 16; 20] /\
  StronglySorted Z.lt [0; 4; 8; 12; 16; 20].
Proof.
  assert (H : dict_get (_find_patterns (__init__ 100) (str_repeat (lit "ACGT") 8))
                (lit "ACGTACGT") = Some [0; 4; 8; 12; 16; 20])
    by (vm_compute; reflexivity).
  split; [exact H |].
  apply (find_patterns_positions _ _ _ H).
Defined.

(** ** The repetitiveness test needs patterns *)

Lemma binary_round_aux_not_negative (mx ex : Z) (lx : location) :
  sf_not_negative (binary_round_aux prec emax false mx ex lx).
Proof.
  unfold binary_round_aux.
  destruct (shr_fexp prec emax mx ex lx) as [m1 e1].
  destruct (shr_fexp prec emax _ e1 loc_Exact) as [m2 e2].
  destruct (shr_m m2); simpl; [exact I | | exact I].
  destruct (e2 <=? 971); exact I.
Qed.

Lemma SFmul_not_negative (x : spec_float) (m : positive) (e : Z) :
  sf_not_negative x ->
  sf_not_negative (SFmul prec emax x (S754_finite false m e)).
Proof.
  destruct x as [[|] | [|] | | [|] m' e']; simpl; intros H;
    try contradiction; try exact I.
  apply binary_round_aux_not_negative.
Qed.

Lemma float_of_Z_not_negative (z : Z) :
  sf_not_negative (Prim2SF (float_of_Z z)).
Proof.
  unfold float_of_Z. rewrite FloatAxioms.of_uint63_spec.
  pose proof (Uint63.to_Z_bounded (Uint63.of_Z z)) as Hb.
  destruct (Uint63.to_Z (Uint63.of_Z z)) as [| p | p]; simpl.
  - exact I.
  - unfold binary_round.
    destruct (shl_align p 0 _) as [mz ez].
    apply binary_round_aux_not_negative.
  - lia.
Qed.

Lemma threshold_not_negative (n : Z) :
  sf_not_negative (Prim2SF (PrimFloat.mul (float_of_Z n) three_tenths)).
Proof.
  rewrite FloatAxioms.mul_spec.
  change (Prim2SF three_tenths) with (S754_finite false 5404319552844595 (-54)).
  apply SFmul_not_negative, float_of_Z_not_negative.
Qed.

Lemma int_gt_float_nonpos (z : Z) (f : float) :
  sf_not_negative (Prim2SF f) -> z <= 0 -> int_gt_float z f = false.
Proof.
  unfold int_gt_float. intros Hf Hz.
  destruct (Prim2SF f) as [s | s | | s m e]; simpl in Hf.
  - apply Z.ltb_ge. exact Hz.
  - destruct s; [contradiction | reflexivity].
  - reflexivity.
  - destruct s; [contradiction |].
    destruct (Z.leb_spec 0 e) as [He | He]; apply Z.ltb_ge.
    + pose proof (Z.pow_pos_nonneg 2 e ltac:(lia) He). nia.
    + pose proof (Z.pow_pos_nonneg 2 (- e) ltac:(lia) ltac:(lia)). nia.
Qed.

(** X9.  A sequence without patterns is never classified as highly
    repetitive, whatever its length; a sequence classified as highly
    repetitive has a pattern with more than 2 recorded positions. *)
Theorem highly_repetitive_needs_patterns (self : GenomeCompressor)
  (sequence : pystr) :
  (_find_patterns self sequence = [] ->
   _is_highly_repetitive self sequence = false) /\
  (_is_highly_repetitive self sequence = true ->
   exists k v, In (k, v) (_find_patterns self sequence) /\ 2 < len v).
Proof.
  assert (Hempty : _find_patterns self sequence = [] ->
                   _is_highly_repetitive self sequence = false).
  { intros E. unfold _is_highly_repetitive. cbv zeta. rewrite E.
    apply int_gt_float_nonpos; [apply threshold_not_negative |].
    unfold total_positions. simpl. lia. }
  split; [exact Hempty |].
  intros H. destruct (_find_patterns self sequence) as [| [k v] d] eqn:E.
  - rewrite (Hempty eq_refl) in H. discriminate.
  - exists k, v. split; [left; reflexivity |].
    assert (Hin : In (k, v) (_find_patterns self sequence))
      by (rewrite E; left; reflexivity).
    unfold _find_patterns in Hin. apply filter_In in Hin.
    destruct Hin as [_ Hlt]. apply Z.ltb_lt in Hlt. exact Hlt.
Qed.

Lemma highly_repetitive_needs_patterns_witness :
  _is_highly_repetitive (__init__ 100) (lit "ACGTACGTACGTACGT") = false.
Proof.
  apply (highly_repetitive_needs_patterns (__init__ 100)
           (lit "ACGTACGTACGTACGT")).
  vm_compute. reflexivity.
Defined.

(** ** [decompress]: when it succeeds, what it returns, what it logs *)

Lemma warning_log_eq (threshold pos : Z) (qs : list Z) (log : list log_entry) :
  (if negb (len qs =? 0) && existsb (fun score => score <? threshold) qs
   then log ++ [LowQualityWarning pos] else log)
  = log ++ (if existsb (fun score => score <? threshold) qs
            then [LowQualityWarning pos] else []).
Proof.
  destruct qs as [| q qs]; [simpl; rewrite app_nil_r; reflexivity |].
  assert (E : negb (len (q :: qs) =? 0) = true).
  { apply negb_true_iff, Z.eqb_neq. rewrite len_cons.
    pose proof (len_nonneg qs). lia. }
  rewrite E. rewrite andb_true_l.
  destruct (existsb (fun score => score <? threshold) (q :: qs));
    [reflexivity | rewrite app_nil_r; reflexivity].
Qed.

Section DecompressMore.

Variable zlib_decompress : bytes -> result bytes.
Variable b64decode : bytes -> result bytes.

(** The loop runs to its end when every entry inflates and matches. *)
Lemma decompress_loop_complete (self : GenomeCompressor) (decoded : bytes)
  (metas : list ChunkMetadata) :
  forall ds pos acc log,
    length ds = length metas ->
    (forall k m, nth_error metas k = Some m ->
       exists d, nth_error ds k = Some d /\
                 zlib_decompress
                   (py_slice decoded (cursor pos metas k)
                      (cursor pos metas k + original_length m)) = Ok d /\
                 crc32 d = checksum m) ->
    fst (decompress_loop zlib_decompress self decoded metas pos acc log)
    = Ok (acc ++ ds).
Proof.
  induction metas as [| m rest IH]; intros ds pos acc log Hlen Hall.
  - destruct ds; [| discriminate]. simpl. rewrite app_nil_r. reflexivity.
  - destruct ds as [| d0 ds]; [discriminate |].
    destruct (Hall 0%nat m eq_refl) as (d & Hd & Hz & Hc).
    inversion Hd; subst d0. rewrite cursor_0 in Hz.
    rewrite decompress_loop_cons, Hz.
    destruct (Z.eqb_spec (crc32 d) (checksum m)); [| contradiction].
    simpl negb. cbv iota.
    rewrite (IH ds).
    + rewrite <- app_assoc. reflexivity.
    + simpl in Hlen. lia.
    + intros k mk Hk. rewrite <- cursor_S. apply (Hall (S k) mk Hk).
Qed.

(** The result of the loop looks at the lengths and the checksums only. *)
Lemma decompress_loop_fields (self self' : GenomeCompressor) (decoded : bytes)
  (metas : list ChunkMetadata) :
  forall metas' pos acc log log',
    map original_length metas = map original_length metas' ->
    map checksum metas = map checksum metas' ->
    fst (decompress_loop zlib_decompress self decoded metas pos acc log)
    = fst (decompress_loop zlib_decompress self' decoded metas' pos acc log').
Proof.
  induction metas as [| m rest IH]; intros [| m' rest'] pos acc log log' Hl Hc;
    try discriminate; [reflexivity |].
  simpl in Hl, Hc. inversion Hl as [[Hl0 Hl1]]. inversion Hc as [[Hc0 Hc1]].
  rewrite !decompress_loop_cons. rewrite <- Hl0, <- Hc0.
  destruct (zlib_decompress _) as [d | e]; [| reflexivity].
  destruct (negb (crc32 d =? checksum m)); [reflexivity |].
  apply IH; assumption.
Qed.

(** The log of a loop that runs to its end. *)
Lemma decompress_loop_log (self : GenomeCompressor) (decoded : bytes)
  (metas : list ChunkMetadata) :
  forall pos acc log out log',
    decompress_loop zlib_decompress self decoded metas pos acc log
    = (Ok out, log') ->
    log' = log ++ low_quality_positions (quality_threshold self) metas pos.
Proof.
  induction metas as [| m rest IH]; intros pos acc log out log' H.
  - simpl in H. inversion H. simpl. rewrite app_nil_r. reflexivity.
  - rewrite decompress_loop_cons in H.
    destruct (zlib_decompress _) as [d | e]; [| discriminate].
    destruct (negb (crc32 d =? checksum m)); [discriminate |].
    rewrite warning_log_eq in H. apply IH in H. rewrite H.
    cbn [low_quality_positions]. rewrite app_assoc. reflexivity.
Qed.

(** X10.  [decompress] returns a text exactly when the blob decodes,
    every metadata entry's slice (taken at the running sum of the
    [original_length] values) inflates to bytes whose CRC-32 equals the
    stored checksum, and each inflated buffer is valid UTF-8; the text is
    then the concatenation of the decoded buffers, in order. *)
Theorem decompress_succeeds_iff (self : GenomeCompressor) (blob : bytes)
  (metas : list ChunkMetadata) (text : list Z) :
  fst (decompress zlib_decompress b64decode self blob metas) = Ok text <->
  exists decoded ds strs,
    b64decode blob = Ok decoded /\
    length ds = length metas /\
    (forall k m, nth_error metas k = Some m ->
       exists d, nth_error ds k = Some d /\
                 zlib_decompress (chunk_data decoded metas k m) = Ok d /\
                 crc32 d = checksum m) /\
    mapM bytes_decode ds = Ok strs /\ text = List.concat strs.
Proof.
  split; [apply decompress_Ok_inv |].
  intros (decoded & ds & strs & Hb & Hlen & Hall & Hstrs & ->).
  unfold decompress. rewrite Hb.
  pose proof (@decompress_loop_complete self decoded metas ds 0 [] [] Hlen Hall)
    as Hloop.
  destruct (decompress_loop zlib_decompress self decoded metas 0 [] [])
    as [[out | e] log]; simpl in Hloop; [| discriminate].
  inversion Hloop; subst out. simpl. rewrite Hstrs. reflexivity.
Qed.

(** X11.  The result of [decompress] depends on the [original_length]
    and [checksum] fields only: quality scores, patterns, compression
    type, error rate and the instance's attributes do not change it. *)
Theorem decompress_result_fields (self self' : GenomeCompressor)
  (blob : bytes) (metas metas' : list ChunkMetadata) :
  map original_length metas = map original_length metas' ->
  map checksum metas = map checksum metas' ->
  fst (decompress zlib_decompress b64decode self blob metas)
  = fst (decompress zlib_decompress b64decode self' blob metas').
Proof.
  intros Hl Hc. unfold decompress.
  destruct (b64decode blob) as [decoded | e]; [| reflexivity].
  pose proof (@decompress_loop_fields self self' decoded metas metas' 0 [] [] []
                Hl Hc) as H.
  destruct (decompress_loop zlib_decompress self decoded metas 0 [] [])
    as [[out | e] log];
    destruct (decompress_loop zlib_decompress self' decoded metas' 0 [] [])
      as [[out' | e'] log']; simpl in H; inversion H; reflexivity.
Qed.

(** X12.  When [decompress] returns, it has logged one warning for each
    entry that holds a score below the threshold, in order, at that
    entry's cursor position; the warnings do not stop the decoding. *)
Theorem decompress_warnings (self : GenomeCompressor) (blob : bytes)
  (metas : list ChunkMetadata) (text : list Z) :
  fst (decompress zlib_decompress b64decode self blob metas) = Ok text ->
  snd (decompress zlib_decompress b64decode self blob metas)
  = low_quality_positions (quality_threshold self) metas 0.
Proof.
  unfold decompress.
  destruct (b64decode blob) as [decoded | e]; [| discriminate].
  destruct (decompress_loop zlib_decompress self decoded metas 0 [] [])
    as [[out | e] log] eqn:Hloop; [| discriminate].
  intros _. apply decompress_loop_log in Hloop. simpl. exact Hloop.
Qed.

End DecompressMore.

Lemma decompress_result_fields_witness :
  fst (decompress stored_decompress strict_b64decode (__init__ 100) sample_blob
         [sample_meta_scores [12; 31]])
  = Ok (codepoints (lit "ACGT")).
Proof.
  rewrite (@decompress_result_fields stored_decompress strict_b64decode
             (__init__ 100) (__init__ 100) sample_blob
             [sample_meta_scores [12; 31]] [sample_meta (crc32 sample_data)]
             eq_refl eq_refl).
  vm_compute. reflexivity.
Defined.

Lemma decompress_warnings_witness :
  snd (decompress stored_decompress strict_b64decode (__init__ 100) sample_blob
         [sample_meta_scores [12; 31]])
  = [LowQualityWarning 0].
Proof.
  rewrite (@decompress_warnings stored_decompress strict_b64decode
             (__init__ 100) sample_blob [sample_meta_scores [12; 31]]
             (codepoints (lit "ACGT"))).
  - reflexivity.
  - vm_compute. reflexivity.
Defined.

(** ** The pipeline: cleaning, the caches, and [process] *)

Lemma in_class_ACGTN_In (c : ascii) :
  in_class_ACGTN c = true <-> In c (lit "ACGTN").
Proof.
  unfold in_class_ACGTN. rewrite existsb_exists. split.
  - intros (x & Hx & E). apply Ascii.eqb_eq in E. subst. exact Hx.
  - intros H. exists c. split; [exact H | apply Ascii.eqb_refl].
Qed.

Lemma upper_char_class (c : ascii) : In c (lit "ACGTN") -> upper_char c = c.
Proof.
  simpl. intros [<- | [<- | [<- | [<- | [<- | []]]]]]; reflexivity.
Qed.

Lemma clean_class (data : pystr) :
  Forall (fun c => In c (lit "ACGTN")) (clean data).
Proof.
  apply Forall_forall. intros c Hc. unfold clean in Hc.
  apply filter_In in Hc. destruct Hc as [_ Hc].
  apply in_class_ACGTN_In. exact Hc.
Qed.

Lemma clean_fixed (s : pystr) :
  Forall (fun c => In c (lit "ACGTN")) s -> clean s = s.
Proof.
  intros H. unfold clean.
  assert (Hu : upper s = s).
  { unfold upper. induction H as [| c s Hc _ IH]; [reflexivity |].
    cbn [map]. rewrite (upper_char_class Hc). f_equal. exact IH. }
  rewrite Hu. change (filter in_class_ACGTN s = s).
  clear Hu. induction H as [| c s Hc Hs IH]; [reflexivity |].
  cbn [filter]. rewrite (proj2 (in_class_ACGTN_In c) Hc). f_equal.
  exact IH.
Qed.

Lemma filter_length_le {A} (f : A -> bool) (l : list A) :
  len (filter f l) <= len l.
Proof.
  induction l as [| x l IH]; simpl; [lia |].
  destruct (f x); rewrite ?len_cons; lia.
Qed.

Lemma validate_clean (data : pystr) :
  _validate_sequence (clean data) = (100 <=? len (clean data)).
Proof.
  destruct (Z.leb_spec 100 (len (clean data))) as [Hge | Hlt].
  - apply validate_sequence_admits; [exact Hge |].
    apply forallb_forall. intros x Hx. unfold upper in Hx.
    apply in_map_iff in Hx. destruct Hx as (c & <- & Hc).
    pose proof (clean_class data) as Hall. rewrite Forall_forall in Hall.
    specialize (Hall c Hc). rewrite (upper_char_class Hall).
    apply in_class_ACGTN_In. exact Hall.
  - apply validate_sequence_rejects_short. exact Hlt.
Qed.

(** X13.  The text that [_preprocess] returns is the upper-cased input
    without the characters other than A, C, G, T, N: it holds those five
    symbols only, is no longer than the input, is left as it is by a
    second cleaning, and passes the validator exactly when it has at
    least 100 symbols. *)
Theorem preprocess_text (md5_hexdigest : bytes -> pystr)
  (self self' : AdvancedCompressionPipeline) (data : pystr) :
  let cleaned := fst (_preprocess md5_hexdigest self data) in
  cleaned = filter in_class_ACGTN (upper data) /\
  Forall (fun c => In c (lit "ACGTN")) cleaned /\
  len cleaned <= len data /\
  fst (_preprocess md5_hexdigest self' cleaned) = cleaned /\
  _validate_sequence cleaned = (100 <=? len cleaned).
Proof.
  simpl. split; [reflexivity |]. split; [apply clean_class |].
  split; [| split].
  - unfold clean. eapply Z.le_trans; [apply filter_length_le |].
    unfold upper, len. rewrite length_map. lia.
  - apply clean_fixed, clean_class.
  - apply validate_clean.
Qed.

Lemma merge_lookup_None (o : option (list Z)) : merge_lookup o None = o.
Proof. destruct o; reflexivity. Qed.

Lemma dict_get_extend (d : pydict) (k' k : pystr) (w : list Z) :
  dict_get (dict_extend d k' w) k
  = if str_eqb k' k
    then match dict_get d k with Some v => Some (v ++ w) | None => None end
    else dict_get d k.
Proof.
  induction d as [| [k0 v] d IH]; simpl.
  - destruct (str_eqb k' k); reflexivity.
  - destruct (str_eqb k0 k') eqn:E0; simpl.
    + apply str_eqb_eq in E0. subst k0.
      destruct (str_eqb k' k); reflexivity.
    + rewrite IH. destruct (str_eqb k0 k) eqn:E1; [| reflexivity].
      apply str_eqb_eq in E1. subst k0.
      assert (E2 : str_eqb k' k = false).
      { apply str_eqb_neq. apply str_eqb_neq in E0. congruence. }
      rewrite E2. reflexivity.
Qed.

Lemma dict_get_set (d : pydict) (k' k : pystr) (w : list Z) :
  dict_get (dict_set d k' w) k
  = if str_eqb k' k then Some w else dict_get d k.
Proof.
  induction d as [| [k0 v] d IH]; simpl.
  - destruct (str_eqb k' k); reflexivity.
  - destruct (str_eqb k0 k') eqn:E0; simpl.
    + apply str_eqb_eq in E0. subst k0.
      destruct (str_eqb k' k); reflexivity.
    + rewrite IH. destruct (str_eqb k0 k) eqn:E1; [| reflexivity].
      apply str_eqb_eq in E1. subst k0.
      assert (E2 : str_eqb k' k = false).
      { apply str_eqb_neq. apply str_eqb_neq in E0. congruence. }
      rewrite E2. reflexivity.
Qed.

Lemma dict_get_cache_pattern (d : pydict) (k' k : pystr) (w : list Z) :
  dict_get (cache_pattern d (k', w)) k
  = if str_eqb k' k then merge_lookup (dict_get d k) (Some w)
    else dict_get d k.
Proof.
  unfold cache_pattern, dict_contains. simpl fst. simpl snd.
  destruct (dict_get d k') as [v |] eqn:E.
  - rewrite dict_get_extend. destruct (str_eqb k' k) eqn:Ek; [| reflexivity].
    apply str_eqb_eq in Ek. subst k'. rewrite E. reflexivity.
  - rewrite dict_get_set. destruct (str_eqb k' k) eqn:Ek; [| reflexivity].
    apply str_eqb_eq in Ek. subst k'. rewrite E. reflexivity.
Qed.

Lemma dict_get_cache_fold (new : pydict) :
  NoDup (map fst new) ->
  forall d k,
    dict_get (fold_left cache_pattern new d) k
    = merge_lookup (dict_get d k) (dict_get new k).
Proof.
  induction new as [| [k' w] new IH]; intros Hnd d k.
  - simpl. rewrite merge_lookup_None. reflexivity.
  - inversion Hnd as [| ? ? Hnotin Hnd']; subst.
    cbn [fold_left]. rewrite (IH Hnd'), dict_get_cache_pattern.
    simpl dict_get. destruct (str_eqb k' k) eqn:E.
    + apply str_eqb_eq in E. subst k'.
      rewrite (dict_get_None _ _ Hnotin), merge_lookup_None. reflexivity.
    + reflexivity.
Qed.

Lemma dict_set_length (d : pydict) (k : pystr) (w : list Z) :
  len d <= len (dict_set d k w) <= len d + 1.
Proof.
  induction d as [| [k0 v] d IH]; cbn [dict_set].
  - unfold len. simpl. lia.
  - destruct (str_eqb k0 k); rewrite !len_cons; lia.
Qed.

Lemma dict_extend_length (d : pydict) (k : pystr) (w : list Z) :
  len (dict_extend d k w) = len d.
Proof.
  induction d as [| [k0 v] d IH]; cbn [dict_extend]; [reflexivity |].
  destruct (str_eqb k0 k); rewrite !len_cons; lia.
Qed.

Lemma cache_fold_length (new d : pydict) :
  len d <= len (fold_left cache_pattern new d).
Proof.
  revert d. induction new as [| item new IH]; intros d; cbn [fold_left];
    [lia |].
  eapply Z.le_trans; [| apply IH]. unfold cache_pattern.
  destruct (dict_contains d (fst item)).
  - rewrite dict_extend_length. lia.
  - apply dict_set_length.
Qed.

Lemma update_patterns_cache_fold (p : AdvancedCompressionPipeline)
  (sequence k : pystr) :
  dict_get (patterns_cache (_update_patterns_cache p sequence)) k
  = merge_lookup (dict_get (patterns_cache p) k)
      (dict_get (_find_patterns (compressor p) sequence) k).
Proof.
  unfold _update_patterns_cache. cbn [patterns_cache].
  apply dict_get_cache_fold, find_patterns_keys_NoDup.
Qed.

(** X14.  [_update_patterns_cache] never drops anything: under every
    key the cache afterwards holds the positions it held before followed
    by the positions found in the new text, and the number of keys does
    not go down.  Positions are not merged: updating twice with the same
    text stores every position of a pattern twice. *)
Theorem update_patterns_cache_lookup (self : AdvancedCompressionPipeline)
  (sequence k : pystr) :
  let found := dict_get (_find_patterns (compressor self) sequence) k in
  let once := _update_patterns_cache self sequence in
  dict_get (patterns_cache once) k
  = merge_lookup (dict_get (patterns_cache self) k) found /\
  dict_get (patterns_cache (_update_patterns_cache once sequence)) k
  = merge_lookup (merge_lookup (dict_get (patterns_cache self) k) found) found /\
  len (patterns_cache self) <= len (patterns_cache once) /\
  compressor once = compressor self /\
  quality_cache once = quality_cache self.
Proof.
  intros found once.
  split; [apply update_patterns_cache_fold |].
  split; [| split; [| split; reflexivity]].
  - rewrite update_patterns_cache_fold. unfold once.
    rewrite update_patterns_cache_fold. reflexivity.
  - apply cache_fold_length.
Qed.

(** X15.  The instance after [_preprocess]: the quality cache maps the
    digest of the cleaned text (not of the raw input) to the quality
    scores of the cleaned text, replacing an older entry under the same
    digest and leaving every other digest alone, so it grows by at most
    one entry; the pattern cache is the one [_update_patterns_cache]
    builds from the cleaned text; the compressor is untouched. *)
Theorem preprocess_caches (md5_hexdigest : bytes -> pystr)
  (self : AdvancedCompressionPipeline) (data k : pystr) :
  let cleaned := filter in_class_ACGTN (upper data) in
  let after := snd (_preprocess md5_hexdigest self data) in
  dict_get (quality_cache after) k
  = (if str_eqb (md5_hexdigest (str_encode cleaned)) k
     then Some (_calculate_quality_scores cleaned)
     else dict_get (quality_cache self) k) /\
  len (quality_cache self) <= len (quality_cache after)
                           <= len (quality_cache self) + 1 /\
  dict_get (patterns_cache after) k
  = merge_lookup (dict_get (patterns_cache self) k)
      (dict_get (_find_patterns (compressor self) cleaned) k) /\
  compressor after = compressor self.
Proof.
  intros cleaned after. unfold after, _preprocess. cbv zeta. cbn [snd].
  unfold _update_quality_cache.
  cbn [quality_cache patterns_cache compressor].
  split; [apply dict_get_set |]. split; [apply dict_set_length |].
  split; [| reflexivity].
  apply (update_patterns_cache_fold self (clean data) k).
Qed.

